(** * Icecake: a shallow embedding of [icecake.py]

    The static site builder is modelled as executable Rocq definitions:
    Python strings are [string]s (byte strings; UTF-8 keeps the code-point
    order), [os.path] is the POSIX flavour written out on strings, the disk
    is a finite map from absolute paths to nodes, the [ContentCache]
    dictionaries are an insertion-ordered association list ([files], whose
    iteration order [Site.get_pages] observes) and a [gmap] ([templates],
    only ever looked up), a reference to a list of pages is either the
    [Site.pagedata] object or a list of its own, so that aliasing is
    visible, and exceptions are an error monad over the whole state.  The
    program is taken as Python 3 runs it on a POSIX system with a UTF-8
    locale.  The Markdown renderer, the Jinja template engine and
    [configparser] are parameters of the development, and so is what the
    interpreter leaves of a list when its sort is interrupted. *)

From Stdlib Require Import Strings.String Strings.Ascii Lists.List Bool Arith Lia.
From Stdlib Require Import Sorting.Sorted ZArith Numbers.DecimalString.
From stdpp Require Import gmap strings list fin_maps sorting.

Open Scope string_scope.

(** ** Python [str] methods used by the program *)
Module pystr.

Definition eqb_ascii (a b : ascii) : bool := Ascii.eqb a b.

(** [s.startswith(p)] *)
Definition startswith (s p : string) : bool := String.prefix p s.

(** [s.split(sep)] for a one-character separator: one more piece than
    there are separators, empty pieces kept. *)
Fixpoint split (sep : ascii) (s : string) : list string :=
  match s with
  | EmptyString => [""]
  | String a s' =>
      if eqb_ascii a sep then "" :: split sep s'
      else match split sep s' with
           | h :: t => String a h :: t
           | [] => [String a ""]
           end
  end.

(** [sep.join(l)] *)
Definition join (sep : string) (l : list string) : string := String.concat sep l.

(** The characters [str.isspace()] holds of, in the ASCII range. *)
Definition isspace (a : ascii) : bool :=
  let n := nat_of_ascii a in
  ((9 <=? n)%nat && (n <=? 13)%nat) || ((28 <=? n)%nat && (n <=? 32)%nat).

(** The number of bytes of the whitespace character that [s] starts
    with, [0] when it starts with none.  Beyond ASCII, [str.isspace()]
    holds of U+0085, U+00A0, U+1680, U+2000 to U+200A, U+2028, U+2029,
    U+202F, U+205F and U+3000, which are met here in UTF-8. *)
Definition space_len (s : string) : nat :=
  match s with
  | EmptyString => 0
  | String a s1 =>
      if isspace a then 1
      else
        let n := nat_of_ascii a in
        match s1 with
        | String b s2 =>
            let m := nat_of_ascii b in
            if (n =? 194)%nat then
              if (m =? 133)%nat || (m =? 160)%nat then 2 else 0
            else
              match s2 with
              | String c _ =>
                  let k := nat_of_ascii c in
                  if (n =? 225)%nat then
                    if (m =? 154)%nat && (k =? 128)%nat then 3 else 0
                  else if (n =? 226)%nat then
                    if ((m =? 128)%nat
                        && (((128 <=? k)%nat && (k <=? 138)%nat)
                            || (k =? 168)%nat || (k =? 169)%nat || (k =? 175)%nat))
                       || ((m =? 129)%nat && (k =? 159)%nat)
                    then 3 else 0
                  else if (n =? 227)%nat then
                    if (m =? 128)%nat && (k =? 128)%nat then 3 else 0
                  else 0
              | EmptyString => 0
              end
        | EmptyString => 0
        end
  end.

(** [s.lstrip()]; [skip] counts the bytes of a whitespace character
    still to pass over. *)
Fixpoint lstrip_go (skip : nat) (s : string) : string :=
  match s with
  | EmptyString => ""
  | String a s' =>
      match skip with
      | S k => lstrip_go k s'
      | 0 =>
          match space_len s with
          | S k => lstrip_go k s'
          | 0 => s
          end
      end
  end.
Definition lstrip (s : string) : string := lstrip_go 0 s.

(** [s.rstrip()]: cut where nothing but whitespace follows. *)
Fixpoint rstrip (s : string) : string :=
  match s with
  | EmptyString => ""
  | String a s' => if String.eqb (lstrip s) "" then "" else String a (rstrip s')
  end.

Definition strip (s : string) : string := rstrip (lstrip s).

(** [s.split(delim, 1)] for a non-empty delimiter: cut at the first
    occurrence, or return the text alone. *)
Definition split1 (delim s : string) : list string :=
  match String.index 0 delim s with
  | Some i =>
      [ String.substring 0 i s;
        String.substring (i + String.length delim)
                         (String.length s - (i + String.length delim)) s ]
  | None => [s]
  end.

(** [s.split()] with no argument: the whitespace-separated words, empty
    pieces dropped.  Used only to state what splitting on whitespace
    means. *)
Fixpoint words_go (skip : nat) (cur : option string) (s : string) : list string :=
  match s with
  | EmptyString => match cur with Some w => [String.rev w] | None => [] end
  | String a s' =>
      match skip with
      | S k => words_go k cur s'
      | 0 =>
          match space_len s with
          | S k =>
              match cur with
              | Some w => String.rev w :: words_go k None s'
              | None => words_go k None s'
              end
          | 0 => words_go 0 (Some (String a (match cur with Some w => w | None => "" end))) s'
          end
      end
  end.
Definition split_whitespace (s : string) : list string := words_go 0 None s.

(** [s.replace(old, new)] for a non-empty [old]: every occurrence met
    from the left, the occurrences not overlapping.  [skip] counts the
    characters of an occurrence still to pass over. *)
Fixpoint replace_go (old new : string) (skip : nat) (s : string) : string :=
  match s with
  | EmptyString => ""
  | String a s' =>
      match skip with
      | S k => replace_go old new k s'
      | 0 =>
          if String.prefix old s
          then new ++ replace_go old new (String.length old - 1) s'
          else String a (replace_go old new 0 s')
      end
  end.
Definition replace (s old new : string) : string := replace_go old new 0 s.

(** [x in l] on a list of strings *)
Definition mem (x : string) (l : list string) : bool :=
  existsb (String.eqb x) l.

End pystr.

(** ** [posixpath] *)
Module posixpath.

Definition sep : ascii := "/"%char.

(** [(p[:i], p[i:])] with [i = p.rfind(c) + 1] *)
Fixpoint split_last (c : ascii) (p : string) : string * string :=
  match p with
  | EmptyString => ("", "")
  | String a p' =>
      let '(h, t) := split_last c p' in
      match h with
      | EmptyString => if pystr.eqb_ascii a c then (String a "", t) else ("", String a t)
      | _ => (String a h, t)
      end
  end.

Definition basename (p : string) : string := snd (split_last sep p).

Fixpoint all_char (c : ascii) (s : string) : bool :=
  match s with
  | EmptyString => true
  | String a s' => pystr.eqb_ascii a c && all_char c s'
  end.

Fixpoint rstrip_char (c : ascii) (s : string) : string :=
  match s with
  | EmptyString => ""
  | String a s' =>
      match rstrip_char c s' with
      | EmptyString => if pystr.eqb_ascii a c then "" else String a ""
      | r => String a r
      end
  end.

Definition dirname (p : string) : string :=
  let head := fst (split_last sep p) in
  if negb (String.eqb head "") && negb (all_char sep head)
  then rstrip_char sep head else head.

(** [(s[:j], s[j:])] with [j = s.rfind('.')], when there is a dot *)
Fixpoint rsplit_dot (s : string) : option (string * string) :=
  match s with
  | EmptyString => None
  | String a s' =>
      match rsplit_dot s' with
      | Some (r, e) => Some (String a r, e)
      | None => if pystr.eqb_ascii a "."%char then Some ("", s) else None
      end
  end.

(** [splitext]: the extension starts at the last dot of the last
    component, unless only dots precede it there. *)
Definition splitext (p : string) : string * string :=
  let '(h, t) := split_last sep p in
  match rsplit_dot t with
  | Some (r, e) => if all_char "."%char r then (p, "") else (h ++ r, e)
  | None => (p, "")
  end.

Definition isabs (p : string) : bool := pystr.startswith p "/".

Definition endswith_sep (p : string) : bool :=
  match split_last sep p with
  | (String _ _, EmptyString) => true
  | _ => false
  end.

Definition join2 (a b : string) : string :=
  if isabs b then b
  else if String.eqb a "" || endswith_sep a then a ++ b
  else a ++ "/" ++ b.

(** [join(a, *p)] *)
Definition join (a : string) (p : list string) : string := fold_left join2 p a.

(** The loop of [normpath] over the components; [stack] is [new_comps]
    with its last element first. *)
Fixpoint norm_comps (initial_slashes : bool) (stack comps : list string) : list string :=
  match comps with
  | [] => stack
  | c :: cs =>
      if String.eqb c "" || String.eqb c "." then norm_comps initial_slashes stack cs
      else if negb (String.eqb c "..")
              || (negb initial_slashes && match stack with [] => true | _ => false end)
              || match stack with s :: _ => String.eqb s ".." | [] => false end
      then norm_comps initial_slashes (c :: stack) cs
      else norm_comps initial_slashes (tl stack) cs
  end.

Definition normpath (path : string) : string :=
  if String.eqb path "" then "."
  else
    let initial_slashes :=
      if pystr.startswith path "/"
      then if pystr.startswith path "//" && negb (pystr.startswith path "///") then 2 else 1
      else 0 in
    let comps := rev (norm_comps (negb (initial_slashes =? 0)%nat) [] (pystr.split sep path)) in
    let path' := pystr.join "/" comps in
    let path' := match initial_slashes with
                 | 0 => path' | 1 => "/" ++ path' | _ => "//" ++ path' end in
    if String.eqb path' "" then "." else path'.

(** The components of [abspath(p)].  [cwd] holds the components of
    [os.getcwd()], which is absolute and normalised. *)
Definition abs_comps (cwd : list string) (p : string) : list string :=
  rev (norm_comps true (if isabs p then [] else rev cwd) (pystr.split sep p)).

Definition abspath (cwd : list string) (p : string) : string :=
  (if pystr.startswith p "//" && negb (pystr.startswith p "///") then "//" else "/")
    ++ pystr.join "/" (abs_comps cwd p).

Fixpoint common_prefix (a b : list string) : nat :=
  match a, b with
  | x :: a', y :: b' => if String.eqb x y then S (common_prefix a' b') else 0
  | _, _ => 0
  end.

(** [relpath(path, start)]; [None] is the [ValueError] on an empty path. *)
Definition relpath (cwd : list string) (path start : string) : option string :=
  if String.eqb path "" then None
  else
    let start_list := abs_comps cwd start in
    let path_list := abs_comps cwd path in
    let i := common_prefix start_list path_list in
    let rel_list := (repeat ".." (length start_list - i) ++ drop i path_list)%list in
    match rel_list with
    | [] => Some "."
    | c :: cs => Some (join c cs)
    end.

End posixpath.

(** ** Python exceptions and results *)
Inductive exn : Type :=
| KeyError | ValueError | RuntimeError | TypeError | AttributeError
| OSError | ParsingError | TemplateNotFound | TemplateError | IndexError
| UnicodeDecodeError.

Inductive result (A : Type) : Type :=
| Ok (a : A)
| Raise (e : exn).
Arguments Ok {A} a.
Arguments Raise {A} e.

(** ** A Python [dict] from [str] to [str], in insertion order *)
Module pydict.

Definition t : Type := list (string * string).

Fixpoint get (d : t) (k : string) : option string :=
  match d with
  | [] => None
  | (k', v) :: d' => if String.eqb k' k then Some v else get d' k
  end.

(** [d[k] = v]: an existing key keeps its place, a new key goes last *)
Fixpoint set (d : t) (k v : string) : t :=
  match d with
  | [] => [(k, v)]
  | (k', v') :: d' => if String.eqb k' k then (k', v) :: d' else (k', v') :: set d' k v
  end.

(** [del d[k]] on a present key *)
Fixpoint del (d : t) (k : string) : t :=
  match d with
  | [] => []
  | (k', v') :: d' => if String.eqb k' k then d' else (k', v') :: del d' k
  end.

Definition contains (d : t) (k : string) : bool :=
  match get d k with Some _ => true | None => false end.

Definition keys (d : t) : list string := map fst d.

End pydict.

(** ** [list.sort]: a stable insertion sort *)
Module pysort.

Section Sort.
Context {A : Type} (le : A -> A -> bool).

Fixpoint insert (x : A) (l : list A) : list A :=
  match l with
  | [] => [x]
  | y :: l' => if le x y then x :: l else y :: insert x l'
  end.

Fixpoint sort (l : list A) : list A :=
  match l with
  | [] => []
  | x :: l' => insert x (sort l')
  end.
End Sort.

(** [l.sort()] of strings *)
Definition sort_strings (l : list string) : list string := sort String.leb l.

End pysort.

(** ** The file system *)
Module os.

(** [File] and [Locked] are regular files, holding bytes; a [Locked]
    file is one that the process has no permission to open. *)
Inductive node : Type :=
| File (content : string)
| Dir
| Locked (content : string).

(** Keys are absolute, normalised paths. *)
Definition Disk : Type := gmap string node.

(** The path the kernel resolves [p] to (no symbolic links). *)
Definition resolve (cwd : list string) (p : string) : string :=
  "/" ++ pystr.join "/" (posixpath.abs_comps cwd p).

Definition lookup (d : Disk) (key : string) : option node :=
  if String.eqb key "/" then Some Dir else d !! key.

Definition isfile (cwd : list string) (d : Disk) (p : string) : bool :=
  match lookup d (resolve cwd p) with
  | Some (File _) | Some (Locked _) => true
  | _ => false
  end.

Definition isdir (cwd : list string) (d : Disk) (p : string) : bool :=
  match lookup d (resolve cwd p) with Some Dir => true | _ => false end.

Definition exists_ (cwd : list string) (d : Disk) (p : string) : bool :=
  match lookup d (resolve cwd p) with Some _ => true | None => false end.

(** A continuation byte of UTF-8 *)
Definition utf8_cont (a : ascii) : bool :=
  let n := nat_of_ascii a in (128 <=? n)%nat && (n <=? 191)%nat.

(** The well-formed byte sequences of UTF-8: no overlong form, no
    surrogate, nothing beyond U+10FFFF. *)
Fixpoint utf8_valid (s : string) : bool :=
  match s with
  | EmptyString => true
  | String a s1 =>
      let n := nat_of_ascii a in
      if (n <? 128)%nat then utf8_valid s1
      else if (194 <=? n)%nat && (n <=? 223)%nat then
        match s1 with
        | String b s2 => utf8_cont b && utf8_valid s2
        | _ => false
        end
      else if (224 <=? n)%nat && (n <=? 239)%nat then
        match s1 with
        | String b (String c s3) =>
            let m := nat_of_ascii b in
            (if (n =? 224)%nat then (160 <=? m)%nat && (m <=? 191)%nat
             else if (n =? 237)%nat then (128 <=? m)%nat && (m <=? 159)%nat
             else utf8_cont b)
            && utf8_cont c && utf8_valid s3
        | _ => false
        end
      else if (240 <=? n)%nat && (n <=? 244)%nat then
        match s1 with
        | String b (String c (String e s4)) =>
            let m := nat_of_ascii b in
            (if (n =? 240)%nat then (144 <=? m)%nat && (m <=? 191)%nat
             else if (n =? 244)%nat then (128 <=? m)%nat && (m <=? 143)%nat
             else utf8_cont b)
            && utf8_cont c && utf8_cont e && utf8_valid s4
        | _ => false
        end
      else false
  end.

(** Universal newlines: a carriage return, with the line feed after it
    if there is one, is read as one line feed. *)
Fixpoint universal_newlines (s : string) : string :=
  match s with
  | EmptyString => ""
  | String a s1 =>
      if (nat_of_ascii a =? 13)%nat then
        match s1 with
        | String b s2 =>
            if (nat_of_ascii b =? 10)%nat
            then String b (universal_newlines s2)
            else String (ascii_of_nat 10) (universal_newlines s1)
        | EmptyString => String (ascii_of_nat 10) ""
        end
      else String a (universal_newlines s1)
  end.

(** What a file opened in text mode gives for these bytes.  The
    encoding is UTF-8, the preferred encoding of the locale where the
    program is run, and errors are strict. *)
Definition decode (bytes : string) : result string :=
  if utf8_valid bytes then Ok (universal_newlines bytes) else Raise UnicodeDecodeError.

(** [open(p).read()] *)
Definition read (cwd : list string) (d : Disk) (p : string) : result string :=
  match lookup d (resolve cwd p) with
  | Some (File c) => decode c
  | _ => Raise OSError
  end.

(** [open(p, "rb").read()] *)
Definition read_bytes (cwd : list string) (d : Disk) (p : string) : result string :=
  match lookup d (resolve cwd p) with
  | Some (File c) => Ok c
  | _ => Raise OSError
  end.

Definition parent (key : string) : string :=
  match posixpath.dirname key with "" => "/" | k => k end.

(** [open(p, "w").write(c)] and [open(p, "wb").write(c)]: the directory
    must exist, and [p] must be neither a directory nor a file that may
    not be opened.  The text is written in UTF-8, with its line feeds as
    they are. *)
Definition write (cwd : list string) (d : Disk) (p c : string) : result Disk :=
  let key := resolve cwd p in
  match lookup d (parent key), lookup d key with
  | Some Dir, Some Dir => Raise OSError
  | Some Dir, Some (Locked _) => Raise OSError
  | Some Dir, _ => Ok (<[key := File c]> d)
  | _, _ => Raise OSError
  end.

Fixpoint mkdirs (d : Disk) (prefix : string) (comps : list string) : result Disk :=
  match comps with
  | [] => Ok d
  | c :: cs =>
      let k := prefix ++ "/" ++ c in
      match lookup d k with
      | Some (File _) | Some (Locked _) => Raise OSError
      | Some Dir => mkdirs d k cs
      | None => mkdirs (<[k := Dir]> d) k cs
      end
  end.

(** [os.makedirs(p)]: creates the missing ancestors and the leaf, and
    fails when the leaf exists. *)
Definition makedirs (cwd : list string) (d : Disk) (p : string) : result Disk :=
  match lookup d (resolve cwd p) with
  | Some _ => Raise OSError
  | None => mkdirs d "" (posixpath.abs_comps cwd p)
  end.

(** [key] itself or a path below it *)
Definition under (key k : string) : bool :=
  String.eqb k key
  || pystr.startswith k (if String.eqb key "/" then "/" else key ++ "/").

(** [shutil.rmtree(p)]: [p] must be a directory; it goes with all below. *)
Definition rmtree (cwd : list string) (d : Disk) (p : string) : result Disk :=
  let key := resolve cwd p in
  match lookup d key with
  | Some Dir => Ok (filter (fun kv => under key (fst kv) = false) d)
  | _ => Raise OSError
  end.

(** The regular files [os.walk(top)] reaches, each as
    [join(path, file)]; nothing when [top] is not a directory. *)
Definition walk_files (cwd : list string) (d : Disk) (top : string) : list string :=
  let key := resolve cwd top in
  let pre := if String.eqb key "/" then "/" else key ++ "/" in
  if isdir cwd d top then
    omap (fun kv =>
            match snd kv with
            | File _ | Locked _ =>
                if pystr.startswith (fst kv) pre
                then Some (posixpath.join2 top
                             (String.substring (String.length pre)
                                (String.length (fst kv) - String.length pre) (fst kv)))
                else None
            | Dir => None
            end) (map_to_list d)
  else [].

End os.

(** [ls_relative(list_path)] *)
Definition ls_relative (cwd : list string) (d : os.Disk) (list_path : string) : list string :=
  if negb (os.isdir cwd d list_path) then []
  else
    pysort.sort_strings
      (omap (fun filepath => posixpath.relpath cwd filepath list_path)
            (os.walk_files cwd d list_path)).

(** Exceptions propagate through sequencing. *)
Global Instance result_ret : MRet result := fun A a => Ok a.
Global Instance result_bind : MBind result :=
  fun A B f m => match m with Ok a => f a | Raise e => Raise e end.

(** [for x in l: body], threading a value through the iterations *)
Fixpoint for_result {A S : Type} (l : list A) (body : A -> S -> result S) (s : S) : result S :=
  match l with
  | [] => Ok s
  | x :: l' => s' ← body x s; for_result l' body s'
  end.

(** ** [class ContentCache] *)
Module ContentCache.

(** The [pages] dictionary of the class is never read or written after
    [__init__] and is left out. *)
Record t : Type := mk {
  root : string;
  files : pydict.t;
  templates : gmap string string;
}.

Definition __init__ (root : string) : t :=
  {| root := root; files := []; templates := ∅ |}.

(** [peek]: fresh data from disk, the cache untouched *)
Definition peek (cwd : list string) (d : os.Disk) (self : t) (filename : string)
  : result (option string) :=
  let file := posixpath.join (root self) [filename] in
  if os.isfile cwd d file
  then content ← os.read cwd d file; Ok (Some content)
  else Ok None.

Definition set (cwd : list string) (self : t) (filename content : string) : result t :=
  templates1 ←
    (if pystr.startswith filename "content" then
       (* Markdown files are not templates so let's skip those *)
       if negb (String.eqb (snd (posixpath.splitext filename)) ".md") then
         match posixpath.relpath cwd filename "content" with
         | Some k => Ok (<[k := content]> (templates self))
         | None => Raise ValueError
         end
       else Ok (templates self)
     else Ok (templates self));
  templates2 ←
    (if pystr.startswith filename "layouts" then
       match posixpath.relpath cwd filename "layouts" with
       | Some k => Ok (<[k := content]> templates1)
       | None => Raise ValueError
       end
     else Ok templates1);
  Ok {| root := root self;
        files := pydict.set (files self) filename content;
        templates := templates2 |}.

(** [read]: fresh data from disk, stored in the cache *)
Definition read (cwd : list string) (d : os.Disk) (self : t) (filename : string)
  : result (option string * t) :=
  content ← peek cwd d self filename;
  match content with
  | Some c => self' ← set cwd self filename c; Ok (content, self')
  | None => Ok (content, self)
  end.

Definition get (self : t) (filename : string) : option string :=
  if pydict.contains (files self) filename then pydict.get (files self) filename
  else None.

Definition delete (self : t) (filename : string) : result t :=
  if pydict.contains (files self) filename
  then Ok {| root := root self;
             files := pydict.del (files self) filename;
             templates := templates self |}
  else Raise KeyError.

Definition move (cwd : list string) (self : t) (old new : string) : result t :=
  if negb (pydict.contains (files self) old) then Ok self
  else
    match get self old with
    | Some content => self' ← set cwd self new content; delete self' old
    | None => Raise TypeError
    end.

Definition warm (cwd : list string) (d : os.Disk) (self : t) : result t :=
  for_result ["content"; "layouts"]
    (fun path self1 =>
       for_result (ls_relative cwd d (posixpath.join (root self1) [path]))
         (fun file self2 =>
            r ← read cwd d self2 (posixpath.join path [file]); Ok (snd r))
         self1)
    self.

End ContentCache.

(** ** The attributes of a [Page] object

    The [site] attribute is not stored: the methods read the site from the
    state they run in, or take what they need from it as arguments. *)
Module PageObject.

Record t : Type := mk {
  parsed : bool;
  abspath : string;
  filepath : string;
  folder : string;
  slug : string;
  ext : string;
  url : string;
  date : option string;
  tags : option (list string);
  template : option string;
  title : option string;
  body : option string;
  content : option string;
  rendered : option string;
}.

Definition set_parsed (v : bool) (p : t) : t :=
  mk v (abspath p) (filepath p) (folder p) (slug p) (ext p) (url p) (date p)
     (tags p) (template p) (title p) (body p) (content p) (rendered p).
Definition set_slug (v : string) (p : t) : t :=
  mk (parsed p) (abspath p) (filepath p) (folder p) v (ext p) (url p) (date p)
     (tags p) (template p) (title p) (body p) (content p) (rendered p).
Definition set_url (v : string) (p : t) : t :=
  mk (parsed p) (abspath p) (filepath p) (folder p) (slug p) (ext p) v (date p)
     (tags p) (template p) (title p) (body p) (content p) (rendered p).
Definition set_date (v : option string) (p : t) : t :=
  mk (parsed p) (abspath p) (filepath p) (folder p) (slug p) (ext p) (url p) v
     (tags p) (template p) (title p) (body p) (content p) (rendered p).
Definition set_tags (v : option (list string)) (p : t) : t :=
  mk (parsed p) (abspath p) (filepath p) (folder p) (slug p) (ext p) (url p) (date p)
     v (template p) (title p) (body p) (content p) (rendered p).
Definition set_template (v : option string) (p : t) : t :=
  mk (parsed p) (abspath p) (filepath p) (folder p) (slug p) (ext p) (url p) (date p)
     (tags p) v (title p) (body p) (content p) (rendered p).
Definition set_title (v : option string) (p : t) : t :=
  mk (parsed p) (abspath p) (filepath p) (folder p) (slug p) (ext p) (url p) (date p)
     (tags p) (template p) v (body p) (content p) (rendered p).
Definition set_body (v : option string) (p : t) : t :=
  mk (parsed p) (abspath p) (filepath p) (folder p) (slug p) (ext p) (url p) (date p)
     (tags p) (template p) (title p) v (content p) (rendered p).
Definition set_content (v : option string) (p : t) : t :=
  mk (parsed p) (abspath p) (filepath p) (folder p) (slug p) (ext p) (url p) (date p)
     (tags p) (template p) (title p) (body p) v (rendered p).
Definition set_rendered (v : option string) (p : t) : t :=
  mk (parsed p) (abspath p) (filepath p) (folder p) (slug p) (ext p) (url p) (date p)
     (tags p) (template p) (title p) (body p) (content p) v.

End PageObject.

(** ** The external collaborators

    [markdown] is [markdown.markdown(text, extensions=...)];
    [template_render templates source page pagedata] is the rendering of
    the Jinja template with text [source] in an environment loading from
    [templates], with the attributes of [page] as variables and a [site]
    whose [pagedata] holds the given pages; [config_items text] is
    [ConfigParser.read_string(text)] followed by [items("Metadata")].

    A template is handed the site itself, and the method it is meant to
    call there, [site.pages], sorts [site.pagedata] in place when it is
    given an order and no filter.  [template_sorts templates source page
    pagedata] lists the orders of these calls as the rendering makes
    them, one after the other; calls with a filter, and [site.tags],
    leave the site as it is.  ([Site.atom], which renders pages again, is
    outside this development, and so are templates that call it.) *)
Record External : Type := {
  markdown : string -> string;
  template_render :
    gmap string string -> string -> PageObject.t -> list PageObject.t -> result string;
  template_sorts :
    gmap string string -> string -> PageObject.t -> list PageObject.t -> list string;
  config_items : string -> result (list (string * string));
}.

(** The values an attribute of a page can hold *)
Inductive pyval : Type :=
| VNone
| VBool (b : bool)
| VStr (s : string)
| VList (l : list string)
| VObject.

(** ** The state of a run

    One process holds one [Site] (the [Handler] class refers to it through
    its class attribute).  [site_pagedata] is the list object bound to
    [Site.pagedata]; [render_to_disk_calls] records every invocation of
    [Page.render_to_disk] with the page it was invoked on.

    [sort_aborted] belongs to the interpreter the process runs on: when a
    comparison raises in [list.sort], the list is left holding its
    elements in an arrangement that the language does not fix (CPython
    restores them partly sorted).  [sort_aborted rev keys] is that
    arrangement, as the positions the elements had, for a sort of these
    keys. *)
Record World : Type := mkWorld {
  cwd : list string;
  disk : os.Disk;
  site_root : string;
  site_cache : ContentCache.t;
  site_pagedata : list PageObject.t;
  render_to_disk_calls : list PageObject.t;
  sort_aborted : bool -> list pyval -> list nat;
}.

Definition set_disk (d : os.Disk) (w : World) : World :=
  mkWorld (cwd w) d (site_root w) (site_cache w) (site_pagedata w) (render_to_disk_calls w)
          (sort_aborted w).
Definition set_site_root (r : string) (w : World) : World :=
  mkWorld (cwd w) (disk w) r (site_cache w) (site_pagedata w) (render_to_disk_calls w)
          (sort_aborted w).
Definition set_site_cache (c : ContentCache.t) (w : World) : World :=
  mkWorld (cwd w) (disk w) (site_root w) c (site_pagedata w) (render_to_disk_calls w)
          (sort_aborted w).
Definition set_site_pagedata (l : list PageObject.t) (w : World) : World :=
  mkWorld (cwd w) (disk w) (site_root w) (site_cache w) l (render_to_disk_calls w)
          (sort_aborted w).
Definition set_render_to_disk_calls (l : list PageObject.t) (w : World) : World :=
  mkWorld (cwd w) (disk w) (site_root w) (site_cache w) (site_pagedata w) l
          (sort_aborted w).

(** Statements run in a state, and end normally or by raising; what was
    mutated before an exception stays mutated. *)
Definition M (A : Type) : Type := World -> result A * World.

Global Instance M_ret : MRet M := fun A a w => (Ok a, w).
Global Instance M_bind : MBind M :=
  fun A B f m w =>
    match m w with
    | (Ok a, w') => f a w'
    | (Raise e, w') => (Raise e, w')
    end.

Definition raise {A} (e : exn) : M A := fun w => (Raise e, w).
Definition get_world : M World := fun w => (Ok w, w).
Definition modify (f : World -> World) : M unit := fun w => (Ok tt, f w).
Definition lift {A} (r : result A) : M A := fun w => (r, w).

(** [for x in l: body] *)
Fixpoint for_each {A : Type} (l : list A) (body : A -> M unit) : M unit :=
  match l with
  | [] => mret tt
  | x :: l' => _ ← body x; for_each l' body
  end.

(** A disk operation that fails leaves the disk as it was. *)
Definition on_disk (op : list string -> os.Disk -> result os.Disk) : M unit :=
  w ← get_world;
  d ← lift (op (cwd w) (disk w));
  modify (set_disk d).

(** A [ContentCache] method run on [site.cache] *)
Definition on_cache {A} (op : list string -> os.Disk -> ContentCache.t -> result (A * ContentCache.t))
  : M A :=
  w ← get_world;
  r ← lift (op (cwd w) (disk w) (site_cache w));
  _ ← modify (set_site_cache (snd r));
  mret (fst r).

(** [for x in l], collecting the results *)
Fixpoint map_result {A B : Type} (f : A -> result B) (l : list A) : result (list B) :=
  match l with
  | [] => Ok []
  | x :: l' => y ← f x; ys ← map_result f l'; Ok (y :: ys)
  end.

(** ** Ordering of attribute values, as [list.sort] uses it *)
Module pyorder.

Fixpoint list_lt (a b : list string) : bool :=
  match a, b with
  | [], [] => false
  | [], _ :: _ => true
  | _ :: _, [] => false
  | x :: a', y :: b' => if String.eqb x y then list_lt a' b' else String.ltb x y
  end.

(** [a < b]; [None] is the [TypeError] of an unsupported comparison *)
Definition lt (a b : pyval) : option bool :=
  match a, b with
  | VBool x, VBool y => Some (negb x && y)
  | VStr x, VStr y => Some (String.ltb x y)
  | VList x, VList y => Some (list_lt x y)
  | _, _ => None
  end.

Definition comparable (a b : pyval) : bool :=
  match lt a b with Some _ => true | None => false end.

(** [a <= b] for the insertion: [b < a] does not hold *)
Definition le (a b : pyval) : bool :=
  match lt b a with Some r => negb r | None => true end.

(** [l.sort(key=..., reverse=rev)] on the pairs of key and element: the
    list the sort leaves when it returns.  A list of at most one element
    is never compared; otherwise the sort raises unless the keys can be
    compared with one another.  The sort is stable, also when reversed. *)
Definition sort_by {A : Type} (rev_ : bool) (l : list (pyval * A)) : result (list A) :=
  match l with
  | [] | [_] => Ok (map snd l)
  | (k0, _) :: _ =>
      if forallb (fun kx => comparable k0 (fst kx)) l then
        let by_key := pysort.sort (fun x y : pyval * A => le (fst x) (fst y)) in
        Ok (map snd (if rev_ then rev (by_key (rev l)) else by_key l))
      else Raise TypeError
  end.

(** The elements of [l] in the arrangement [p], a list of positions of
    [l]; [l] itself when [p] is not an arrangement of all its positions. *)
Definition reorder {A : Type} (p : list nat) (l : list A) : list A :=
  if bool_decide (pysort.sort Nat.leb p = seq 0 (length l))
  then omap (fun i => l !! i) p
  else l.

(** [l.sort(key=key, reverse=rev_)] in place: how the call ends, and the
    list as the call leaves it.  The keys are computed first, and when
    one of them raises the list is as it was.  When a comparison raises,
    the list holds its elements in the arrangement [aborted rev_ keys]. *)
Definition sort_in_place {A : Type} (aborted : bool -> list pyval -> list nat)
           (key : A -> result pyval) (rev_ : bool) (l : list A) : result unit * list A :=
  match map_result (fun x => k ← key x; Ok (k, x)) l with
  | Raise e => (Raise e, l)
  | Ok keyed =>
      match sort_by rev_ keyed with
      | Ok sorted => (Ok tt, sorted)
      | Raise e => (Raise e, reorder (aborted rev_ (map fst keyed)) l)
      end
  end.

End pyorder.

(** The [order] of [Site.pages] taken apart: whether it starts with [-],
    and the attribute *)
Definition parse_order (order : string) : result (bool * string) :=
  match order with
  | EmptyString => Raise IndexError
  | String a order' =>
      if pystr.eqb_ascii a "-"%char then Ok (true, order') else Ok (false, order)
  end.

(** ** [class Page] *)
Module Page.
Export PageObject.

Definition metadata : list string := ["tags"; "date"; "title"; "slug"; "template"].
Definition required : list string := ["date"; "title"].
Definition metadelimiter : string := "++++".

Definition _get_folder (filepath : string) : string := posixpath.dirname filepath.

Definition _get_default_slug (filepath : string) : string :=
  let slug := fst (posixpath.splitext (posixpath.basename filepath)) in
  if String.eqb slug "index" then "" else slug.

Definition _get_extension (filepath : string) : string :=
  snd (posixpath.splitext filepath).

Definition _get_url (self : t) : string :=
  if pystr.mem (ext self) [".html"; ".md"; ".markdown"]
  then "/" ++ posixpath.normpath (posixpath.join (folder self) [slug self]) ++ "/"
  else "/" ++ posixpath.join (folder self) [slug self ++ ext self].

(** [Page(filepath, site)]; [site_root] is [site.root]. *)
Definition __init__ (cwd : list string) (site_root filepath : string) : result t :=
  match posixpath.relpath cwd filepath (posixpath.join site_root ["content"]) with
  | None => Raise ValueError
  | Some rel =>
      let self :=
        {| parsed := false;
           abspath := posixpath.abspath cwd filepath;
           filepath := rel;
           folder := _get_folder rel;
           slug := _get_default_slug rel;
           ext := _get_extension rel;
           url := "";
           date := None; tags := None; template := None; title := None;
           body := None; content := None; rendered := None |} in
      Ok (set_url (_get_url self) self)
  end.

Definition get_target (self : t) : result string :=
  if negb (parsed self) then Raise RuntimeError
  else if pystr.mem (ext self) [".html"; ".md"; ".markdown"]
  then Ok (posixpath.normpath (posixpath.join (folder self) [slug self; "index.html"]))
  else Ok (posixpath.normpath (posixpath.join (folder self) [slug self ++ ext self])).

(** [getattr(self, key, None)] for the string-valued metadata keys *)
Definition getattr_meta (self : t) (key : string) : option string :=
  if String.eqb key "date" then date self
  else if String.eqb key "title" then title self
  else if String.eqb key "slug" then Some (slug self)
  else if String.eqb key "template" then template self
  else None.

(** [setattr(self, key, value)] for the string-valued metadata keys.
    [slug] is never assigned [None]: it always holds a string, so the
    loop of [parse_metadata] skips it when the table has no entry. *)
Definition setattr_meta (self : t) (key : string) (value : option string) : t :=
  if String.eqb key "date" then set_date value self
  else if String.eqb key "title" then set_title value self
  else if String.eqb key "slug" then
    match value with Some s => set_slug s self | None => self end
  else if String.eqb key "template" then set_template value self
  else self.

(** One iteration of [for key in self.metadata] *)
Definition assign_key (values : pydict.t) (key : string) (self : t) : t :=
  let value := if pydict.contains values key then pydict.get values key else None in
  if String.eqb key "tags" then
    set_tags (Some (match value with
                    | Some v => pystr.split " "%char v
                    | None => []
                    end)) self
  else
    match value, getattr_meta self key with
    | None, Some _ => self
    | _, _ => setattr_meta self key value
    end.

(** [values], filled from [parser.items("Metadata")] *)
Definition values_of (items : list (string * string)) : pydict.t :=
  fold_left (fun vs kv => pydict.set vs (fst kv) (snd kv)) items [].

(** [parse_metadata] from the items of the [Metadata] section on *)
Definition parse_metadata_items (items : list (string * string)) (self : t) : t :=
  let values := values_of items in
  let self := fold_left (fun p key => assign_key values key p) metadata self in
  set_parsed true (set_url (_get_url self) self).

Definition newline : string := String (ascii_of_nat 10) "".

(** An attribute that holds a string or [None] *)
Definition of_option (o : option string) : pyval :=
  match o with Some s => VStr s | None => VNone end.

(** The name of the module (the one it is imported under; run as a
    script it is [__main__]) and the docstring of the class, which are the
    same strings for every page *)
Definition module_name : string := "icecake".

Definition docstring : string :=
  newline
  ++ "    A page is any discrete piece of content that will appear in your output"
  ++ newline
  ++ "    folder. At minimum a page should have a body, title, and slug so it can be"
  ++ newline
  ++ "    rendered. However, a page may have additional metadata like date or tags."
  ++ newline ++ "    ".

(** The attributes that an instance has from its class and from
    [object] besides those of the class body: the class, the instance
    dictionary and methods, none of which can be ordered. *)
Definition object_attributes : list string :=
  ["__class__"; "__dict__"; "__init__"; "__new__"; "__repr__"; "__str__";
   "__hash__"; "__eq__"; "__ne__"; "__lt__"; "__le__"; "__gt__"; "__ge__";
   "__getattribute__"; "__setattr__"; "__delattr__"; "__dir__"; "__format__";
   "__sizeof__"; "__reduce__"; "__reduce_ex__"; "__getstate__";
   "__init_subclass__"; "__subclasshook__"].

(** [getattr(self, name)]: the attributes of the instance, then those of
    the class, then those every object has *)
Definition getattr (self : t) (name : string) : result pyval :=
  if String.eqb name "parsed" then Ok (VBool (parsed self))
  else if String.eqb name "abspath" then Ok (VStr (abspath self))
  else if String.eqb name "filepath" then Ok (VStr (filepath self))
  else if String.eqb name "folder" then Ok (VStr (folder self))
  else if String.eqb name "slug" then Ok (VStr (slug self))
  else if String.eqb name "ext" then Ok (VStr (ext self))
  else if String.eqb name "url" then Ok (VStr (url self))
  else if String.eqb name "date" then Ok (of_option (date self))
  else if String.eqb name "tags" then
    Ok (match tags self with Some l => VList l | None => VNone end)
  else if String.eqb name "template" then Ok (of_option (template self))
  else if String.eqb name "title" then Ok (of_option (title self))
  else if String.eqb name "body" then Ok (of_option (body self))
  else if String.eqb name "content" then Ok (of_option (content self))
  else if String.eqb name "rendered" then Ok (of_option (rendered self))
  else if String.eqb name "metadata" then Ok (VList metadata)
  else if String.eqb name "required" then Ok (VList required)
  else if String.eqb name "metadelimiter" then Ok (VStr metadelimiter)
  else if String.eqb name "__module__" then Ok (VStr module_name)
  else if String.eqb name "__doc__" then Ok (VStr docstring)
  else if String.eqb name "__weakref__" then Ok VNone
  else if pystr.mem name ["site"; "get_target"; "parse_metadata"; "render";
                          "render_to_disk"; "parse_string"; "parse_file";
                          "_get_folder"; "_get_default_slug"; "_get_extension";
                          "_get_url"]
          || pystr.mem name object_attributes
  then Ok VObject
  else Raise AttributeError.

(** The calls [site.pages(order=...)] without a filter that the
    rendering of a template makes, one after the other: each sorts
    [site.pagedata] in place with the attribute as key, as [Site.pages]
    does, and the first that raises ends the rendering.  The elements of
    [l] are the pages of [pagedata], each with a mark. *)
Fixpoint template_sorting {A : Type} (aborted : bool -> list pyval -> list nat)
         (page_of : A -> t) (orders : list string) (l : list A) : result unit * list A :=
  match orders with
  | [] => (Ok tt, l)
  | order :: orders' =>
      match parse_order order with
      | Raise e => (Raise e, l)
      | Ok (rev_, name) =>
          match pyorder.sort_in_place aborted (fun x => getattr (page_of x) name) rev_ l with
          | (Ok _, l') => template_sorting aborted page_of orders' l'
          | (Raise e, l') => (Raise e, l')
          end
      end
  end.

Section WithExternal.
Context (X : External).

Definition parse_metadata (text : string) (self : t) : result t :=
  items ← config_items X ("[Metadata]" ++ newline ++ text);
  Ok (parse_metadata_items items self).

(** [text] is [None] when the caller passes [None] for the string. *)
Definition parse_string (cwd : list string) (site_root filepath : string)
           (text : option string) : result t :=
  page ← __init__ cwd site_root filepath;
  text ← match text with Some s => Ok s | None => Raise AttributeError end;
  match pystr.split1 metadelimiter text with
  | [meta; rest] =>
      page ← parse_metadata (pystr.strip meta) page;
      Ok (set_body (Some (pystr.strip rest)) page)
  | whole :: _ =>
      (* Say we already parsed the metadata *)
      Ok (set_parsed true (set_body (Some (pystr.strip whole)) page))
  | [] => Raise TypeError
  end.

Definition parse_file (cwd : list string) (d : os.Disk) (site_root filepath : string)
  : result t :=
  content ← os.read cwd d filepath;
  parse_string cwd site_root filepath (Some content).

Definition get_template (templates : gmap string string) (name : string)
  : result string :=
  match templates !! name with
  | Some source => Ok source
  | None => Raise TemplateNotFound
  end.

(** [render]: the outcome, the page as the call leaves it, and
    [site.pagedata] as the call leaves it.  [at_] is the position of the
    page in [pagedata] when it is one of its elements, as in the loop of
    [Site.build]: what the call assigns to the page shows there too,
    wherever a sort has moved the page.  The template is rendered after
    [content] has been assigned and before [rendered] is. *)
Definition render_in (w : World) (at_ : option nat) (self : t)
  : (result string * t) * list t :=
  let templates := ContentCache.templates (site_cache w) in
  let '(template, self) :=
    if pystr.mem (ext self) [".md"; ".markdown"] then
      match body self with
      | None => (Raise AttributeError, self)
      | Some b =>
          let self := set_content (Some (markdown X b)) self in
          (match template self with
           | Some name => get_template templates name
           | None => get_template templates "markdown.html"
           end, self)
      end
    else (get_template templates (filepath self), self) in
  let pagedata :=
    match at_ with
    | Some i => <[i := self]> (site_pagedata w)
    | None => site_pagedata w
    end in
  match template with
  | Raise e => ((Raise e, self), pagedata)
  | Ok source =>
      let marked := imap (fun j page => (bool_decide (at_ = Some j), page)) pagedata in
      let '(sorting, marked) :=
        template_sorting (sort_aborted w) snd
                         (template_sorts X templates source self pagedata) marked in
      match sorting ≫= (fun _ => template_render X templates source self pagedata) with
      | Ok out =>
          let self := set_rendered (Some out) self in
          ((Ok out, self), map (fun mp => if fst mp : bool then self else snd mp) marked)
      | Raise e => ((Raise e, self), map snd marked)
      end
  end.

(** [render] of a page that is no element of [pagedata]: the outcome,
    and the page as the call leaves it *)
Definition render (w : World) (self : t) : result string * t :=
  fst (render_in w None self).

Definition render_to_disk (self : t) : M unit :=
  _ ← modify (fun w => set_render_to_disk_calls (render_to_disk_calls w ++ [self]) w);
  w ← get_world;
  let '(out, pagedata) := render_in w None self in
  _ ← modify (set_site_pagedata pagedata);
  output ← lift (fst out);
  let target := posixpath.join (site_root w) ["output"; filepath self] in
  let target_dir := posixpath.dirname target in
  _ ← (if negb (os.isdir (cwd w) (disk w) target_dir)
       then on_disk (fun cwd d => os.makedirs cwd d target_dir)
       else mret tt);
  on_disk (fun cwd d => os.write cwd d target output).

End WithExternal.

End Page.

(** A reference to a list of pages: the object bound to [Site.pagedata],
    or a list object of its own. *)
Inductive listref : Type :=
| Pagedata
| Fresh (l : list PageObject.t).

Definition deref (w : World) (r : listref) : list PageObject.t :=
  match r with Pagedata => site_pagedata w | Fresh l => l end.

(** [[x for x in l if cond(x)]] *)
Fixpoint filter_result {A : Type} (f : A -> result bool) (l : list A) : result (list A) :=
  match l with
  | [] => Ok []
  | x :: l' => b ← f x; ys ← filter_result f l'; Ok (if b : bool then x :: ys else ys)
  end.

(** ** [class Site] *)
Module Site.
Section WithExternal.
Context (X : External).

Definition __init__ (root : string) : M unit :=
  w ← get_world;
  _ ← modify (set_site_root (posixpath.abspath (cwd w) root));
  _ ← modify (set_site_cache (ContentCache.__init__ root));
  _ ← on_cache (fun cwd d c => c' ← ContentCache.warm cwd d c; Ok (tt, c'));
  modify (set_site_pagedata []).

(** The body of the loop of [get_pages] *)
Definition get_pages_step (file : string) : M unit :=
  if negb (pystr.startswith file "content") then mret tt
  else
    w ← get_world;
    let source_file := posixpath.join (site_root w) [file] in
    if os.isfile (cwd w) (disk w) source_file then
      page ← lift (Page.parse_file X (cwd w) (disk w) (site_root w) source_file);
      let '((out, page), pagedata) := Page.render_in X w None page in
      _ ← modify (set_site_pagedata pagedata);
      _ ← lift out;
      modify (fun w => set_site_pagedata (site_pagedata w ++ [page]) w)
    else mret tt.

(** [get_pages] returns the list object bound to [self.pagedata]. *)
Definition get_pages : M listref :=
  w ← get_world;
  _ ← for_each (pydict.keys (ContentCache.files (site_cache w))) get_pages_step;
  mret Pagedata.

(** [self.pagedata = r] *)
Definition assign_pagedata (r : listref) : M unit :=
  match r with
  | Pagedata => mret tt
  | Fresh l => modify (set_site_pagedata l)
  end.

Definition copy_static_step (static_dir source_path : string) : M unit :=
  w ← get_world;
  let source_file := "." ++ pystr.replace source_path static_dir "" in
  let output_file :=
    posixpath.normpath (posixpath.join (site_root w) ["output"; source_file]) in
  if os.isdir (cwd w) (disk w) source_path then mret tt
  else
    let output_path := posixpath.normpath (posixpath.dirname output_file) in
    _ ← (if negb (os.exists_ (cwd w) (disk w) output_path)
         then on_disk (fun cwd d => os.makedirs cwd d output_path)
         else mret tt);
    contents ← lift (os.read_bytes (cwd w) (disk w) source_path);
    on_disk (fun cwd d => os.write cwd d output_file contents).

Definition copy_static : M unit :=
  w ← get_world;
  let static_dir := posixpath.abspath (cwd w) (posixpath.join (site_root w) ["static"]) in
  for_each (os.walk_files (cwd w) (disk w) static_dir) (copy_static_step static_dir).

(** The body of the loop of [build], on the [i]-th page of the list.
    [open(output_filename, mode="w")] truncates the file before
    [page.render()] is evaluated. *)
Definition build_step (i : nat) : M unit :=
  w ← get_world;
  match site_pagedata w !! i with
  | None => mret tt
  | Some page =>
      target ← lift (Page.get_target page);
      let output_filename := posixpath.join (site_root w) ["output"; target] in
      let output_path := posixpath.dirname output_filename in
      _ ← (if negb (os.exists_ (cwd w) (disk w) output_path)
           then on_disk (fun cwd d => os.makedirs cwd d output_path)
           else mret tt);
      _ ← on_disk (fun cwd d => os.write cwd d output_filename "");
      w ← get_world;
      let '((out, _), pagedata) := Page.render_in X w (Some i) page in
      _ ← modify (set_site_pagedata pagedata);
      out ← lift out;
      on_disk (fun cwd d => os.write cwd d output_filename out)
  end.

Definition build : M unit :=
  r ← get_pages;
  _ ← assign_pagedata r;
  w ← get_world;
  _ ← for_each (seq 0 (length (site_pagedata w))) build_step;
  copy_static.

(** [pages(path, tag, limit, order)] returns a reference: with no filter
    and no limit it is the [pagedata] object itself. *)
Definition pages (path tag : option string) (limit : option Z) (order : option string)
  : M listref :=
  let items := Pagedata in
  w ← get_world;
  items ← match path with
           | Some path =>
               mret (Fresh (filter (fun page => pystr.startswith (PageObject.filepath page) path = true)
                                   (deref w items)))
           | None => mret items
           end;
  items ← match tag with
           | Some tag =>
               l ← lift (filter_result
                           (fun page => match PageObject.tags page with
                                        | Some ts => Ok (pystr.mem tag ts)
                                        | None => Raise TypeError
                                        end) (deref w items));
               mret (Fresh l)
           | None => mret items
           end;
  items ← match order with
           | Some order =>
               '(rev_, order) ← lift (parse_order order);
               let '(out, sorted) :=
                 pyorder.sort_in_place (sort_aborted w) (fun x => Page.getattr x order)
                                       rev_ (deref w items) in
               _ ← match items with
                   | Pagedata => modify (set_site_pagedata sorted)
                   | Fresh _ => mret tt
                   end;
               _ ← lift out;
               mret (match items with Pagedata => Pagedata | Fresh _ => Fresh sorted end)
           | None => mret items
           end;
  w ← get_world;
  match limit with
  | Some n => if (0 <? n)%Z then mret (Fresh (take (Z.to_nat n) (deref w items))) else mret items
  | None => mret items
  end.

(** [tags]: [set.union] over the pages whose [tags] is a non-empty list,
    then [list(tagnames)], in whatever order the set gives, sorted *)
Definition tags : M (list string) :=
  w ← get_world;
  let tagnames : gset string :=
    fold_left (fun (tagnames : gset string) page =>
                 match PageObject.tags page with
                 | Some ((_ :: _) as ts) => tagnames ∪ list_to_set ts
                 | _ => tagnames
                 end)
              (site_pagedata w) ∅ in
  mret (pysort.sort_strings (elements tagnames)).

Definition clean_output : M unit :=
  w ← get_world;
  on_disk (fun cwd d => os.rmtree cwd d (posixpath.join (site_root w) ["output"])).

End WithExternal.
End Site.

(** ** [class Handler] *)
Module Handler.
Section WithExternal.
Context (X : External).

Definition on_created (src_path : string) : M unit :=
  data ← on_cache (fun cwd d c => ContentCache.read cwd d c src_path);
  w ← get_world;
  page ← lift (Page.parse_string X (cwd w) (site_root w) src_path data);
  Page.render_to_disk X page.

Definition on_deleted (src_path : string) : M unit :=
  w ← get_world;
  if pystr.startswith src_path (posixpath.join (site_root w) ["content"])
     || pystr.startswith src_path (posixpath.join (site_root w) ["layouts"])
  then on_disk (fun cwd d => os.rmtree cwd d src_path)
  else mret tt.

Definition on_modified (src_path : string) : M unit :=
  w ← get_world;
  path ← lift (match posixpath.relpath (cwd w) src_path (site_root w) with
               | Some p => Ok p
               | None => Raise ValueError
               end);
  let cached := ContentCache.get (site_cache w) path in
  fresh ← on_cache (fun cwd d c => ContentCache.read cwd d c path);
  if bool_decide (cached ≠ fresh) then
    w ← get_world;
    let data := ContentCache.get (site_cache w) path in
    page ← lift (Page.parse_string X (cwd w) (site_root w) path data);
    Page.render_to_disk X page
  else mret tt.


End WithExternal.
End Handler.

(** ** A small instance of the collaborators and of a site

    Enough of Markdown, Jinja and [configparser] to run the program on
    concrete inputs: a paragraph of plain text becomes a [<p>] element; a
    template is the expression printing the number of pages of the site,
    the same after asking the site for its pages by title, the expression
    printing the page content, or text without any Jinja syntax, which
    renders to itself; a metadata block is a sequence of
    [key: value] or [key = value] lines with lower-cased keys. *)
Module Toy.

Definition lower (a : ascii) : ascii :=
  let n := nat_of_ascii a in
  if (65 <=? n)%nat && (n <=? 90)%nat then ascii_of_nat (n + 32) else a.

Fixpoint lowercase (s : string) : string :=
  match s with
  | EmptyString => ""
  | String a s' => String (lower a) (lowercase s')
  end.

(** The text before and after the first [:] or [=] of a line *)
Fixpoint cut_delimiter (s : string) : option (string * string) :=
  match s with
  | EmptyString => None
  | String a s' =>
      if pystr.eqb_ascii a ":"%char || pystr.eqb_ascii a "="%char then Some ("", s')
      else match cut_delimiter s' with
           | Some (k, v) => Some (String a k, v)
           | None => None
           end
  end.

Definition parse_line (line : string) : result (option (string * string)) :=
  if String.eqb (pystr.strip line) "" then Ok None
  else match cut_delimiter line with
       | Some (k, v) => Ok (Some (lowercase (pystr.strip k), pystr.strip v))
       | None => Raise ParsingError
       end.

Definition read_items (text : string) : result (list (string * string)) :=
  match pystr.split (ascii_of_nat 10) text with
  | header :: lines =>
      if String.eqb header "[Metadata]"
      then items ← map_result parse_line lines;
           Ok (omap (M := list) (fun x : option (string * string) => x) items)
      else Raise ParsingError
  | [] => Raise ParsingError
  end.

Definition decimal (n : nat) : string :=
  DecimalString.NilZero.string_of_uint (Nat.to_uint n).

(** The template that asks for the pages by title and prints how many
    there are *)
Definition by_title : string := "{{ site.pages(order='title')|length }}".

Definition jinja (templates : gmap string string) (source : string)
           (page : PageObject.t) (pagedata : list PageObject.t) : result string :=
  if String.eqb source "{{ site.pagedata|length }}" || String.eqb source by_title
  then Ok (decimal (length pagedata))
  else if String.eqb source "{{ content }}"
  then Ok (match PageObject.content page with Some c => c | None => "None" end)
  else Ok source.

Definition sorts (templates : gmap string string) (source : string)
           (page : PageObject.t) (pagedata : list PageObject.t) : list string :=
  if String.eqb source by_title then ["title"] else [].

Definition external : External :=
  {| markdown := fun text => "<p>" ++ text ++ "</p>";
     template_render := jinja;
     template_sorts := sorts;
     config_items := read_items |}.

(** A process started in [/site] before any [Site] is made, on an
    interpreter whose [list.sort] leaves the list as it was when a
    comparison raises (as CPython does when it is the first comparison
    that raises) *)
Definition start (d : os.Disk) : World :=
  {| cwd := ["site"]; disk := d; site_root := "";
     site_cache := ContentCache.__init__ ""; site_pagedata := [];
     render_to_disk_calls := [];
     sort_aborted := fun _ keys => seq 0 (length keys) |}.

Definition dirs (l : list string) : os.Disk :=
  list_to_map (map (fun k => (k, os.Dir)) l).

Definition site_dirs : os.Disk :=
  dirs ["/site"; "/site/content"; "/site/layouts"; "/site/static"; "/site/output"].

(** [Site("/site")] on the given disk *)
Definition site (d : os.Disk) : World := snd (Site.__init__ "/site" (start d)).

End Toy.

(** ** Vocabulary of the statements *)

(** [set] projects the file [f] into [templates] under the key [k]. *)
Definition projects (cwd : list string) (f k : string) : Prop :=
  (pystr.startswith f "content" = true
   /\ snd (posixpath.splitext f) <> ".md"
   /\ posixpath.relpath cwd f "content" = Some k)
  \/ (pystr.startswith f "layouts" = true
      /\ posixpath.relpath cwd f "layouts" = Some k).

(** [templates] is a projection of a subset of [files]: every template
    has a cached file with the same content that [set] projects to it. *)
Definition projection (cwd : list string) (c : ContentCache.t) : Prop :=
  forall k v, ContentCache.templates c !! k = Some v ->
    exists f, pydict.get (ContentCache.files c) f = Some v /\ projects cwd f k.

(** [c] occurs in [s] *)
Fixpoint has_char (c : ascii) (s : string) : bool :=
  match s with
  | EmptyString => false
  | String a s' => pystr.eqb_ascii a c || has_char c s'
  end.

(** A component of a normalised relative path: a name *)
Definition component (c : string) : Prop :=
  c <> "" /\ c <> "." /\ c <> ".." /\ has_char posixpath.sep c = false.

(** The path, relative to [content], of the file [index] with the
    extension [ext] in the folder of the components [comps]; no
    component is the content root itself. *)
Definition index_file (comps : list string) (ext : string) : string :=
  match comps with
  | [] => "index" ++ ext
  | _ => pystr.join "/" comps ++ String posixpath.sep ("index" ++ ext)
  end.

(** The page [Page("/site/content/cakes/index.md", site)] *)
Definition cakes_index : PageObject.t :=
  {| PageObject.parsed := false;
     PageObject.abspath := "/site/content/cakes/index.md";
     PageObject.filepath := "cakes/index.md";
     PageObject.folder := "cakes";
     PageObject.slug := "";
     PageObject.ext := ".md";
     PageObject.url := "/cakes/";
     PageObject.date := None; PageObject.tags := None;
     PageObject.template := None; PageObject.title := None;
     PageObject.body := None; PageObject.content := None;
     PageObject.rendered := None |}.

(** The extensions of pages *)
Definition page_like (ext : string) : bool := pystr.mem ext [".html"; ".md"; ".markdown"].

(** The source file of the page [get_pages] makes of the cached path [file] *)
Definition source_of (w : World) (file : string) : string :=
  posixpath.abspath (cwd w) (posixpath.join (site_root w) [file]).

(** [get_pages] makes a page of the cached path: it starts with
    [content] and is a regular file on disk. *)
Definition is_content (w : World) (file : string) : bool :=
  pystr.startswith file "content"
  && os.isfile (cwd w) (disk w) (posixpath.join (site_root w) [file]).

(** The cached paths [get_pages] makes pages of, in the order of the cache *)
Definition content_files (w : World) : list string :=
  List.filter (is_content w) (pydict.keys (ContentCache.files (site_cache w))).

(** The source files of the pages of [pagedata], in order *)
Definition sources (w : World) : list string :=
  map PageObject.abspath (site_pagedata w).

(** The text of [content/about.md], before and after an edit *)
Definition about_old : string :=
  "title: About" ++ Page.newline ++ "tags: a  b" ++ Page.newline
  ++ "++++" ++ Page.newline ++ "Hello".

Definition about_new : string :=
  "title: About" ++ Page.newline ++ "++++" ++ Page.newline ++ "Bye".

(** A site with a page that prints the number of pages, a Markdown page
    and the default Markdown layout *)
Definition blog_disk : os.Disk :=
  <["/site/content/index.html" := os.File "{{ site.pagedata|length }}"]>
  (<["/site/content/about.md" := os.File about_old]>
  (<["/site/layouts/markdown.html" := os.File "{{ content }}"]> Toy.site_dirs)).

(** The site built from [blog_disk], with [content/about.md] edited on
    disk afterwards *)
Definition edited : World :=
  set_disk (<["/site/content/about.md" := os.File about_new]> blog_disk)
           (Toy.site blog_disk).

(** The page parsed from the edited text *)
Definition about_new_page : PageObject.t :=
  {| PageObject.parsed := true;
     PageObject.abspath := "/site/content/about.md";
     PageObject.filepath := "about.md";
     PageObject.folder := "";
     PageObject.slug := "about";
     PageObject.ext := ".md";
     PageObject.url := "/about/";
     PageObject.date := None; PageObject.tags := Some [];
     PageObject.template := None; PageObject.title := Some "About";
     PageObject.body := Some "Bye"; PageObject.content := None;
     PageObject.rendered := None |}.

(** The page [Page("/site/content/about.md", site)] of a site at [/site] *)
Definition about_raw : PageObject.t :=
  {| PageObject.parsed := false;
     PageObject.abspath := "/site/content/about.md";
     PageObject.filepath := "about.md";
     PageObject.folder := "";
     PageObject.slug := "about";
     PageObject.ext := ".md";
     PageObject.url := "/about/";
     PageObject.date := None; PageObject.tags := None;
     PageObject.template := None; PageObject.title := None;
     PageObject.body := None; PageObject.content := None;
     PageObject.rendered := None |}.

(** The key under which [set] registers [f] as a template, if any *)
Definition template_key (cwd : list string) (f : string) : option string :=
  if pystr.startswith f "content" then
    if negb (String.eqb (snd (posixpath.splitext f)) ".md")
    then posixpath.relpath cwd f "content" else None
  else if pystr.startswith f "layouts" then posixpath.relpath cwd f "layouts"
  else None.

(** A cache holding one layout, and the same cache after [delete] *)
Definition base_cached : ContentCache.t :=
  {| ContentCache.root := "/site";
     ContentCache.files := [("layouts/base.html", "X")];
     ContentCache.templates := {["base.html" := "X"]} |}.

Definition base_deleted : ContentCache.t :=
  {| ContentCache.root := "/site";
     ContentCache.files := [];
     ContentCache.templates := {["base.html" := "X"]} |}.

(** The pages with their sort keys [getattr(x, name)] *)
Definition keyed_by (name : string) (l : list PageObject.t) : result (list (pyval * PageObject.t)) :=
  map_result (fun x => k ← Page.getattr x name; Ok (k, x)) l.

(** The reference [pages] returns, given the one it holds before the limit *)
Definition limited (limit : option Z) (r : listref) (l : list PageObject.t) : listref :=
  match limit with
  | Some n => if (0 <? n)%Z then Fresh (take (Z.to_nat n) l) else r
  | None => r
  end.

(** Two pages in the order [B], [A] of their titles *)
Definition titled (title : string) : PageObject.t :=
  PageObject.set_title (Some title) about_raw.

Definition two_pages : World :=
  set_site_pagedata [titled "B"; titled "A"] (Toy.start ∅).

(** A statement leaves a part of the state as it was, however it ends. *)
Definition keeps {A B : Type} (proj : World -> A) (m : M B) : Prop :=
  forall w, proj (snd (m w)) = proj w.

(** The cache after [set(f, v)] *)
Definition cache_with (cwd : list string) (c : ContentCache.t) (f v : string) : ContentCache.t :=
  {| ContentCache.root := ContentCache.root c;
     ContentCache.files := pydict.set (ContentCache.files c) f v;
     ContentCache.templates :=
       match template_key cwd f with
       | Some k => <[k := v]> (ContentCache.templates c)
       | None => ContentCache.templates c
       end |}.

(** The sample site after [Site("/site").build()] *)
Definition built : World := snd (Site.build Toy.external (Toy.site blog_disk)).

(** The same after [content/about.md] has been removed from the disk *)
Definition about_removed : World :=
  set_disk (delete "/site/content/about.md" (disk built)) built.

(** Everything on the disk outside [/site/output] *)
Definition inputs (d : os.Disk) : os.Disk :=
  filter (fun kv => os.under "/site/output" (fst kv) = false) d.

(** No path is cached twice. *)
Definition well_keyed (c : ContentCache.t) : Prop :=
  List.NoDup (pydict.keys (ContentCache.files c)).

(** The cached content of [k] is the content of its file, if it has one. *)
Definition up_to_date (cwd : list string) (d : os.Disk) (root : string)
           (c : ContentCache.t) (k : string) : Prop :=
  forall v, os.read cwd d (posixpath.join root [k]) = Ok v -> ContentCache.get c k = Some v.

(** The value an assignment of [parse_metadata] leaves in a field: the one
    of the table, or else the one the page had *)
Definition or_else (new old : option string) : option string :=
  match new with Some _ => new | None => old end.

(** The path of the file [name] in the folder of the components [comps] *)
Definition file_in (comps : list string) (name : string) : string :=
  match comps with
  | [] => name
  | _ => pystr.join "/" comps ++ String posixpath.sep name
  end.

(** The page [Page("/site/content/feeds/atom.xml", site)] *)
Definition atom_xml : PageObject.t :=
  {| PageObject.parsed := false;
     PageObject.abspath := "/site/content/feeds/atom.xml";
     PageObject.filepath := "feeds/atom.xml";
     PageObject.folder := "feeds";
     PageObject.slug := "atom";
     PageObject.ext := ".xml";
     PageObject.url := "/feeds/atom.xml";
     PageObject.date := None; PageObject.tags := None;
     PageObject.template := None; PageObject.title := None;
     PageObject.body := None; PageObject.content := None;
     PageObject.rendered := None |}.

(** The page [Page("/site/content/feeds/index.xml", site)] *)
Definition index_xml : PageObject.t :=
  {| PageObject.parsed := false;
     PageObject.abspath := "/site/content/feeds/index.xml";
     PageObject.filepath := "feeds/index.xml";
     PageObject.folder := "feeds";
     PageObject.slug := "";
     PageObject.ext := ".xml";
     PageObject.url := "/feeds/.xml";
     PageObject.date := None; PageObject.tags := None;
     PageObject.template := None; PageObject.title := None;
     PageObject.body := None; PageObject.content := None;
     PageObject.rendered := None |}.

(** The test of the tag filter on one page *)
Definition has_tag (tag : string) (page : PageObject.t) : result bool :=
  match PageObject.tags page with
  | Some ts => Ok (pystr.mem tag ts)
  | None => Raise TypeError
  end.

(** The pages a call with these filters keeps, when every page kept by
    the path filter has a list of tags *)
Definition selected (path tag : option string) (l : list PageObject.t) : list PageObject.t :=
  let by_path :=
    match path with
    | Some p => List.filter (fun page => pystr.startswith (PageObject.filepath page) p) l
    | None => l
    end in
  match tag with
  | Some t => List.filter (fun page => match PageObject.tags page with
                                       | Some ts => pystr.mem t ts
                                       | None => false
                                       end) by_path
  | None => by_path
  end.

(** The pages the limit leaves *)
Definition limit_of (limit : option Z) (l : list PageObject.t) : list PageObject.t :=
  match limit with
  | Some n => if (0 <? n)%Z then take (Z.to_nat n) l else l
  | None => l
  end.

(** Two pages in the order the sort leaves them in: the key of the second
    is not less than the key of the first, or the other way round when
    reversed *)
Definition in_order (rev_ : bool) (name : string) (x y : PageObject.t) : Prop :=
  exists kx ky,
    Page.getattr x name = Ok kx /\ Page.getattr y name = Ok ky
    /\ pyorder.le (if rev_ then ky else kx) (if rev_ then kx else ky) = true.




(** The sample site with [content/new.html] created after its construction *)
Definition created : World :=
  set_disk (<["/site/content/new.html" := os.File "hi"]> blog_disk) (Toy.site blog_disk).

(** The page parsed from [content/new.html] *)
Definition new_html : PageObject.t :=
  {| PageObject.parsed := true;
     PageObject.abspath := "/site/content/new.html";
     PageObject.filepath := "new.html";
     PageObject.folder := "";
     PageObject.slug := "new";
     PageObject.ext := ".html";
     PageObject.url := "/new/";
     PageObject.date := None; PageObject.tags := None;
     PageObject.template := None; PageObject.title := None;
     PageObject.body := Some "hi"; PageObject.content := None;
     PageObject.rendered := None |}.

(** A page that has been parsed and rendered *)
Definition finished (page : PageObject.t) : Prop :=
  PageObject.parsed page = true /\ exists out, PageObject.rendered page = Some out.

(** No template asks the site for its pages in an order while it is
    rendered. *)
Definition quiet (X : External) : Prop :=
  forall templates source page pagedata, template_sorts X templates source page pagedata = [].

(** [pagedata] as [render] finds it: at [at_], the page being rendered *)
Definition with_page (at_ : option nat) (page : PageObject.t) (l : list PageObject.t)
  : list PageObject.t :=
  match at_ with Some i => <[i := page]> l | None => l end.

(** A statement leaves a list of the state with the elements it had, in
    some order, however it ends. *)
Definition permutes {A B : Type} (proj : World -> list A) (m : M B) : Prop :=
  forall w, Permutation (proj w) (proj (snd (m w))).

(** The text of a page with a title and a body *)
Definition titled_text (title body : string) : string :=
  "title: " ++ title ++ Page.newline ++ "++++" ++ Page.newline ++ body.

(** A site of three Markdown pages whose layout asks the site for its
    pages by title *)
Definition sorting_disk : os.Disk :=
  <["/site/content/a.md" := os.File (titled_text "C" "c")]>
  (<["/site/content/b.md" := os.File (titled_text "A" "a")]>
  (<["/site/content/c.md" := os.File (titled_text "B" "b")]>
  (<["/site/layouts/markdown.html" := os.File Toy.by_title]> Toy.site_dirs))).


(** Four pages, the last without a title, on an interpreter whose sort of
    them by title, when the comparison with [None] interrupts it, has
    exchanged the first two (as CPython leaves them) *)
Definition four_pages : World :=
  {| cwd := ["site"]; disk := ∅; site_root := "";
     site_cache := ContentCache.__init__ ""; 
     site_pagedata := [titled "B"; titled "A"; titled "C"; about_raw];
     render_to_disk_calls := [];
     sort_aborted := fun _ _ => [1; 0; 2; 3] |}.

(** A parsed Markdown page with a title and a body, not yet rendered *)
Definition draft (title : string) : PageObject.t :=
  PageObject.set_parsed true (PageObject.set_body (Some "text") (titled title)).

(** A site with no content, whose layout asks for the pages by title,
    holding two drafts *)
Definition layout_disk : os.Disk :=
  <["/site/layouts/markdown.html" := os.File Toy.by_title]> Toy.site_dirs.

Definition drafts : World :=
  set_site_pagedata [draft "B"; draft "A"] (Toy.site layout_disk).

(** The collaborators of a site none of whose templates asks for the
    pages in an order *)
Definition plain : External :=
  {| markdown := markdown Toy.external;
     template_render := Toy.jinja;
     template_sorts := fun _ _ _ _ => [];
     config_items := Toy.read_items |}.

(** * Properties *)

(** ** [Page.get_target] *)

(** C5, as amended.  [get_target] fails with the usage error as long as
    [parsed] is false.  Once [parsed] is true it returns the normalised
    [folder/slug/index.html] for the extensions [.html], [.md] and
    [.markdown], and the normalised [folder/(slug+ext)] for every other
    extension; the latter is [folder/(slug+ext)] itself exactly when that
    path is already normalised. *)
Theorem get_target_spec (self : PageObject.t) :
  (PageObject.parsed self = false -> Page.get_target self = Raise RuntimeError)
  /\ (PageObject.parsed self = true -> page_like (PageObject.ext self) = true ->
      Page.get_target self
      = Ok (posixpath.normpath
              (posixpath.join (PageObject.folder self) [PageObject.slug self; "index.html"])))
  /\ (PageObject.parsed self = true -> page_like (PageObject.ext self) = false ->
      Page.get_target self
      = Ok (posixpath.normpath
              (posixpath.join (PageObject.folder self) [PageObject.slug self ++ PageObject.ext self]))).
Proof.
  unfold Page.get_target, page_like.
  repeat split; intros Hp; rewrite Hp; simpl; try reflexivity.
  - intros ->. reflexivity.
  - intros ->. reflexivity.
Qed.

(** A page of its own folder, parsed, and a page not yet parsed *)
Lemma get_target_spec_witness :
  exists page raw,
    Page.parse_string Toy.external ["site"] "/site" "/site/content/feeds/atom.xml"
                      (Some "<feed/>") = Ok page
    /\ Page.__init__ ["site"] "/site" "/site/content/feeds/atom.xml" = Ok raw
    /\ Page.get_target raw = Raise RuntimeError
    /\ Page.get_target page = Ok "feeds/atom.xml".
Proof.
  eexists. eexists.
  split; [vm_compute; reflexivity|].
  split; [vm_compute; reflexivity|].
  split.
  - apply (get_target_spec _). reflexivity.
  - etransitivity.
    + apply (get_target_spec _); reflexivity.
    + vm_compute. reflexivity.
Defined.

(** C5, as stated, fails: for a file named [index] without an extension
    in the folder [docs], the page is parsed, its extension is not one of
    the three, and the target is [docs], not [folder/(slug+ext)], which
    is [docs/]. *)
Lemma get_target_not_unchanged :
  exists page,
    Page.parse_string Toy.external ["site"] "/site" "/site/content/docs/index"
                      (Some "text") = Ok page
    /\ PageObject.parsed page = true
    /\ page_like (PageObject.ext page) = false
    /\ Page.get_target page = Ok "docs"
    /\ posixpath.join (PageObject.folder page) [PageObject.slug page ++ PageObject.ext page] = "docs/"
    /\ Page.get_target page
       <> Ok (posixpath.join (PageObject.folder page) [PageObject.slug page ++ PageObject.ext page]).
Proof.
  eexists. split; [vm_compute; reflexivity|].
  repeat split; try (vm_compute; reflexivity).
  vm_compute. discriminate.
Qed.

(** ** [Page.parse_metadata] *)

Lemma about_raw_init :
  Page.__init__ ["site"] "/site" "/site/content/about.md" = Ok about_raw.
Proof. vm_compute. reflexivity. Qed.

Lemma tags_setattr_meta self key value :
  PageObject.tags (Page.setattr_meta self key value) = PageObject.tags self.
Proof.
  unfold Page.setattr_meta.
  repeat (case String.eqb; [try destruct value; reflexivity|]).
  reflexivity.
Qed.

Lemma tags_assign_key values key self :
  String.eqb key "tags" = false ->
  PageObject.tags (Page.assign_key values key self) = PageObject.tags self.
Proof.
  intros Hk. unfold Page.assign_key. rewrite Hk.
  destruct (if pydict.contains values key then _ else _);
    destruct (Page.getattr_meta self key); try apply tags_setattr_meta; reflexivity.
Qed.

Lemma tags_parse_metadata_items items self :
  PageObject.tags (Page.parse_metadata_items items self)
  = Some (match pydict.get (Page.values_of items) "tags" with
          | Some v => pystr.split " "%char v
          | None => []
          end).
Proof.
  unfold Page.parse_metadata_items, Page.metadata.
  generalize (Page.values_of items) as values. intros values.
  cbn [fold_left].
  unfold PageObject.set_parsed, PageObject.set_url. cbn [PageObject.tags].
  rewrite !tags_assign_key by reflexivity.
  unfold Page.assign_key, pydict.contains.
  destruct (pydict.get values "tags"); reflexivity.
Qed.

(** C7, as amended.  [parse_metadata] cuts the [tags] value at every
    single space character into an ordered sequence of strings (so two
    adjacent spaces give an empty string, and tabs or line breaks do not
    separate), and sets the empty sequence when the metadata table has no
    [tags] entry. *)
Theorem parse_metadata_tags (X : External) (text : string) (self page : PageObject.t) :
  Page.parse_metadata X text self = Ok page ->
  exists items,
    config_items X ("[Metadata]" ++ Page.newline ++ text) = Ok items
    /\ PageObject.tags page
       = Some (match pydict.get (Page.values_of items) "tags" with
               | Some v => pystr.split " "%char v
               | None => []
               end).
Proof.
  unfold Page.parse_metadata. intros H.
  destruct (config_items X _) as [items|e] eqn:Hitems; [|discriminate].
  unfold mbind, result_bind in H. injection H as <-.
  exists items. split; [reflexivity|apply tags_parse_metadata_items].
Qed.

(** A metadata block with two tags *)
Lemma parse_metadata_tags_witness :
  exists page,
    Page.parse_metadata Toy.external "tags: cake ice" about_raw = Ok page
    /\ exists items,
         config_items Toy.external ("[Metadata]" ++ Page.newline ++ "tags: cake ice") = Ok items
         /\ PageObject.tags page
            = Some (match pydict.get (Page.values_of items) "tags" with
                    | Some v => pystr.split " "%char v
                    | None => []
                    end).
Proof.
  eexists. split.
  - vm_compute. reflexivity.
  - apply (parse_metadata_tags Toy.external "tags: cake ice" about_raw).
    vm_compute. reflexivity.
Defined.

(** The two cases on concrete blocks *)
Example tags_examples :
  (exists page, Page.parse_metadata Toy.external "tags: cake ice" about_raw = Ok page
                /\ PageObject.tags page = Some ["cake"; "ice"])
  /\ (exists page, Page.parse_metadata Toy.external "title: About" about_raw = Ok page
                   /\ PageObject.tags page = Some []).
Proof. split; eexists; (split; [vm_compute; reflexivity|]); vm_compute; reflexivity. Qed.

(** C7, as stated, fails: a [tags] value with two spaces between two
    words is cut into three strings, the middle one empty, where the
    whitespace-separated words are two; and a tab does not separate. *)
Lemma tags_not_split_on_whitespace :
  exists page page',
    Page.parse_metadata Toy.external "tags: a  b" about_raw = Ok page
    /\ PageObject.tags page = Some ["a"; ""; "b"]
    /\ pystr.split_whitespace "a  b" = ["a"; "b"]
    /\ Page.parse_metadata Toy.external ("tags: a" ++ String (ascii_of_nat 9) "b") about_raw
       = Ok page'
    /\ PageObject.tags page' = Some ["a" ++ String (ascii_of_nat 9) "b"]
    /\ pystr.split_whitespace ("a" ++ String (ascii_of_nat 9) "b") = ["a"; "b"].
Proof.
  eexists. eexists.
  repeat (split; [vm_compute; reflexivity|]).
  vm_compute; reflexivity.
Qed.

(** ** [ContentCache] *)

Lemma pydict_get_set_eq d k v : pydict.get (pydict.set d k v) k = Some v.
Proof.
  induction d as [|[k' v'] d IH]; simpl.
  - rewrite String.eqb_refl. reflexivity.
  - destruct (String.eqb k' k) eqn:E; simpl; rewrite E; [reflexivity|exact IH].
Qed.

Lemma pydict_get_set_ne d k k' v :
  k' <> k -> pydict.get (pydict.set d k v) k' = pydict.get d k'.
Proof.
  intros Hne. induction d as [|[k0 v0] d IH]; simpl.
  - destruct (String.eqb_spec k k'); [congruence|reflexivity].
  - destruct (String.eqb_spec k0 k) as [->|]; simpl.
    + destruct (String.eqb_spec k k'); [congruence|reflexivity].
    + destruct (String.eqb_spec k0 k'); [reflexivity|exact IH].
Qed.

Lemma pydict_get_del_ne d k k' :
  k' <> k -> pydict.get (pydict.del d k) k' = pydict.get d k'.
Proof.
  intros Hne. induction d as [|[k0 v0] d IH]; simpl; [reflexivity|].
  destruct (String.eqb_spec k0 k) as [->|]; simpl.
  - destruct (String.eqb_spec k k'); [congruence|reflexivity].
  - destruct (String.eqb_spec k0 k'); [reflexivity|exact IH].
Qed.

Lemma common_prefix_app c a b :
  posixpath.common_prefix (c ++ a) (c ++ b) = length c + posixpath.common_prefix a b.
Proof.
  induction c as [|x c IH]; simpl; [reflexivity|].
  rewrite String.eqb_refl, IH. reflexivity.
Qed.

Lemma common_prefix_extend c b :
  posixpath.common_prefix c (c ++ b) = length c.
Proof.
  rewrite <- (app_nil_r c) at 1. rewrite common_prefix_app.
  simpl. lia.
Qed.

Lemma relpath_below cwd path start (d : list string) r rest :
  path <> "" ->
  posixpath.abs_comps cwd start = (cwd ++ d)%list ->
  posixpath.abs_comps cwd path = (cwd ++ d ++ r :: rest)%list ->
  posixpath.relpath cwd path start = Some (posixpath.join r rest).
Proof.
  intros Hne Hs Hp. unfold posixpath.relpath.
  destruct (String.eqb_spec path ""); [congruence|].
  rewrite Hs, Hp, app_assoc, common_prefix_extend, Nat.sub_diag, drop_app_length.
  reflexivity.
Qed.

Lemma startswith_exclusive f :
  pystr.startswith f "content" = true -> pystr.startswith f "layouts" = false.
Proof.
  unfold pystr.startswith. destruct f as [|a f]; cbn -[ascii_dec]; [discriminate|].
  destruct (ascii_dec "c"%char a) as [<-|]; [|discriminate].
  intros _. destruct (ascii_dec "l"%char "c"%char); [discriminate|reflexivity].
Qed.

Lemma relpath_some cwd path start :
  path <> "" -> exists k, posixpath.relpath cwd path start = Some k.
Proof.
  intros Hne. unfold posixpath.relpath.
  destruct (String.eqb_spec path ""); [congruence|].
  destruct (_ ++ _)%list; eauto.
Qed.

Lemma startswith_nonempty f p : p <> "" -> pystr.startswith f p = true -> f <> "".
Proof.
  intros Hp H ->. destruct p; [congruence|discriminate].
Qed.

Lemma set_spec cwd c f v :
  ContentCache.set cwd c f v
  = Ok {| ContentCache.root := ContentCache.root c;
          ContentCache.files := pydict.set (ContentCache.files c) f v;
          ContentCache.templates :=
            match template_key cwd f with
            | Some k => <[k := v]> (ContentCache.templates c)
            | None => ContentCache.templates c
            end |}.
Proof.
  unfold ContentCache.set, template_key.
  destruct (pystr.startswith f "content") eqn:Hc.
  - rewrite (startswith_exclusive f Hc).
    destruct (relpath_some cwd f "content") as [k Hk];
      [apply (startswith_nonempty f "content"); [discriminate|exact Hc]|].
    rewrite Hk. destruct (negb _); reflexivity.
  - destruct (pystr.startswith f "layouts") eqn:Hl; [|reflexivity].
    destruct (relpath_some cwd f "layouts") as [k Hk];
      [apply (startswith_nonempty f "layouts"); [discriminate|exact Hl]|].
    rewrite Hk. reflexivity.
Qed.

Lemma projects_template_key cwd f k :
  projects cwd f k <-> template_key cwd f = Some k.
Proof.
  unfold projects, template_key. split.
  - intros [(Hc & Hext & Hr)|(Hl & Hr)].
    + rewrite Hc. destruct (String.eqb_spec (snd (posixpath.splitext f)) ".md");
        [congruence|exact Hr].
    + destruct (pystr.startswith f "content") eqn:Hc;
        [rewrite (startswith_exclusive f Hc) in Hl; discriminate|].
      rewrite Hl. exact Hr.
  - destruct (pystr.startswith f "content") eqn:Hc.
    + destruct (String.eqb_spec (snd (posixpath.splitext f)) ".md"); [discriminate|].
      intros Hr. left. auto.
    + destruct (pystr.startswith f "layouts") eqn:Hl; [|discriminate].
      intros Hr. right. auto.
Qed.

Lemma set_projection cwd c f v c' :
  projection cwd c -> ContentCache.set cwd c f v = Ok c' -> projection cwd c'.
Proof.
  intros Hinv. rewrite set_spec. intros [= <-]. intros k w. cbn.
  intros Hk.
  assert (Hcases : (template_key cwd f = Some k /\ w = v)
                   \/ (template_key cwd f <> Some k /\ ContentCache.templates c !! k = Some w)).
  { destruct (template_key cwd f) as [k0|] eqn:Hkey.
    - destruct (decide (k0 = k)) as [->|Hne].
      + rewrite lookup_insert_eq in Hk. left. split; congruence.
      + rewrite lookup_insert_ne in Hk by exact Hne. right. split; [congruence|exact Hk].
    - right. split; [discriminate|exact Hk]. }
  destruct Hcases as [[Hkey ->]|[Hkey Hold]].
  - exists f. split; [apply pydict_get_set_eq|apply projects_template_key; exact Hkey].
  - destruct (Hinv k w Hold) as (f0 & Hf0 & Hp0).
    exists f0. split; [|exact Hp0].
    rewrite pydict_get_set_ne; [exact Hf0|].
    intros ->. apply projects_template_key in Hp0. congruence.
Qed.

Lemma set_ok cwd c f v : exists c', ContentCache.set cwd c f v = Ok c'.
Proof. rewrite set_spec. eauto. Qed.

Lemma read_cases cwd d c f r c' :
  ContentCache.read cwd d c f = Ok (r, c') ->
  ContentCache.peek cwd d c f = Ok r
  /\ match r with
     | Some v => ContentCache.set cwd c f v = Ok c'
     | None => c' = c
     end.
Proof.
  unfold ContentCache.read.
  destruct (ContentCache.peek cwd d c f) as [[v|]|e]; cbn; [| |discriminate].
  - destruct (ContentCache.set cwd c f v) as [c1|e] eqn:Hset; cbn; [|discriminate].
    intros [= <- <-]. split; [reflexivity|exact Hset].
  - intros [= <- <-]. split; reflexivity.
Qed.

Lemma read_projection cwd d c f r c' :
  projection cwd c -> ContentCache.read cwd d c f = Ok (r, c') -> projection cwd c'.
Proof.
  intros Hinv Hread.
  destruct (read_cases cwd d c f r c' Hread) as [_ Hcase].
  destruct r as [v|]; [eapply set_projection; eauto|subst; exact Hinv].
Qed.

Lemma for_result_invariant {A S} (P : S -> Prop) (l : list A)
      (body : A -> S -> result S) s s' :
  (forall x s0 s1, P s0 -> body x s0 = Ok s1 -> P s1) ->
  P s -> for_result l body s = Ok s' -> P s'.
Proof.
  intros Hbody. revert s. induction l as [|x l IH]; intros s Hs; cbn.
  - intros [= <-]. exact Hs.
  - destruct (body x s) as [s1|e] eqn:Hx; cbn; [|discriminate].
    apply IH. eapply Hbody; eauto.
Qed.

Lemma warm_projection cwd d c c' :
  projection cwd c -> ContentCache.warm cwd d c = Ok c' -> projection cwd c'.
Proof.
  unfold ContentCache.warm. intros Hinv.
  apply (for_result_invariant (projection cwd)); [|exact Hinv].
  intros path c1 c2 H1.
  apply (for_result_invariant (projection cwd)); [|exact H1].
  intros file c3 c4 H3 Hread.
  destruct (ContentCache.read cwd d c3 _) as [[r c5]|e] eqn:Hr; [|discriminate].
  cbn in Hread. injection Hread as <-.
  eapply read_projection; eauto.
Qed.

Lemma move_set_then_delete cwd c old new :
  ContentCache.move cwd c old new
  = match pydict.get (ContentCache.files c) old with
    | Some content => c' ← ContentCache.set cwd c new content; ContentCache.delete c' old
    | None => Ok c
    end.
Proof.
  unfold ContentCache.move, ContentCache.get, pydict.contains.
  destruct (pydict.get (ContentCache.files c) old); reflexivity.
Qed.



Lemma projection_init cwd root : projection cwd (ContentCache.__init__ root).
Proof. intros k v. cbn. rewrite lookup_empty. discriminate. Qed.



Lemma abs_comps_two cwd a b :
  String.eqb a "" || String.eqb a "." = false -> String.eqb a ".." = false ->
  String.eqb b "" || String.eqb b "." = false -> String.eqb b ".." = false ->
  forall p, posixpath.isabs p = false -> pystr.split posixpath.sep p = [a; b] ->
  posixpath.abs_comps cwd p = (cwd ++ [a; b])%list.
Proof.
  intros Ha Ha' Hb Hb' p Hp Hs. unfold posixpath.abs_comps.
  rewrite Hp, Hs. cbn [posixpath.norm_comps].
  rewrite Ha, Ha', Hb, Hb'. cbn [negb orb].
  cbn [rev]. rewrite rev_involutive, <- app_assoc. reflexivity.
Qed.

Lemma abs_comps_one cwd a :
  String.eqb a "" || String.eqb a "." = false -> String.eqb a ".." = false ->
  forall p, posixpath.isabs p = false -> pystr.split posixpath.sep p = [a] ->
  posixpath.abs_comps cwd p = (cwd ++ [a])%list.
Proof.
  intros Ha Ha' p Hp Hs. unfold posixpath.abs_comps.
  rewrite Hp, Hs. cbn [posixpath.norm_comps].
  rewrite Ha, Ha'. cbn [negb orb].
  cbn [rev]. rewrite rev_involutive. reflexivity.
Qed.

Lemma relpath_base_html cwd :
  posixpath.relpath cwd "layouts/base.html" "layouts" = Some "base.html".
Proof.
  apply (relpath_below cwd _ _ ["layouts"] "base.html" []); [discriminate| |].
  - apply abs_comps_one; reflexivity.
  - apply abs_comps_two; reflexivity.
Qed.

Lemma relpath_about_markdown cwd :
  posixpath.relpath cwd "content/about.markdown" "content" = Some "about.markdown".
Proof.
  apply (relpath_below cwd _ _ ["content"] "about.markdown" []); [discriminate| |].
  - apply abs_comps_one; reflexivity.
  - apply abs_comps_two; reflexivity.
Qed.

(** The two instances of the claim that hold: a layout is registered
    under its name, a [.md] file under [content] is not registered. *)
Lemma set_layouts_base_html cwd c X :
  exists c', ContentCache.set cwd c "layouts/base.html" X = Ok c'
             /\ ContentCache.templates c' !! "base.html" = Some X.
Proof.
  rewrite set_spec. eexists. split; [reflexivity|]. cbn [ContentCache.templates].
  unfold template_key.
  change (pystr.startswith "layouts/base.html" "content") with false.
  change (pystr.startswith "layouts/base.html" "layouts") with true.
  cbv iota. rewrite relpath_base_html. apply lookup_insert_eq.
Qed.

Lemma set_content_about_md cwd c Y :
  exists c', ContentCache.set cwd c "content/about.md" Y = Ok c'
             /\ ContentCache.templates c' = ContentCache.templates c.
Proof.
  rewrite set_spec. eexists. split; [reflexivity|]. cbn [ContentCache.templates].
  unfold template_key.
  change (pystr.startswith "content/about.md" "content") with true.
  change (snd (posixpath.splitext "content/about.md")) with ".md".
  reflexivity.
Qed.

(** C6 at the failing input.  [content/about.markdown] has a Markdown
    extension, and [set] registers it as the template [about.markdown]:
    on a fresh cache [templates] changes from empty to that one entry. *)
Theorem set_markdown_extension_projected cwd root c Y :
  pystr.mem (snd (posixpath.splitext "content/about.markdown")) [".md"; ".markdown"] = true
  /\ (exists c', ContentCache.set cwd c "content/about.markdown" Y = Ok c'
                 /\ ContentCache.templates c' !! "about.markdown" = Some Y)
  /\ (exists c', ContentCache.set cwd (ContentCache.__init__ root) "content/about.markdown" Y
                 = Ok c'
                 /\ ContentCache.templates c' = {["about.markdown" := Y]}
                 /\ ContentCache.templates c'
                    <> ContentCache.templates (ContentCache.__init__ root)).
Proof.
  assert (Hkey : template_key cwd "content/about.markdown" = Some "about.markdown").
  { unfold template_key.
    change (pystr.startswith "content/about.markdown" "content") with true.
    change (snd (posixpath.splitext "content/about.markdown")) with ".markdown".
    change (negb (String.eqb ".markdown" ".md")) with true.
    cbv iota. apply relpath_about_markdown. }
  split; [reflexivity|]. split.
  - rewrite set_spec, Hkey. eexists. split; [reflexivity|].
    cbn [ContentCache.templates]. apply lookup_insert_eq.
  - rewrite set_spec, Hkey. eexists. split; [reflexivity|].
    cbn [ContentCache.templates ContentCache.__init__].
    split; [reflexivity|].
    intros Heq. apply (f_equal (fun m => m !! "about.markdown")) in Heq.
    rewrite lookup_insert_eq, lookup_empty in Heq. discriminate.
Qed.

(** ** [Site.pages] *)

Lemma set_site_pagedata_same w : set_site_pagedata (site_pagedata w) w = w.
Proof. destruct w; reflexivity. Qed.

Lemma pages_unfiltered w limit order :
  Site.pages None None limit (Some order) w
  = match parse_order order with
    | Raise e => (Raise e, w)
    | Ok (rev_, name) =>
        match keyed_by name (site_pagedata w) with
        | Raise e => (Raise e, w)
        | Ok keyed =>
            match pyorder.sort_by rev_ keyed with
            | Raise e =>
                (Raise e,
                 set_site_pagedata
                   (pyorder.reorder (sort_aborted w rev_ (map fst keyed)) (site_pagedata w)) w)
            | Ok sorted => (Ok (limited limit Pagedata sorted), set_site_pagedata sorted w)
            end
        end
    end.
Proof.
  unfold Site.pages, keyed_by, limited, pyorder.sort_in_place.
  unfold mbind, M_bind, mret, M_ret, get_world, lift, modify. cbn [deref].
  destruct (parse_order order) as [[rev_ name]|e]; [|reflexivity].
  destruct (map_result _ _) as [keyed|e];
    [|rewrite set_site_pagedata_same; reflexivity].
  destruct (pyorder.sort_by rev_ keyed) as [sorted|e]; [|reflexivity].
  destruct limit as [n|]; [destruct (0 <? n)%Z|]; reflexivity.
Qed.

Ltac pages_limit limit :=
  destruct limit as [?n|]; [destruct (0 <? _)%Z|]; cbn;
  (split; [reflexivity|intros ?r [= <-]; eauto]).

Ltac pages_order order limit :=
  destruct order as [?order|]; cbn;
  [ (destruct (parse_order _) as [[?rev_ ?name]|?e]; cbn; [|split; [reflexivity|discriminate]]);
    (destruct (pyorder.sort_in_place _ _ _ _) as [[[]|?e] ?sorted]; cbn;
     [|split; [reflexivity|discriminate]]);
    pages_limit limit
  | pages_limit limit ].

Lemma pages_filtered_frame path tag limit order w :
  path <> None \/ tag <> None ->
  snd (Site.pages path tag limit order w) = w
  /\ forall r, fst (Site.pages path tag limit order w) = Ok r -> exists l, r = Fresh l.
Proof.
  intros Hfilter. unfold Site.pages.
  unfold mbind, M_bind, mret, M_ret, get_world, lift, modify.
  destruct path as [p|], tag as [t|]; cbn [deref].
  - destruct (filter_result _ _) as [l1|e]; [|split; [reflexivity|discriminate]].
    pages_order order limit.
  - pages_order order limit.
  - destruct (filter_result _ _) as [l1|e]; [|split; [reflexivity|discriminate]].
    pages_order order limit.
  - destruct Hfilter; congruence.
Qed.

Lemma insert_permutation {A} (le : A -> A -> bool) x l :
  Permutation (x :: l) (pysort.insert le x l).
Proof.
  induction l as [|y l IH]; cbn; [reflexivity|].
  destruct (le x y); [reflexivity|].
  rewrite perm_swap. constructor. exact IH.
Qed.

Lemma sort_permutation {A} (le : A -> A -> bool) l :
  Permutation l (pysort.sort le l).
Proof.
  induction l as [|x l IH]; cbn; [reflexivity|].
  rewrite <- insert_permutation. constructor. exact IH.
Qed.

Lemma sort_by_permutation {A} rev_ (keyed : list (pyval * A)) sorted :
  pyorder.sort_by rev_ keyed = Ok sorted -> Permutation (map snd keyed) sorted.
Proof.
  unfold pyorder.sort_by.
  destruct keyed as [|[k0 x0] [|kx keyed]]; try (intros [= <-]; reflexivity).
  destruct (forallb _ _); [|discriminate]. intros [= <-].
  apply Permutation_map. destruct rev_.
  - set (l := (k0, x0) :: kx :: keyed).
    transitivity (rev l); [apply Permutation_rev|].
    transitivity (pysort.sort (fun x y : pyval * A => pyorder.le (fst x) (fst y)) (rev l));
      [apply sort_permutation|apply Permutation_rev].
  - exact (sort_permutation (fun x y : pyval * A => pyorder.le (fst x) (fst y))
                            ((k0, x0) :: kx :: keyed)).
Qed.

Lemma keyed_by_snd name l keyed :
  keyed_by name l = Ok keyed -> map snd keyed = l.
Proof.
  unfold keyed_by. revert keyed. induction l as [|x l IH]; intros keyed; cbn.
  - intros [= <-]. reflexivity.
  - destruct (Page.getattr x name) as [k|e]; cbn; [|discriminate].
    destruct (map_result _ l) as [ks|e]; cbn; [|discriminate].
    intros [= <-]. cbn. f_equal. apply IH. reflexivity.
Qed.

(** C10.  With an order and neither a path nor a tag filter, a call of
    [Site.pages] that returns has sorted the site's own [pagedata] list:
    afterwards [pagedata] is the stable sort (reversed for a leading [-])
    of what it was, by the named attribute, a permutation of it, and
    without a positive limit the result is that same list object.  With a
    path or a tag filter nothing of the state changes, whether the call
    returns or raises, and the result is a list of its own. *)
Theorem pages_order_aliasing (w : World) (limit : option Z) (order : string) :
  (forall r w',
      Site.pages None None limit (Some order) w = (Ok r, w') ->
      exists rev_ name keyed,
        parse_order order = Ok (rev_, name)
        /\ keyed_by name (site_pagedata w) = Ok keyed
        /\ pyorder.sort_by rev_ keyed = Ok (site_pagedata w')
        /\ Permutation (site_pagedata w) (site_pagedata w')
        /\ w' = set_site_pagedata (site_pagedata w') w
        /\ r = limited limit Pagedata (site_pagedata w'))
  /\ (forall path tag,
         path <> None \/ tag <> None ->
         snd (Site.pages path tag limit (Some order) w) = w
         /\ forall r, fst (Site.pages path tag limit (Some order) w) = Ok r ->
                      exists l, r = Fresh l).
Proof.
  split.
  - intros r w'. rewrite pages_unfiltered.
    destruct (parse_order order) as [[rev_ name]|e]; [|discriminate].
    destruct (keyed_by name (site_pagedata w)) as [keyed|e] eqn:Hkeyed; [|discriminate].
    destruct (pyorder.sort_by rev_ keyed) as [sorted|e] eqn:Hsorted; [|discriminate].
    intros [= <- <-]. exists rev_, name, keyed. cbn [site_pagedata set_site_pagedata].
    repeat split; try assumption; try reflexivity.
    rewrite <- (keyed_by_snd _ _ _ Hkeyed). apply sort_by_permutation with rev_. exact Hsorted.
  - intros path tag. apply pages_filtered_frame.
Qed.

(** Two pages sorted by title, unfiltered and filtered by path *)
Lemma pages_order_aliasing_witness :
  Site.pages None None None (Some "title") two_pages
  = (Ok Pagedata, set_site_pagedata [titled "A"; titled "B"] two_pages)
  /\ (exists rev_ name keyed,
        parse_order "title" = Ok (rev_, name)
        /\ keyed_by name (site_pagedata two_pages) = Ok keyed
        /\ pyorder.sort_by rev_ keyed = Ok [titled "A"; titled "B"]
        /\ Permutation (site_pagedata two_pages) [titled "A"; titled "B"]
        /\ set_site_pagedata [titled "A"; titled "B"] two_pages
           = set_site_pagedata [titled "A"; titled "B"] two_pages
        /\ Pagedata = limited None Pagedata [titled "A"; titled "B"])
  /\ ((Some "about" <> None \/ @None string <> None)
      /\ snd (Site.pages (Some "about") None None (Some "title") two_pages) = two_pages
      /\ forall r, fst (Site.pages (Some "about") None None (Some "title") two_pages) = Ok r ->
                   exists l, r = Fresh l).
Proof.
  assert (H : Site.pages None None None (Some "title") two_pages
              = (Ok Pagedata, set_site_pagedata [titled "A"; titled "B"] two_pages))
    by (vm_compute; reflexivity).
  assert (Hf : Some "about" <> None \/ @None string <> None) by (left; discriminate).
  split; [exact H|].
  split; [exact (proj1 (pages_order_aliasing two_pages None "title") _ _ H)|].
  split; [exact Hf|].
  exact (proj2 (pages_order_aliasing two_pages None "title") (Some "about") None Hf).
Defined.

(** The reordering is there for later readers of [pagedata]; the
    filtered call sorts its own list. *)
Example pages_order_observable :
  site_pagedata two_pages = [titled "B"; titled "A"]
  /\ site_pagedata (snd (Site.pages None None None (Some "title") two_pages))
     = [titled "A"; titled "B"]
  /\ fst (Site.pages (Some "about") None None (Some "title") two_pages)
     = Ok (Fresh [titled "A"; titled "B"])
  /\ site_pagedata (snd (Site.pages (Some "about") None None (Some "title") two_pages))
     = [titled "B"; titled "A"].
Proof. repeat split; vm_compute; reflexivity. Qed.

(** ** Frames: what a statement leaves as it was *)

Section Keeps.
Context {A : Type} (proj : World -> A).

Lemma keeps_ret {B} (b : B) : keeps proj (mret b).
Proof. intros w. reflexivity. Qed.

Lemma keeps_raise {B} e : keeps proj (raise (A := B) e).
Proof. intros w. reflexivity. Qed.

Lemma keeps_lift {B} (r : result B) : keeps proj (lift r).
Proof. intros w. reflexivity. Qed.

Lemma keeps_get_world : keeps proj get_world.
Proof. intros w. reflexivity. Qed.

Lemma keeps_bind {B C} (m : M B) (f : B -> M C) :
  keeps proj m -> (forall b, keeps proj (f b)) -> keeps proj (m ≫= f).
Proof.
  intros Hm Hf w. unfold mbind, M_bind.
  specialize (Hm w). destruct (m w) as [[b|e] w1]; cbn in *.
  - rewrite Hf. exact Hm.
  - exact Hm.
Qed.

Lemma keeps_modify (g : World -> World) :
  (forall w, proj (g w) = proj w) -> keeps proj (modify g).
Proof. intros Hg w. apply Hg. Qed.

Lemma keeps_on_disk op :
  (forall d w, proj (set_disk d w) = proj w) -> keeps proj (on_disk op).
Proof.
  intros Hd. unfold on_disk.
  apply keeps_bind; [apply keeps_get_world|]. intros w0.
  apply keeps_bind; [apply keeps_lift|]. intros d.
  apply keeps_modify. intros w. apply Hd.
Qed.

Lemma keeps_on_cache {B} (op : list string -> os.Disk -> ContentCache.t -> result (B * ContentCache.t)) :
  (forall c w, proj (set_site_cache c w) = proj w) -> keeps proj (on_cache op).
Proof.
  intros Hc. unfold on_cache.
  apply keeps_bind; [apply keeps_get_world|]. intros w0.
  apply keeps_bind; [apply keeps_lift|]. intros r.
  apply keeps_bind; [apply keeps_modify; intros w; apply Hc|]. intros _.
  apply keeps_ret.
Qed.

Lemma keeps_for_each {B} (l : list B) (body : B -> M unit) :
  (forall x, keeps proj (body x)) -> keeps proj (for_each l body).
Proof.
  intros Hbody. induction l as [|x l IH]; cbn.
  - apply keeps_ret.
  - apply keeps_bind; [apply Hbody|]. intros _. exact IH.
Qed.

End Keeps.

Ltac keeps_step :=
  match goal with
  | |- keeps _ (mret _) => apply keeps_ret
  | |- keeps _ (raise _) => apply keeps_raise
  | |- keeps _ (lift _) => apply keeps_lift
  | |- keeps _ get_world => apply keeps_get_world
  | |- keeps _ (modify _) => apply keeps_modify; intros; reflexivity
  | |- keeps _ (on_disk _) => apply keeps_on_disk; intros; reflexivity
  | |- keeps _ (on_cache _) => apply keeps_on_cache; intros; reflexivity
  | |- keeps _ (for_each _ _) => apply keeps_for_each; intros
  | |- keeps _ (_ ≫= _) => apply keeps_bind; [|intros]
  | |- keeps _ (if ?b then _ else _) => destruct b
  | |- keeps _ (match ?x with _ => _ end) => destruct x
  | |- keeps _ (let '(_, _) := ?x in _) => destruct x
  end.

Ltac keeps_auto := repeat keeps_step.




(** ** Reading through the cache *)

Lemma cache_get_files c f : ContentCache.get c f = pydict.get (ContentCache.files c) f.
Proof.
  unfold ContentCache.get, pydict.contains. destruct (pydict.get _ f); reflexivity.
Qed.


Lemma read_fresh cwd d c f B :
  ContentCache.peek cwd d c f = Ok (Some B) ->
  ContentCache.read cwd d c f = Ok (Some B, cache_with cwd c f B).
Proof.
  intros Hpeek. unfold ContentCache.read. rewrite Hpeek. cbn.
  rewrite set_spec. reflexivity.
Qed.

(** ** Running statements *)

Lemma run_bind {A B} (m : M A) (f : A -> M B) w :
  (m ≫= f) w = match m w with
               | (Ok a, w') => f a w'
               | (Raise e, w') => (Raise e, w')
               end.
Proof. reflexivity. Qed.

Lemma run_get_world {B} (f : World -> M B) w : (get_world ≫= f) w = f w w.
Proof. reflexivity. Qed.

Lemma run_lift_ok {A B} (a : A) (f : A -> M B) w : (lift (Ok a) ≫= f) w = f a w.
Proof. reflexivity. Qed.

Lemma run_lift_raise {A B} e (f : A -> M B) w : (lift (Raise e) ≫= f) w = (Raise e, w).
Proof. reflexivity. Qed.

Lemma run_modify {B} g (f : unit -> M B) w : (modify g ≫= f) w = f tt (g w).
Proof. reflexivity. Qed.

Lemma run_ret {A B} (a : A) (f : A -> M B) w : (mret a ≫= f) w = f a w.
Proof. reflexivity. Qed.

Lemma run_on_cache {A} (op : list string -> os.Disk -> ContentCache.t -> result (A * ContentCache.t)) w :
  on_cache op w
  = match op (cwd w) (disk w) (site_cache w) with
    | Ok r => (Ok (fst r), set_site_cache (snd r) w)
    | Raise e => (Raise e, w)
    end.
Proof.
  unfold on_cache. rewrite run_get_world.
  destruct (op _ _ _) as [r|e]; reflexivity.
Qed.

Lemma run_on_disk op w :
  on_disk op w
  = match op (cwd w) (disk w) with
    | Ok d => (Ok tt, set_disk d w)
    | Raise e => (Raise e, w)
    end.
Proof.
  unfold on_disk. rewrite run_get_world.
  destruct (op _ _) as [r|e]; reflexivity.
Qed.

(** ** [Handler.on_modified] *)




(** The re-rendered page lands under [output] at the source-relative path. *)
Example on_modified_output :
  disk (snd (Handler.on_modified Toy.external "/site/content/about.md" edited))
    !! "/site/output/about.md" = Some (os.File "<p>Bye</p>")
  /\ fst (Handler.on_modified Toy.external "/site/content/about.md" edited) = Ok tt.
Proof. split; vm_compute; reflexivity. Qed.

(** ** [Handler.on_deleted] *)

(** [rmtree] removes nothing outside the tree it is given. *)
Lemma rmtree_outside cwd d p d' k :
  os.rmtree cwd d p = Ok d' ->
  os.under (os.resolve cwd p) k = false ->
  d' !! k = d !! k.
Proof.
  unfold os.rmtree. destruct (os.lookup d _) as [[c| |c]|]; try discriminate.
  intros [= <-] Hk.
  destruct (d !! k) as [x|] eqn:Hx.
  - apply map_lookup_filter_Some_2; [exact Hx|exact Hk].
  - apply map_lookup_filter_None_2. left. exact Hx.
Qed.

(** Whatever the event, [on_deleted] touches nothing outside the very
    path of the event: the output of a deleted source stays. *)
Lemma on_deleted_outside src w k :
  os.under (os.resolve (cwd w) src) k = false ->
  disk (snd (Handler.on_deleted src w)) !! k = disk w !! k.
Proof.
  intros Hk. unfold Handler.on_deleted. rewrite run_get_world.
  destruct (_ || _); [|reflexivity].
  rewrite run_on_disk.
  destruct (os.rmtree (cwd w) (disk w) src) as [d'|e] eqn:Hrm; [|reflexivity].
  cbn. eapply rmtree_outside; eauto.
Qed.

(** C3 at the failing input.  After a build, [content/about.md] is
    deleted and the delete event arrives: the handler passes the path of
    the event itself to [rmtree], which fails on the path that is gone,
    and the output made from it stays on disk. *)
Theorem on_deleted_leaves_output :
  disk built !! "/site/output/about/index.html" = Some (os.File "<p>Hello</p>")
  /\ pystr.startswith "/site/content/about.md"
                      (posixpath.join (site_root about_removed) ["content"]) = true
  /\ Handler.on_deleted "/site/content/about.md" about_removed = (Raise OSError, about_removed)
  /\ disk (snd (Handler.on_deleted "/site/content/about.md" about_removed))
       !! "/site/output/about/index.html" = Some (os.File "<p>Hello</p>")
  /\ disk (snd (Handler.on_deleted "/site/content/about.md" about_removed))
       !! "/site/output/about" = Some os.Dir.
Proof. repeat split; vm_compute; reflexivity. Qed.

(** A delete event outside [content] and [layouts] is ignored. *)
Lemma on_deleted_elsewhere src w :
  pystr.startswith src (posixpath.join (site_root w) ["content"]) = false ->
  pystr.startswith src (posixpath.join (site_root w) ["layouts"]) = false ->
  Handler.on_deleted src w = (Ok tt, w).
Proof.
  intros Hc Hl. unfold Handler.on_deleted. rewrite run_get_world, Hc, Hl. reflexivity.
Qed.

(** ** [Site.build] *)

(** C4 at the failing input.  Two calls of [build] on one site with
    nothing changed outside [output]: [get_pages] appends to [pagedata]
    without emptying it, so the second build renders with every page
    listed twice, and the page that prints the number of pages is written
    as [2] by the first build and as [4] by the second. *)
Theorem build_twice_differs :
  let once := Site.build Toy.external (Toy.site blog_disk) in
  let twice := Site.build Toy.external (snd once) in
  fst once = Ok tt
  /\ fst twice = Ok tt
  /\ inputs (disk (snd once)) = inputs blog_disk
  /\ inputs (disk (snd twice)) = inputs blog_disk
  /\ disk (snd once) !! "/site/output/index.html" = Some (os.File "2")
  /\ disk (snd twice) !! "/site/output/index.html" = Some (os.File "4")
  /\ length (site_pagedata (snd once)) = 2
  /\ length (site_pagedata (snd twice)) = 4.
Proof. repeat split; vm_compute; reflexivity. Qed.

(** ** [Site.get_pages] and [Site.pagedata] *)

Lemma abspath_setattr_meta self key value :
  PageObject.abspath (Page.setattr_meta self key value) = PageObject.abspath self.
Proof.
  unfold Page.setattr_meta.
  repeat (case String.eqb; [try destruct value; reflexivity|]).
  reflexivity.
Qed.

Lemma abspath_assign_key values key self :
  PageObject.abspath (Page.assign_key values key self) = PageObject.abspath self.
Proof.
  unfold Page.assign_key.
  destruct (String.eqb key "tags"); [reflexivity|].
  destruct (if pydict.contains values key then _ else _);
    destruct (Page.getattr_meta self key); try apply abspath_setattr_meta; reflexivity.
Qed.

Lemma abspath_parse_metadata_items items self :
  PageObject.abspath (Page.parse_metadata_items items self) = PageObject.abspath self.
Proof.
  unfold Page.parse_metadata_items, Page.metadata.
  generalize (Page.values_of items) as values. intros values.
  cbn [fold_left].
  unfold PageObject.set_parsed, PageObject.set_url. cbn [PageObject.abspath].
  rewrite !abspath_assign_key. reflexivity.
Qed.

Lemma abspath_init cwd root filepath page :
  Page.__init__ cwd root filepath = Ok page ->
  PageObject.abspath page = posixpath.abspath cwd filepath.
Proof.
  unfold Page.__init__. destruct (posixpath.relpath _ _ _); [|discriminate].
  intros [= <-]. reflexivity.
Qed.

Lemma abspath_parse_string X cwd root filepath text page :
  Page.parse_string X cwd root filepath text = Ok page ->
  PageObject.abspath page = posixpath.abspath cwd filepath.
Proof.
  unfold Page.parse_string.
  destruct (Page.__init__ cwd root filepath) as [p0|e] eqn:Hinit; [|discriminate].
  apply abspath_init in Hinit. cbn.
  destruct text as [s|]; [|discriminate]. cbn.
  destruct (pystr.split1 Page.metadelimiter s) as [|a [|b [|c l]]]; try discriminate.
  - intros [= <-]. exact Hinit.
  - unfold Page.parse_metadata. destruct (config_items X _) as [items|e]; [|discriminate].
    unfold mbind, result_bind. intros [= <-].
    unfold PageObject.set_body. cbn [PageObject.abspath].
    rewrite abspath_parse_metadata_items. exact Hinit.
  - intros [= <-]. exact Hinit.
Qed.

Lemma abspath_parse_file X cwd d root filepath page :
  Page.parse_file X cwd d root filepath = Ok page ->
  PageObject.abspath page = posixpath.abspath cwd filepath.
Proof.
  unfold Page.parse_file. destruct (os.read cwd d filepath); [|discriminate].
  cbn. apply abspath_parse_string.
Qed.

(** *** Sorting in place keeps the elements *)

Lemma omap_lookup_seq {A} (k l : list A) :
  omap (fun i => ((k ++ l)%list : list A) !! i) (seq (length k) (length l)) = l.
Proof.
  revert k. induction l as [|x l IH]; intros k; [reflexivity|].
  cbn [length seq omap list_omap].
  rewrite (list_lookup_middle k l x (length k) eq_refl).
  f_equal. specialize (IH (k ++ [x])%list).
  rewrite length_app, <- app_assoc in IH. cbn in IH.
  rewrite Nat.add_1_r in IH. exact IH.
Qed.

Lemma reorder_permutation {A} p (l : list A) : Permutation l (pyorder.reorder p l).
Proof.
  unfold pyorder.reorder. case_bool_decide as H; [|reflexivity].
  pose proof (omap_lookup_seq [] l) as Hl. cbn [app length] in Hl.
  rewrite <- Hl at 1. apply omap_Permutation.
  rewrite <- H. symmetry. apply sort_permutation.
Qed.

Lemma keyed_snd {A} (key : A -> result pyval) l keyed :
  map_result (fun x => k ← key x; Ok (k, x)) l = Ok keyed -> map snd keyed = l.
Proof.
  revert keyed. induction l as [|x l IH]; intros keyed; cbn.
  - intros [= <-]. reflexivity.
  - destruct (key x) as [k|e]; cbn; [|discriminate].
    destruct (map_result _ l) as [ks|e]; cbn; [|discriminate].
    intros [= <-]. cbn. f_equal. apply IH. reflexivity.
Qed.

Lemma sort_in_place_permutation {A} aborted (key : A -> result pyval) rev_ l :
  Permutation l (snd (pyorder.sort_in_place aborted key rev_ l)).
Proof.
  unfold pyorder.sort_in_place.
  destruct (map_result _ l) as [keyed|e] eqn:Hkeyed; [|reflexivity].
  destruct (pyorder.sort_by rev_ keyed) as [sorted|e] eqn:Hsorted; cbn [snd].
  - rewrite <- (keyed_snd _ _ _ Hkeyed). eapply sort_by_permutation. exact Hsorted.
  - apply reorder_permutation.
Qed.

Lemma template_sorting_permutation {A} aborted (page_of : A -> PageObject.t) orders l :
  Permutation l (snd (Page.template_sorting aborted page_of orders l)).
Proof.
  revert l. induction orders as [|order orders IH]; intros l; cbn [Page.template_sorting];
    [reflexivity|].
  destruct (parse_order order) as [[rev_ name]|e]; [|reflexivity].
  pose proof (sort_in_place_permutation aborted (fun x => Page.getattr (page_of x) name) rev_ l)
    as Hs.
  destruct (pyorder.sort_in_place _ _ _ l) as [[[]|e] l1]; cbn [snd] in *.
  - rewrite Hs. apply IH.
  - exact Hs.
Qed.

(** *** The marks that follow the page through a sort *)

Lemma marked_snd (at_ : option nat) (l : list PageObject.t) :
  map snd (imap (fun j page => (bool_decide (at_ = Some j), page)) l) = l.
Proof.
  change (map snd) with (fmap (M := list) (@snd bool PageObject.t)).
  rewrite fmap_imap. apply list_eq. intros j. rewrite list_lookup_imap.
  destruct (l !! j); reflexivity.
Qed.

Lemma marked_assign (at_ : option nat) (page self : PageObject.t) (l : list PageObject.t) :
  map (fun mp : bool * PageObject.t => if fst mp then self else snd mp)
      (imap (fun j page => (bool_decide (at_ = Some j), page)) (with_page at_ page l))
  = with_page at_ self l.
Proof.
  change (map ?f) with (fmap (M := list) f).
  rewrite fmap_imap. apply list_eq. intros j. rewrite list_lookup_imap.
  destruct at_ as [i|]; cbn [with_page].
  - destruct (decide (i = j)) as [->|Hne].
    + destruct (decide (j < length l)) as [Hlt|Hge].
      * rewrite !list_lookup_insert_eq by exact Hlt. cbn.
        rewrite bool_decide_eq_true_2 by reflexivity. reflexivity.
      * rewrite !list_insert_ge by lia. rewrite lookup_ge_None_2 by lia. reflexivity.
    + rewrite !list_lookup_insert_ne by exact Hne.
      destruct (l !! j); cbn; [|reflexivity].
      rewrite bool_decide_eq_false_2 by congruence. reflexivity.
  - destruct (l !! j); reflexivity.
Qed.

(** *** [Page.render] *)

(** [render] in the pieces the source has it in: the page with its
    [content] assigned, the template, the sorts that the template asks for,
    and the assignment of [rendered]. *)
Lemma render_in_spec X w at_ self :
  exists (template : result string) (c : option string) (self1 : PageObject.t),
    self1 = PageObject.set_content c self
    /\ (pystr.mem (PageObject.ext self) [".md"; ".markdown"] = false -> self1 = self)
    /\ (forall b, pystr.mem (PageObject.ext self) [".md"; ".markdown"] = true ->
                  PageObject.body self = Some b -> c = Some (markdown X b))
    /\ Page.render_in X w at_ self
       = match template with
         | Raise e => ((Raise e, self1), with_page at_ self1 (site_pagedata w))
         | Ok source =>
             let pagedata := with_page at_ self1 (site_pagedata w) in
             let sorted :=
               Page.template_sorting
                 (sort_aborted w) snd
                 (template_sorts X (ContentCache.templates (site_cache w)) source self1 pagedata)
                 (imap (fun j page => (bool_decide (at_ = Some j), page)) pagedata) in
             match fst sorted
                   ≫= (fun _ => template_render X (ContentCache.templates (site_cache w))
                                                source self1 pagedata) with
             | Ok out =>
                 ((Ok out, PageObject.set_rendered (Some out) self1),
                  map (fun mp : bool * PageObject.t =>
                         if fst mp then PageObject.set_rendered (Some out) self1 else snd mp)
                      (snd sorted))
             | Raise e => ((Raise e, self1), map snd (snd sorted))
             end
         end.
Proof.
  unfold Page.render_in, with_page.
  destruct (pystr.mem (PageObject.ext self) [".md"; ".markdown"]).
  - destruct (PageObject.body self) as [b|].
    + exists (match PageObject.template (PageObject.set_content (Some (markdown X b)) self) with
              | Some name => Page.get_template (ContentCache.templates (site_cache w)) name
              | None => Page.get_template (ContentCache.templates (site_cache w)) "markdown.html"
              end),
        (Some (markdown X b)), (PageObject.set_content (Some (markdown X b)) self).
      split; [reflexivity|]. split; [discriminate|].
      split; [intros b' _ [= <-]; reflexivity|].
      destruct (match PageObject.template _ with Some _ => _ | None => _ end) as [src|e];
        [|reflexivity].
      destruct (Page.template_sorting _ _ _ _) as [sorting marked]. reflexivity.
    + exists (Raise AttributeError), (PageObject.content self), self.
      split; [destruct self; reflexivity|].
      split; [reflexivity|]. split; [discriminate|reflexivity].
  - exists (Page.get_template (ContentCache.templates (site_cache w)) (PageObject.filepath self)),
      (PageObject.content self), self.
    split; [destruct self; reflexivity|]. split; [reflexivity|]. split; [discriminate|].
    destruct (Page.get_template _ _) as [src|e]; [|reflexivity].
    destruct (Page.template_sorting _ _ _ _) as [sorting marked]. reflexivity.
Qed.

(** What [render] does to the page, and that it leaves of [pagedata]
    the pages it held, the rendered page at its place among them. *)
Lemma render_in_facts X w at_ self :
  let r := Page.render_in X w at_ self in
  let page := snd (fst r) in
  PageObject.set_rendered (PageObject.rendered self)
    (PageObject.set_content (PageObject.content self) page) = self
  /\ (forall out, fst (fst r) = Ok out -> PageObject.rendered page = Some out)
  /\ (forall e, fst (fst r) = Raise e -> PageObject.rendered page = PageObject.rendered self)
  /\ Permutation (with_page at_ page (site_pagedata w)) (snd r)
  /\ (quiet X -> snd r = with_page at_ page (site_pagedata w)).
Proof.
  destruct (render_in_spec X w at_ self) as (template & c & self1 & Hself & _ & _ & ->).
  destruct template as [source|e]; cbn zeta.
  2:{ cbn. subst self1. split; [destruct self; reflexivity|].
      split; [discriminate|]. split; [|split; reflexivity].
      intros _ _. reflexivity. }
  set (pagedata := with_page at_ self1 (site_pagedata w)).
  set (marked := imap _ pagedata).
  pose proof (template_sorting_permutation
                (sort_aborted w) snd
                (template_sorts X (ContentCache.templates (site_cache w)) source self1 pagedata)
                marked) as Hperm.
  assert (Hquiet : quiet X ->
            Page.template_sorting
              (sort_aborted w) snd
              (template_sorts X (ContentCache.templates (site_cache w)) source self1 pagedata)
              marked = (Ok tt, marked)) by (intros ->; reflexivity).
  destruct (Page.template_sorting _ _ _ marked) as [sorting sorted]. cbn [fst snd] in *.
  destruct (sorting ≫= _) as [out|e]; cbn [fst snd].
  - split; [subst self1; destruct self; reflexivity|].
    split; [intros out' [= <-]; reflexivity|].
    split; [discriminate|]. split.
    + rewrite <- (marked_assign at_ self1). fold pagedata marked.
      apply Permutation_map. exact Hperm.
    + intros Hq. specialize (Hquiet Hq). injection Hquiet as _ ->.
      apply marked_assign.
  - split; [subst self1; destruct self; reflexivity|].
    split; [discriminate|]. split; [intros _ _; subst self1; reflexivity|]. split.
    + etransitivity; [|apply Permutation_map; exact Hperm].
      unfold marked. rewrite marked_snd. reflexivity.
    + intros Hq. specialize (Hquiet Hq). injection Hquiet as _ ->.
      apply marked_snd.
Qed.

Lemma render_in_abspath X w at_ self :
  PageObject.abspath (snd (fst (Page.render_in X w at_ self))) = PageObject.abspath self.
Proof.
  destruct (render_in_facts X w at_ self) as (H & _). cbn zeta in H.
  rewrite <- H at 2. destruct (snd (fst _)); reflexivity.
Qed.

Lemma render_in_parsed X w at_ self :
  PageObject.parsed (snd (fst (Page.render_in X w at_ self))) = PageObject.parsed self.
Proof.
  destruct (render_in_facts X w at_ self) as (H & _). cbn zeta in H.
  rewrite <- H at 2. destruct (snd (fst _)); reflexivity.
Qed.

Lemma parse_string_is_parsed X cwd root filepath text page :
  Page.parse_string X cwd root filepath text = Ok page -> PageObject.parsed page = true.
Proof.
  unfold Page.parse_string.
  destruct (Page.__init__ cwd root filepath) as [p0|e]; [|discriminate]. cbn.
  destruct text as [s|]; [|discriminate]. cbn.
  destruct (pystr.split1 Page.metadelimiter s) as [|a [|b [|c l]]]; try discriminate.
  - intros [= <-]. reflexivity.
  - unfold Page.parse_metadata. destruct (config_items X _) as [items|e]; [|discriminate].
    unfold mbind, result_bind. intros [= <-]. reflexivity.
  - intros [= <-]. reflexivity.
Qed.

Lemma parse_file_is_parsed X cwd d root filepath page :
  Page.parse_file X cwd d root filepath = Ok page -> PageObject.parsed page = true.
Proof.
  unfold Page.parse_file. destruct (os.read cwd d filepath); [|discriminate].
  cbn. apply parse_string_is_parsed.
Qed.

(** *** Running [render_to_disk] and the loops of [get_pages] and [build] *)

Lemma set_disk_same w : set_disk (disk w) w = w.
Proof. destruct w; reflexivity. Qed.

Lemma render_to_disk_run X page w :
  let target := posixpath.join (site_root w) ["output"; PageObject.filepath page] in
  let r := Page.render_in X w None page in
  let w1 := set_site_pagedata
              (snd r) (set_render_to_disk_calls (render_to_disk_calls w ++ [page]) w) in
  Page.render_to_disk X page w
  = match fst (fst r) with
    | Raise e => (Raise e, w1)
    | Ok output =>
        match (if os.isdir (cwd w) (disk w) (posixpath.dirname target) then Ok (disk w)
               else os.makedirs (cwd w) (disk w) (posixpath.dirname target)) with
        | Raise e => (Raise e, w1)
        | Ok d1 =>
            match os.write (cwd w) d1 target output with
            | Raise e => (Raise e, set_disk d1 w1)
            | Ok d2 => (Ok tt, set_disk d2 w1)
            end
        end
    end.
Proof.
  intros target r w1. unfold Page.render_to_disk.
  rewrite run_modify, run_get_world.
  change (Page.render_in X (set_render_to_disk_calls _ w) None page) with r.
  destruct r as [[out page'] pagedata] eqn:Hr. rewrite run_modify. cbn [fst snd] in *.
  destruct out as [output|e]; [rewrite run_lift_ok|reflexivity].
  cbn [site_root cwd disk set_render_to_disk_calls set_site_pagedata]. fold target.
  rewrite run_bind. destruct (os.isdir _ _ _); cbn [negb].
  - unfold mret at 1, M_ret at 1. rewrite run_on_disk.
    cbn [cwd disk set_site_pagedata set_render_to_disk_calls].
    destruct (os.write _ _ _ _) as [d2|e]; [reflexivity|].
    rewrite <- (set_disk_same w1) at 1. reflexivity.
  - rewrite run_on_disk. cbn [cwd disk set_site_pagedata set_render_to_disk_calls].
    destruct (os.makedirs _ _ _) as [d1|e]; [|reflexivity].
    rewrite run_on_disk. cbn [cwd disk set_disk].
    destruct (os.write _ _ _ _) as [d2|e]; reflexivity.
Qed.

Lemma get_pages_step_run X file w :
  Site.get_pages_step X file w
  = if is_content w file then
      match Page.parse_file X (cwd w) (disk w) (site_root w)
                            (posixpath.join (site_root w) [file]) with
      | Raise e => (Raise e, w)
      | Ok page =>
          let r := Page.render_in X w None page in
          match fst (fst r) with
          | Raise e => (Raise e, set_site_pagedata (snd r) w)
          | Ok _ => (Ok tt, set_site_pagedata (snd r ++ [snd (fst r)]) w)
          end
      end
    else (Ok tt, w).
Proof.
  unfold Site.get_pages_step, is_content.
  destruct (pystr.startswith file "content"); cbn [negb andb]; [|reflexivity].
  rewrite run_get_world. destruct (os.isfile _ _ _); [|reflexivity].
  destruct (Page.parse_file X _ _ _ _) as [page|e];
    [rewrite run_lift_ok|rewrite run_lift_raise; reflexivity].
  destruct (Page.render_in X w None page) as [[out page'] pagedata].
  rewrite run_modify. cbn [fst snd].
  destruct out as [out|e]; [rewrite run_lift_ok|rewrite run_lift_raise]; reflexivity.
Qed.

Lemma build_step_run X i w page target :
  site_pagedata w !! i = Some page ->
  Page.get_target page = Ok target ->
  let output_filename := posixpath.join (site_root w) ["output"; target] in
  let r := Page.render_in X w (Some i) page in
  Site.build_step X i w
  = match (if os.exists_ (cwd w) (disk w) (posixpath.dirname output_filename)
           then Ok (disk w)
           else os.makedirs (cwd w) (disk w) (posixpath.dirname output_filename)) with
    | Raise e => (Raise e, w)
    | Ok d1 =>
        match os.write (cwd w) d1 output_filename "" with
        | Raise e => (Raise e, set_disk d1 w)
        | Ok d2 =>
            match fst (fst r) with
            | Raise e => (Raise e, set_site_pagedata (snd r) (set_disk d2 w))
            | Ok out =>
                match os.write (cwd w) d2 output_filename out with
                | Raise e => (Raise e, set_site_pagedata (snd r) (set_disk d2 w))
                | Ok d3 => (Ok tt, set_disk d3 (set_site_pagedata (snd r) w))
                end
            end
        end
    end.
Proof.
  intros Hi Htarget output_filename r. unfold Site.build_step.
  rewrite run_get_world, Hi, Htarget, run_lift_ok. fold output_filename.
  assert (Hrest : forall d1,
            (_ ← on_disk (fun cwd d => os.write cwd d output_filename "");
             w0 ← get_world;
             (let '(out, _, pagedata) := Page.render_in X w0 (Some i) page in
              _ ← modify (set_site_pagedata pagedata);
              out0 ← lift out;
              on_disk (fun cwd d => os.write cwd d output_filename out0))) (set_disk d1 w)
            = match os.write (cwd w) d1 output_filename "" with
              | Raise e => (Raise e, set_disk d1 w)
              | Ok d2 =>
                  match fst (fst r) with
                  | Raise e => (Raise e, set_site_pagedata (snd r) (set_disk d2 w))
                  | Ok out =>
                      match os.write (cwd w) d2 output_filename out with
                      | Raise e => (Raise e, set_site_pagedata (snd r) (set_disk d2 w))
                      | Ok d3 => (Ok tt, set_disk d3 (set_site_pagedata (snd r) w))
                      end
                  end
              end).
  { intros d1. rewrite run_bind, run_on_disk. cbn [cwd disk set_disk].
    destruct (os.write _ d1 _ "") as [d2|e]; [|reflexivity].
    rewrite run_get_world.
    change (Page.render_in X _ (Some i) page) with r.
    destruct r as [[out page'] pagedata]. rewrite run_modify. cbn [fst snd].
    destruct out as [out|e]; [rewrite run_lift_ok|reflexivity].
    rewrite run_on_disk. cbn [cwd disk set_disk set_site_pagedata].
    destruct (os.write _ d2 _ out) as [d3|e]; reflexivity. }
  rewrite run_bind. destruct (os.exists_ _ _ _); cbn [negb].
  - unfold mret at 1, M_ret at 1. rewrite <- (set_disk_same w) at 1. rewrite Hrest.
    destruct (os.write _ _ _ "") as [d2|e]; [reflexivity|].
    rewrite set_disk_same. reflexivity.
  - rewrite run_on_disk. destruct (os.makedirs _ _ _) as [d1|e]; [|reflexivity].
    apply Hrest.
Qed.

(** *** Frames up to the order *)

Section Permutes.
Context {A : Type} (proj : World -> list A).

Lemma keeps_permutes {B} (m : M B) : keeps proj m -> permutes proj m.
Proof. intros H w. rewrite H. reflexivity. Qed.

Lemma permutes_bind {B C} (m : M B) (f : B -> M C) :
  permutes proj m -> (forall b, permutes proj (f b)) -> permutes proj (m ≫= f).
Proof.
  intros Hm Hf w. unfold mbind, M_bind.
  specialize (Hm w). destruct (m w) as [[b|e] w1]; cbn in *.
  - rewrite Hm. apply Hf.
  - exact Hm.
Qed.

Lemma permutes_for_each {B} (l : list B) (body : B -> M unit) :
  (forall x, permutes proj (body x)) -> permutes proj (for_each l body).
Proof.
  intros Hbody. induction l as [|x l IH]; cbn.
  - apply keeps_permutes, keeps_ret.
  - apply permutes_bind; [apply Hbody|]. intros _. exact IH.
Qed.

End Permutes.

Lemma permutes_sources {B} (m : M B) : permutes site_pagedata m -> permutes sources m.
Proof. intros H w. unfold sources. apply Permutation_map, H. Qed.






(** *** [Site.get_pages] *)

Lemma get_pages_step_ok X file w w' :
  Site.get_pages_step X file w = (Ok tt, w') ->
  exists new,
    w' = set_site_pagedata (site_pagedata w') w
    /\ Permutation (site_pagedata w ++ new) (site_pagedata w')
    /\ (quiet X -> site_pagedata w' = (site_pagedata w ++ new)%list)
    /\ Forall finished new
    /\ map PageObject.abspath new = if is_content w file then [source_of w file] else [].
Proof.
  rewrite get_pages_step_run. unfold source_of.
  destruct (is_content w file).
  2:{ intros [= <-]. exists []. rewrite app_nil_r, set_site_pagedata_same.
      repeat split; auto. }
  destruct (Page.parse_file X _ _ _ _) as [page|e] eqn:Hparse; [|discriminate].
  destruct (render_in_facts X w None page) as (_ & Hout & _ & Hperm & Hquiet).
  pose proof (render_in_abspath X w None page) as Habs.
  pose proof (render_in_parsed X w None page) as Hparsed.
  cbn zeta in *. cbn [with_page] in *.
  destruct (fst (fst (Page.render_in X w None page))) as [out|e]; [|discriminate].
  intros [= <-]. exists [snd (fst (Page.render_in X w None page))].
  cbn [site_pagedata set_site_pagedata]. split; [reflexivity|].
  split; [apply Permutation_app_tail; exact Hperm|].
  split; [intros Hq; rewrite (Hquiet Hq); reflexivity|]. split.
  - constructor; [|constructor]. split.
    + rewrite Hparsed. eapply parse_file_is_parsed. exact Hparse.
    + exists out. apply Hout. reflexivity.
  - cbn. rewrite Habs, (abspath_parse_file _ _ _ _ _ _ Hparse). reflexivity.
Qed.

Lemma get_pages_loop X l w w' :
  for_each l (Site.get_pages_step X) w = (Ok tt, w') ->
  exists new,
    w' = set_site_pagedata (site_pagedata w') w
    /\ Permutation (site_pagedata w ++ new) (site_pagedata w')
    /\ (quiet X -> site_pagedata w' = (site_pagedata w ++ new)%list)
    /\ Forall finished new
    /\ map PageObject.abspath new = map (source_of w) (List.filter (is_content w) l).
Proof.
  revert w. induction l as [|file l IH]; intros w; cbn [for_each List.filter].
  - intros [= <-]. exists []. rewrite app_nil_r, set_site_pagedata_same.
    repeat split; auto.
  - rewrite run_bind.
    destruct (Site.get_pages_step X file w) as [[[]|e] w1] eqn:Hstep; [|discriminate].
    apply get_pages_step_ok in Hstep as (n1 & Hw1 & Hp1 & Hq1 & Hf1 & Hn1).
    intros Hrest. apply IH in Hrest as (n2 & Hw' & Hp2 & Hq2 & Hf2 & Hn2).
    exists (n1 ++ n2)%list. split; [rewrite Hw', Hw1; reflexivity|].
    split; [rewrite app_assoc, Hp1; exact Hp2|].
    split; [intros Hq; rewrite (Hq2 Hq), (Hq1 Hq), app_assoc; reflexivity|].
    split; [apply Forall_app; split; assumption|].
    rewrite map_app, Hn1, Hn2, Hw1.
    change (is_content (set_site_pagedata (site_pagedata w1) w)) with (is_content w).
    change (source_of (set_site_pagedata (site_pagedata w1) w)) with (source_of w).
    destruct (is_content w file); reflexivity.
Qed.

Lemma get_pages_appends X w r w' :
  Site.get_pages X w = (Ok r, w') ->
  r = Pagedata
  /\ exists new,
       w' = set_site_pagedata (site_pagedata w') w
       /\ Permutation (site_pagedata w ++ new) (site_pagedata w')
       /\ (quiet X -> site_pagedata w' = (site_pagedata w ++ new)%list)
       /\ Forall finished new
       /\ map PageObject.abspath new = map (source_of w) (content_files w).
Proof.
  unfold Site.get_pages. rewrite run_get_world, run_bind.
  destruct (for_each _ _ w) as [[[]|e] w1] eqn:Hloop; [|discriminate].
  intros [= <- <-]. split; [reflexivity|].
  apply get_pages_loop in Hloop. exact Hloop.
Qed.

(** *** [Site.build] *)

(** An iteration either leaves [pagedata] as it was, or as [render] on
    its page leaves it. *)
Lemma build_step_pagedata X i w :
  site_pagedata (snd (Site.build_step X i w)) = site_pagedata w
  \/ exists page,
       site_pagedata w !! i = Some page
       /\ site_pagedata (snd (Site.build_step X i w))
          = snd (Page.render_in X w (Some i) page).
Proof.
  destruct (site_pagedata w !! i) as [page|] eqn:Hi.
  2:{ left. unfold Site.build_step. rewrite run_get_world, Hi. reflexivity. }
  destruct (Page.get_target page) as [target|e] eqn:Htarget.
  2:{ left. unfold Site.build_step. rewrite run_get_world, Hi, Htarget. reflexivity. }
  rewrite (build_step_run X i w page target Hi Htarget). cbn zeta.
  destruct (if os.exists_ _ _ _ then _ else _) as [d1|e]; [|left; reflexivity].
  destruct (os.write _ d1 _ "") as [d2|e]; [|left; reflexivity].
  right. exists page. split; [reflexivity|].
  destruct (fst (fst _)) as [out|e]; [|reflexivity].
  destruct (os.write _ d2 _ out); reflexivity.
Qed.

Lemma insert_same_source i page page' (l : list PageObject.t) :
  l !! i = Some page ->
  PageObject.abspath page' = PageObject.abspath page ->
  map PageObject.abspath (<[i := page']> l) = map PageObject.abspath l.
Proof.
  intros Hi Hp. change (map PageObject.abspath) with (fmap (M := list) PageObject.abspath).
  rewrite list_fmap_insert, Hp. apply list_insert_id.
  rewrite list_lookup_fmap, Hi. reflexivity.
Qed.

Lemma build_step_permutes_sources X i : permutes sources (Site.build_step X i).
Proof.
  intros w. unfold sources.
  destruct (build_step_pagedata X i w) as [->|(page & Hi & ->)]; [reflexivity|].
  destruct (render_in_facts X w (Some i) page) as (_ & _ & _ & Hperm & _).
  cbn zeta in Hperm. cbn [with_page] in Hperm.
  rewrite <- Hperm, (insert_same_source i page); [reflexivity|exact Hi|].
  apply render_in_abspath.
Qed.

Lemma build_step_keeps_sources X i : quiet X -> keeps sources (Site.build_step X i).
Proof.
  intros Hq w. unfold sources.
  destruct (build_step_pagedata X i w) as [->|(page & Hi & ->)]; [reflexivity|].
  destruct (render_in_facts X w (Some i) page) as (_ & _ & _ & _ & Hquiet).
  cbn zeta in Hquiet. cbn [with_page] in Hquiet.
  rewrite (Hquiet Hq). apply (insert_same_source i page); [exact Hi|].
  apply render_in_abspath.
Qed.

Lemma copy_static_keeps_sources : keeps sources Site.copy_static.
Proof. unfold Site.copy_static, Site.copy_static_step. keeps_auto. Qed.

Lemma build_sources X w w' :
  Site.build X w = (Ok tt, w') ->
  exists new,
    Permutation (sources w ++ map PageObject.abspath new) (sources w')
    /\ (quiet X -> sources w' = (sources w ++ map PageObject.abspath new)%list)
    /\ map PageObject.abspath new = map (source_of w) (content_files w).
Proof.
  unfold Site.build. rewrite run_bind.
  destruct (Site.get_pages X w) as [[r|e] w1] eqn:Hget; [|discriminate].
  apply get_pages_appends in Hget as (-> & new & Hw1 & Hperm & Hquiet & _ & Hnew).
  unfold Site.assign_pagedata. rewrite run_ret, run_get_world.
  intros Hrest. exists new.
  assert (Hsources : forall l new : list PageObject.t,
             map PageObject.abspath (l ++ new)
             = (map PageObject.abspath l ++ map PageObject.abspath new)%list)
    by (intros; apply map_app).
  split; [|split; [|exact Hnew]].
  - assert (Hp : permutes sources
              (for_each (seq 0 (length (site_pagedata w1))) (Site.build_step X)
               ≫= fun _ => Site.copy_static)).
    { apply permutes_bind.
      - apply permutes_for_each. intros i. apply build_step_permutes_sources.
      - intros _. apply keeps_permutes, copy_static_keeps_sources. }
    specialize (Hp w1). rewrite Hrest in Hp. cbn [snd] in Hp.
    rewrite <- Hp. unfold sources. rewrite <- Hsources. apply Permutation_map. exact Hperm.
  - intros Hq.
    assert (Hk : keeps sources
              (for_each (seq 0 (length (site_pagedata w1))) (Site.build_step X)
               ≫= fun _ => Site.copy_static)).
    { apply keeps_bind.
      - apply keeps_for_each. intros i. apply build_step_keeps_sources. exact Hq.
      - intros _. apply copy_static_keeps_sources. }
    specialize (Hk w1). rewrite Hrest in Hk. cbn [snd] in Hk.
    rewrite Hk. unfold sources. rewrite (Hquiet Hq). apply Hsources.
Qed.

(** *** The handlers *)










(** ** The slug and URL of index pages *)

Lemma app_cons a s t : String a s ++ t = String a (s ++ t).
Proof. reflexivity. Qed.

Lemma app_empty t : "" ++ t = t.
Proof. reflexivity. Qed.

Lemma app_eq_empty s t : s ++ t = "" -> s = "" /\ t = "".
Proof. destruct s; [rewrite app_empty; auto|rewrite app_cons; discriminate]. Qed.

Lemma split_last_absent c t :
  has_char c t = false -> posixpath.split_last c t = ("", t).
Proof.
  induction t as [|a t IH]; cbn [has_char posixpath.split_last]; [reflexivity|].
  intros H. apply orb_false_iff in H as [Ha Ht].
  rewrite (IH Ht), Ha. reflexivity.
Qed.

Lemma split_last_app c s t :
  has_char c t = false ->
  posixpath.split_last c (s ++ String c t) = (s ++ String c "", t).
Proof.
  intros Ht. induction s as [|a s IH].
  - rewrite !app_empty. cbn [posixpath.split_last].
    rewrite (split_last_absent c t Ht).
    unfold pystr.eqb_ascii. rewrite Ascii.eqb_refl. reflexivity.
  - rewrite !app_cons. cbn [posixpath.split_last]. rewrite IH.
    destruct (s ++ String c "") eqn:Hs; [|reflexivity].
    apply app_eq_empty in Hs as [_ Hs]. discriminate.
Qed.

Lemma split_nonempty c s : pystr.split c s <> [].
Proof.
  destruct s as [|a s]; cbn [pystr.split]; [discriminate|].
  destruct (pystr.eqb_ascii a c); [discriminate|].
  destruct (pystr.split c s); discriminate.
Qed.

Lemma split_absent c t : has_char c t = false -> pystr.split c t = [t].
Proof.
  induction t as [|a t IH]; cbn [has_char pystr.split]; [reflexivity|].
  intros H. apply orb_false_iff in H as [Ha Ht].
  rewrite Ha, (IH Ht). reflexivity.
Qed.

Lemma split_app c s t :
  pystr.split c (s ++ String c t) = (pystr.split c s ++ pystr.split c t)%list.
Proof.
  induction s as [|a s IH].
  - rewrite app_empty. cbn [pystr.split].
    unfold pystr.eqb_ascii. rewrite Ascii.eqb_refl. reflexivity.
  - rewrite app_cons. cbn [pystr.split]. rewrite IH.
    destruct (pystr.eqb_ascii a c); [reflexivity|].
    pose proof (split_nonempty c s) as Hne.
    destruct (pystr.split c s) as [|h tl]; [congruence|reflexivity].
Qed.

Lemma join_cons x y l :
  pystr.join "/" (x :: y :: l) = x ++ String posixpath.sep (pystr.join "/" (y :: l)).
Proof. reflexivity. Qed.

Lemma split_join comps :
  comps <> [] -> Forall component comps ->
  pystr.split posixpath.sep (pystr.join "/" comps) = comps.
Proof.
  intros Hne Hall. induction Hall as [|x l Hx Hl IH]; [congruence|].
  destruct l as [|y l].
  - cbn. apply split_absent. apply Hx.
  - rewrite join_cons, split_app, IH by discriminate.
    rewrite split_absent by apply Hx. reflexivity.
Qed.

Lemma norm_comps_components b stack comps rest :
  Forall component comps ->
  posixpath.norm_comps b stack (comps ++ rest)
  = posixpath.norm_comps b (rev comps ++ stack) rest.
Proof.
  intros Hall. revert stack. induction Hall as [|x l Hx Hl IH]; intros stack; [reflexivity|].
  destruct Hx as (Hx1 & Hx2 & Hx3 & _).
  cbn [app posixpath.norm_comps rev].
  destruct (String.eqb_spec x ""); [congruence|].
  destruct (String.eqb_spec x "."); [congruence|].
  destruct (String.eqb_spec x ".."); [congruence|].
  cbn [orb negb]. rewrite IH, <- app_assoc. reflexivity.
Qed.

Lemma join_first_char comps :
  comps <> [] -> Forall component comps ->
  exists a s, pystr.join "/" comps = String a s /\ pystr.eqb_ascii a posixpath.sep = false.
Proof.
  intros Hne Hall. destruct Hall as [|x l Hx Hl]; [congruence|].
  destruct Hx as (Hx1 & _ & _ & Hx4).
  destruct x as [|a x]; [congruence|].
  cbn [has_char] in Hx4. apply orb_false_iff in Hx4 as [Ha _].
  destruct l as [|y l].
  - exists a, x. split; [reflexivity|exact Ha].
  - rewrite join_cons, app_cons. eauto.
Qed.

Lemma prefix_slash_false a s t :
  pystr.eqb_ascii a posixpath.sep = false ->
  pystr.startswith (String a s) (String posixpath.sep t) = false.
Proof.
  intros Ha. unfold pystr.startswith. cbn -[ascii_dec].
  destruct (ascii_dec posixpath.sep a) as [<-|]; [|reflexivity].
  unfold pystr.eqb_ascii in Ha. rewrite Ascii.eqb_refl in Ha. discriminate.
Qed.

Lemma normpath_folder_slash comps :
  comps <> [] -> Forall component comps ->
  posixpath.normpath (pystr.join "/" comps ++ "/") = pystr.join "/" comps.
Proof.
  intros Hne Hall.
  destruct (join_first_char comps Hne Hall) as (a & s & Hf & Ha).
  unfold posixpath.normpath.
  assert (Hsplit : pystr.split posixpath.sep (pystr.join "/" comps ++ "/")
                   = (comps ++ [""])%list).
  { change "/" with (String posixpath.sep "") at 2.
    rewrite split_app, split_join by assumption. reflexivity. }
  rewrite Hsplit. rewrite Hf, app_cons.
  cbn [String.eqb]. rewrite !prefix_slash_false by exact Ha.
  cbn [Nat.eqb negb].
  rewrite norm_comps_components by exact Hall.
  cbn [posixpath.norm_comps String.eqb orb]. rewrite app_nil_r, rev_involutive.
  rewrite Hf. reflexivity.
Qed.

Lemma rstrip_absent c t : has_char c t = false -> posixpath.rstrip_char c t = t.
Proof.
  induction t as [|a t IH]; cbn [has_char posixpath.rstrip_char]; [reflexivity|].
  intros H. apply orb_false_iff in H as [Ha Ht].
  rewrite (IH Ht), Ha. destruct t; reflexivity.
Qed.

Lemma rstrip_app c s t :
  t <> "" -> posixpath.rstrip_char c t = t -> posixpath.rstrip_char c (s ++ t) = s ++ t.
Proof.
  intros Hne Ht. induction s as [|a s IH]; [exact Ht|].
  rewrite app_cons. cbn [posixpath.rstrip_char]. rewrite IH.
  destruct (s ++ t) eqn:Hst; [|reflexivity].
  apply app_eq_empty in Hst as [_ Hst]. congruence.
Qed.

Lemma join_nonempty comps :
  comps <> [] -> Forall component comps -> pystr.join "/" comps <> "".
Proof.
  intros Hne Hall. destruct (join_first_char comps Hne Hall) as (a & s & -> & _).
  discriminate.
Qed.

Lemma rstrip_join comps :
  comps <> [] -> Forall component comps ->
  posixpath.rstrip_char posixpath.sep (pystr.join "/" comps) = pystr.join "/" comps.
Proof.
  intros Hne Hall. induction Hall as [|x l Hx Hl IH]; [congruence|].
  destruct l as [|y l].
  - cbn. apply rstrip_absent. apply Hx.
  - rewrite join_cons. apply rstrip_app; [discriminate|].
    cbn [posixpath.rstrip_char]. rewrite IH by discriminate.
    pose proof (join_nonempty (y :: l) ltac:(discriminate) Hl) as Hj.
    destruct (pystr.join "/" (y :: l)); [congruence|reflexivity].
Qed.

Lemma rstrip_trailing c s :
  posixpath.rstrip_char c s = s -> posixpath.rstrip_char c (s ++ String c "") = s.
Proof.
  induction s as [|a s IH].
  - intros _. rewrite app_empty. cbn. unfold pystr.eqb_ascii.
    rewrite Ascii.eqb_refl. reflexivity.
  - cbn [posixpath.rstrip_char]. rewrite app_cons. cbn [posixpath.rstrip_char].
    destruct (posixpath.rstrip_char c s) as [|b r] eqn:Hr.
    + destruct (pystr.eqb_ascii a c) eqn:Ha; [discriminate|].
      intros Hs. assert (s = "") as -> by congruence.
      rewrite IH by reflexivity. reflexivity.
    + intros Hs. assert (String b r = s) as Hbr by congruence.
      rewrite IH by exact Hbr. rewrite <- Hbr. reflexivity.
Qed.

Lemma split_last_app_head c s t h tl :
  posixpath.split_last c t = (h, tl) -> h <> "" ->
  posixpath.split_last c (s ++ t) = (s ++ h, tl).
Proof.
  intros Ht Hh. induction s as [|a s IH]; [exact Ht|].
  rewrite !app_cons. cbn [posixpath.split_last]. rewrite IH.
  destruct (s ++ h) eqn:Hsh; [|reflexivity].
  apply app_eq_empty in Hsh as [_ Hsh]. congruence.
Qed.

Lemma split_last_join_tail comps :
  comps <> [] -> Forall component comps ->
  snd (posixpath.split_last posixpath.sep (pystr.join "/" comps)) <> "".
Proof.
  intros Hne Hall. induction Hall as [|x l Hx Hl IH]; [congruence|].
  destruct l as [|y l].
  - cbn [pystr.join String.concat]. rewrite split_last_absent by apply Hx. apply Hx.
  - rewrite join_cons.
    specialize (IH ltac:(discriminate)).
    destruct (posixpath.split_last posixpath.sep (pystr.join "/" (y :: l))) as [h tl] eqn:Hj.
    assert (Hs : exists h', h' <> ""
                 /\ posixpath.split_last posixpath.sep
                      (String posixpath.sep (pystr.join "/" (y :: l))) = (h', tl)).
    { cbn [posixpath.split_last]. rewrite Hj. unfold pystr.eqb_ascii.
      rewrite Ascii.eqb_refl. destruct h; eexists; (split; [|reflexivity]); discriminate. }
    destruct Hs as (h' & Hh' & Hs).
    rewrite (split_last_app_head _ _ _ _ _ Hs Hh'). exact IH.
Qed.

Lemma endswith_sep_join comps :
  comps <> [] -> Forall component comps ->
  posixpath.endswith_sep (pystr.join "/" comps) = false.
Proof.
  intros Hne Hall. unfold posixpath.endswith_sep.
  pose proof (split_last_join_tail comps Hne Hall) as Ht.
  destruct (posixpath.split_last _ _) as [h tl]. cbn in Ht.
  destruct h; [reflexivity|]. destruct tl; [congruence|reflexivity].
Qed.

Lemma page_like_cases ext :
  page_like ext = true -> ext = ".html" \/ ext = ".md" \/ ext = ".markdown".
Proof.
  unfold page_like, pystr.mem. cbn [existsb].
  destruct (String.eqb_spec ext ".html"); [auto|].
  destruct (String.eqb_spec ext ".md"); [auto|].
  destruct (String.eqb_spec ext ".markdown"); [auto|discriminate].
Qed.

Lemma normpath_folder comps :
  comps <> [] -> Forall component comps ->
  posixpath.normpath (pystr.join "/" comps) = pystr.join "/" comps.
Proof.
  intros Hne Hall.
  destruct (join_first_char comps Hne Hall) as (a & s & Hf & Ha).
  unfold posixpath.normpath.
  rewrite split_join by assumption. rewrite Hf.
  cbn [String.eqb]. rewrite !prefix_slash_false by exact Ha.
  cbn [Nat.eqb negb].
  replace (posixpath.norm_comps false [] comps) with (rev comps).
  - rewrite rev_involutive, Hf. reflexivity.
  - rewrite <- (app_nil_r comps) at 2.
    rewrite norm_comps_components by exact Hall.
    cbn [posixpath.norm_comps]. rewrite app_nil_r. reflexivity.
Qed.

Lemma init_fields cwd root filepath page :
  Page.__init__ cwd root filepath = Ok page ->
  PageObject.folder page = Page._get_folder (PageObject.filepath page)
  /\ PageObject.slug page = Page._get_default_slug (PageObject.filepath page)
  /\ PageObject.ext page = Page._get_extension (PageObject.filepath page)
  /\ PageObject.url page = Page._get_url page.
Proof.
  unfold Page.__init__. destruct (posixpath.relpath _ _ _) as [rel|]; [|discriminate].
  intros [= <-]. repeat split.
Qed.

Lemma dirname_in_folder comps t :
  comps <> [] -> Forall component comps -> has_char posixpath.sep t = false ->
  posixpath.dirname (pystr.join "/" comps ++ String posixpath.sep t) = pystr.join "/" comps.
Proof.
  intros Hne Hall Ht. unfold posixpath.dirname.
  rewrite split_last_app by exact Ht. cbn [fst].
  destruct (join_first_char comps Hne Hall) as (a & s & Hf & Ha).
  assert (Hhead : String.eqb (pystr.join "/" comps ++ String posixpath.sep "") "" = false
                  /\ posixpath.all_char posixpath.sep
                       (pystr.join "/" comps ++ String posixpath.sep "") = false).
  { rewrite Hf, app_cons. cbn [String.eqb posixpath.all_char]. rewrite Ha. split; reflexivity. }
  destruct Hhead as [-> ->]. cbn [negb andb].
  apply rstrip_trailing, rstrip_join; assumption.
Qed.

Lemma basename_in_folder f t :
  has_char posixpath.sep t = false ->
  posixpath.basename (f ++ String posixpath.sep t) = t.
Proof.
  intros Ht. unfold posixpath.basename. rewrite split_last_app by exact Ht. reflexivity.
Qed.

Lemma splitext_in_folder f t r e :
  has_char posixpath.sep t = false ->
  posixpath.rsplit_dot t = Some (r, e) -> posixpath.all_char "."%char r = false ->
  snd (posixpath.splitext (f ++ String posixpath.sep t)) = e.
Proof.
  intros Ht Hr Hall. unfold posixpath.splitext.
  rewrite split_last_app by exact Ht. rewrite Hr, Hall. reflexivity.
Qed.

Lemma join_folder_empty_slug comps :
  comps <> [] -> Forall component comps ->
  posixpath.join (pystr.join "/" comps) [""] = pystr.join "/" comps ++ "/".
Proof.
  intros Hne Hall. unfold posixpath.join. cbn [fold_left]. unfold posixpath.join2.
  change (posixpath.isabs "") with false. cbv iota.
  rewrite (endswith_sep_join comps Hne Hall).
  destruct (String.eqb_spec (pystr.join "/" comps) "") as [He|_];
    [apply join_nonempty in He; [contradiction|assumption..]|].
  reflexivity.
Qed.

(** A page constructed for a file [index] with one of the extensions
    [.html], [.md], [.markdown] in the folder [f] under [content] has the
    empty slug and the folder [f], and its URL is [/], the normalised
    folder and [/].  In a folder below the content root, given by its
    components, that is the URL of the folder itself, [/f/], with no
    [index] segment. *)
Lemma index_page_url (cwd : list string) (root filepath : string)
        (comps : list string) (ext : string) (page : PageObject.t) :
  Forall component comps ->
  page_like ext = true ->
  Page.__init__ cwd root filepath = Ok page ->
  PageObject.filepath page = index_file comps ext ->
  PageObject.slug page = ""
  /\ PageObject.folder page = pystr.join "/" comps
  /\ PageObject.url page = "/" ++ posixpath.normpath (pystr.join "/" comps) ++ "/"
  /\ (comps <> [] -> PageObject.url page = "/" ++ pystr.join "/" comps ++ "/").
Proof.
  intros Hall Hext Hinit Hpath.
  destruct (init_fields _ _ _ _ Hinit) as (Hfolder & Hslug & Hextension & Hurl).
  rewrite Hpath in Hfolder, Hslug, Hextension.
  assert (Hfields : PageObject.slug page = ""
                    /\ PageObject.folder page = pystr.join "/" comps
                    /\ PageObject.ext page = ext).
  { rewrite Hfolder, Hslug, Hextension.
    unfold Page._get_folder, Page._get_default_slug, Page._get_extension.
    destruct comps as [|c comps].
    - cbn [index_file].
      destruct (page_like_cases ext Hext) as [->|[->| ->]];
        (split; [|split]); vm_compute; reflexivity.
    - cbn [index_file].
      assert (Hne : c :: comps <> []) by discriminate.
      destruct (page_like_cases ext Hext) as [->|[->| ->]].
      + rewrite basename_in_folder by reflexivity.
        rewrite dirname_in_folder by (assumption || reflexivity).
        rewrite (splitext_in_folder _ _ "index" ".html") by reflexivity.
        repeat split.
      + rewrite basename_in_folder by reflexivity.
        rewrite dirname_in_folder by (assumption || reflexivity).
        rewrite (splitext_in_folder _ _ "index" ".md") by reflexivity.
        repeat split.
      + rewrite basename_in_folder by reflexivity.
        rewrite dirname_in_folder by (assumption || reflexivity).
        rewrite (splitext_in_folder _ _ "index" ".markdown") by reflexivity.
        repeat split. }
  destruct Hfields as (Hs & Hf & He).
  split; [exact Hs|]. split; [exact Hf|].
  assert (Hu : PageObject.url page
               = "/" ++ posixpath.normpath (posixpath.join (pystr.join "/" comps) [""]) ++ "/").
  { rewrite Hurl. unfold Page._get_url. rewrite Hs, Hf, He.
    change (pystr.mem ext [".html"; ".md"; ".markdown"]) with (page_like ext).
    rewrite Hext. reflexivity. }
  destruct comps as [|c comps].
  - split; [exact Hu|congruence].
  - assert (Hne : c :: comps <> []) by discriminate.
    rewrite join_folder_empty_slug in Hu by assumption.
    rewrite normpath_folder_slash in Hu by assumption.
    rewrite normpath_folder by assumption.
    split; [exact Hu|intros _; exact Hu].
Qed.

(** [content/cakes/index.md] *)
Lemma index_page_url_witness :
  Forall component ["cakes"]
  /\ page_like ".md" = true
  /\ Page.__init__ ["site"] "/site" "/site/content/cakes/index.md" = Ok cakes_index
  /\ PageObject.filepath cakes_index = index_file ["cakes"] ".md"
  /\ PageObject.slug cakes_index = ""
  /\ PageObject.folder cakes_index = pystr.join "/" ["cakes"]
  /\ PageObject.url cakes_index = "/" ++ posixpath.normpath (pystr.join "/" ["cakes"]) ++ "/"
  /\ (["cakes"] <> [] -> PageObject.url cakes_index = "/" ++ pystr.join "/" ["cakes"] ++ "/").
Proof.
  assert (Hc : Forall component ["cakes"]).
  { constructor; [|constructor].
    repeat split; try discriminate. }
  assert (Hinit : Page.__init__ ["site"] "/site" "/site/content/cakes/index.md"
                  = Ok cakes_index) by (vm_compute; reflexivity).
  split; [exact Hc|]. split; [reflexivity|]. split; [exact Hinit|].
  split; [reflexivity|].
  exact (index_page_url ["site"] "/site" "/site/content/cakes/index.md" ["cakes"] ".md"
                        cakes_index Hc eq_refl Hinit eq_refl).
Defined.

(** C8 at the failing input.  The pages constructed for [index.md] and
    [index.html] directly under [content] have the empty slug and the
    empty folder, and the URL [/./]: the folder is empty there, and
    [normpath] makes [.] of the empty path, so the URL is not the one of
    the content root, [/], where below the root it is the one of the
    folder. *)
Theorem root_index_url :
  (exists page, Page.__init__ ["site"] "/site" "/site/content/index.md" = Ok page
                /\ PageObject.filepath page = "index.md"
                /\ PageObject.slug page = "" /\ PageObject.folder page = ""
                /\ PageObject.url page = "/./")
  /\ (exists page, Page.__init__ ["site"] "/site" "/site/content/index.html" = Ok page
                   /\ PageObject.filepath page = "index.html"
                   /\ PageObject.slug page = "" /\ PageObject.folder page = ""
                   /\ PageObject.url page = "/./")
  /\ posixpath.normpath "" = "."
  /\ (exists page, Page.__init__ ["site"] "/site" "/site/content/cakes/index.md" = Ok page
                   /\ PageObject.slug page = "" /\ PageObject.folder page = "cakes"
                   /\ PageObject.url page = "/cakes/").
Proof.
  repeat split; try (vm_compute; reflexivity);
    eexists; (split; [vm_compute; reflexivity|]); repeat split; vm_compute; reflexivity.
Qed.

(** A deeper folder, and a page that is not an index *)
Example index_page_examples :
  (exists page, Page.__init__ ["site"] "/site" "/site/content/a/b/index.html" = Ok page
                /\ PageObject.slug page = "" /\ PageObject.url page = "/a/b/")
  /\ (exists page, Page.__init__ ["site"] "/site" "/site/content/cakes/chocolate.md" = Ok page
                   /\ PageObject.slug page = "chocolate"
                   /\ PageObject.url page = "/cakes/chocolate/").
Proof.
  repeat split; eexists; (split; [vm_compute; reflexivity|]);
    repeat split; vm_compute; reflexivity.
Qed.

(** * Further properties *)

(** ** The cache as a dictionary *)

Lemma pydict_keys_set d k v :
  pydict.keys (pydict.set d k v)
  = if pydict.contains d k then pydict.keys d else (pydict.keys d ++ [k])%list.
Proof.
  unfold pydict.contains, pydict.keys.
  induction d as [|[k' v'] d IH]; cbn; [reflexivity|].
  destruct (String.eqb_spec k' k) as [->|Hne]; cbn; [reflexivity|].
  rewrite IH. destruct (pydict.get d k); reflexivity.
Qed.

Lemma pydict_get_in_keys d k : pydict.get d k = None <-> ~ In k (pydict.keys d).
Proof.
  unfold pydict.keys. induction d as [|[k' v'] d IH]; cbn; [tauto|].
  destruct (String.eqb_spec k' k) as [->|Hne].
  - split; [discriminate|]. intros H. exfalso. apply H. left. reflexivity.
  - rewrite IH. split; [intros H [?|?]; [congruence|contradiction]|tauto].
Qed.

Lemma pydict_set_nodup d k v :
  List.NoDup (pydict.keys d) -> List.NoDup (pydict.keys (pydict.set d k v)).
Proof.
  intros Hd. rewrite pydict_keys_set. unfold pydict.contains.
  destruct (pydict.get d k) eqn:Hk; [exact Hd|].
  apply pydict_get_in_keys in Hk.
  apply NoDup_ListNoDup, NoDup_app. repeat split.
  - apply NoDup_ListNoDup. exact Hd.
  - intros x Hx Hx'. apply list_elem_of_In in Hx. apply list_elem_of_singleton in Hx'.
    subst. contradiction.
  - apply NoDup_singleton.
Qed.

Lemma pydict_get_del_eq d k :
  List.NoDup (pydict.keys d) -> pydict.get (pydict.del d k) k = None.
Proof.
  unfold pydict.keys. induction d as [|[k' v'] d IH]; cbn; [reflexivity|].
  intros Hd. inversion Hd as [|? ? Hnotin Hd']; subst.
  destruct (String.eqb_spec k' k) as [->|Hne].
  - apply pydict_get_in_keys. exact Hnotin.
  - cbn. destruct (String.eqb_spec k' k); [congruence|]. apply IH. exact Hd'.
Qed.

Lemma pydict_del_nodup d k :
  List.NoDup (pydict.keys d) -> List.NoDup (pydict.keys (pydict.del d k)).
Proof.
  unfold pydict.keys. induction d as [|[k' v'] d IH]; cbn; [auto|].
  intros Hd. inversion Hd as [|? ? Hnotin Hd']; subst.
  destruct (String.eqb_spec k' k) as [->|Hne]; [exact Hd'|].
  cbn. constructor; [|apply IH; exact Hd'].
  intros Hin. apply Hnotin. clear -Hin.
  induction d as [|[k0 v0] d IH]; cbn in *; [contradiction|].
  destruct (String.eqb k0 k); cbn in *; [right; exact Hin|].
  destruct Hin as [?|?]; [left; assumption|right; apply IH; assumption].
Qed.

Lemma set_get (cwd : list string) (c : ContentCache.t) (f v : string) :
  exists c',
    ContentCache.set cwd c f v = Ok c'
    /\ ContentCache.get c' f = Some v
    /\ (forall g, g <> f -> ContentCache.get c' g = ContentCache.get c g)
    /\ ContentCache.root c' = ContentCache.root c
    /\ (well_keyed c -> well_keyed c').
Proof.
  rewrite set_spec. eexists. split; [reflexivity|].
  rewrite cache_get_files. cbn [ContentCache.files ContentCache.root].
  split; [apply pydict_get_set_eq|].
  split; [intros g Hg; rewrite !cache_get_files; apply pydict_get_set_ne; exact Hg|].
  split; [reflexivity|]. apply pydict_set_nodup.
Qed.

(** X1.  [ContentCache.set] always returns; afterwards [get] of the
    path gives the content just set, [get] of every other path gives what
    it gave before, the root is unchanged and no path is cached twice if
    none was. *)
Theorem cache_set_get (cwd : list string) (c : ContentCache.t) (f v : string) :
  exists c',
    ContentCache.set cwd c f v = Ok c'
    /\ ContentCache.get c' f = Some v
    /\ (forall g, g <> f -> ContentCache.get c' g = ContentCache.get c g)
    /\ ContentCache.root c' = ContentCache.root c
    /\ (well_keyed c -> well_keyed c').
Proof. apply set_get. Qed.

Lemma delete_get (c : ContentCache.t) (f : string) :
  (ContentCache.get c f = None -> ContentCache.delete c f = Raise KeyError)
  /\ (forall v, ContentCache.get c f = Some v ->
        exists c',
          ContentCache.delete c f = Ok c'
          /\ (forall g, g <> f -> ContentCache.get c' g = ContentCache.get c g)
          /\ (well_keyed c -> ContentCache.get c' f = None /\ well_keyed c')).
Proof.
  unfold ContentCache.delete, pydict.contains. rewrite cache_get_files. split.
  - intros ->. reflexivity.
  - intros v ->. eexists. split; [reflexivity|].
    split; [intros g Hg; rewrite !cache_get_files; apply pydict_get_del_ne; exact Hg|].
    intros Hk. rewrite cache_get_files. cbn [ContentCache.files]. split.
    + apply pydict_get_del_eq. exact Hk.
    + apply pydict_del_nodup. exact Hk.
Qed.

(** X2.  [ContentCache.delete] of a path that is not cached raises
    [KeyError]; of a cached path it returns, every other path reads as
    before, and in a cache without duplicates the path is gone. *)
Theorem cache_delete_get (c : ContentCache.t) (f : string) :
  (ContentCache.get c f = None -> ContentCache.delete c f = Raise KeyError)
  /\ (forall v, ContentCache.get c f = Some v ->
        exists c',
          ContentCache.delete c f = Ok c'
          /\ (forall g, g <> f -> ContentCache.get c' g = ContentCache.get c g)
          /\ (well_keyed c -> ContentCache.get c' f = None /\ well_keyed c')).
Proof. apply delete_get. Qed.

Lemma cache_delete_get_witness :
  ContentCache.get base_cached "layouts/base.html" = Some "X"
  /\ ContentCache.get base_deleted "layouts/base.html" = None
  /\ ContentCache.delete base_deleted "layouts/base.html" = Raise KeyError
  /\ exists c',
       ContentCache.delete base_cached "layouts/base.html" = Ok c'
       /\ (forall g, g <> "layouts/base.html" ->
                     ContentCache.get c' g = ContentCache.get base_cached g)
       /\ (well_keyed base_cached ->
           ContentCache.get c' "layouts/base.html" = None /\ well_keyed c').
Proof.
  split; [reflexivity|]. split; [reflexivity|].
  split; [exact (proj1 (cache_delete_get base_deleted "layouts/base.html") eq_refl)|].
  exact (proj2 (cache_delete_get base_cached "layouts/base.html") "X" eq_refl).
Defined.

(** X3.  [ContentCache.move] of a path that is not cached returns
    with the cache as it was; of a cached path, the old path is gone, the
    new path holds the content when it differs from the old one, and all
    other paths read as before.  Moving a path onto itself removes it. *)
Theorem cache_move_get (cwd : list string) (c : ContentCache.t) (old new : string) :
  (ContentCache.get c old = None -> ContentCache.move cwd c old new = Ok c)
  /\ (forall v, ContentCache.get c old = Some v -> well_keyed c ->
        exists c',
          ContentCache.move cwd c old new = Ok c'
          /\ ContentCache.get c' old = None
          /\ (new <> old -> ContentCache.get c' new = Some v)
          /\ (forall g, g <> old -> g <> new -> ContentCache.get c' g = ContentCache.get c g)
          /\ well_keyed c').
Proof.
  rewrite move_set_then_delete, cache_get_files. split.
  - intros ->. reflexivity.
  - intros v Hv Hk. rewrite Hv.
    destruct (set_get cwd c new v) as (c1 & Hset & Hnew & Hother & _ & Hk1).
    rewrite Hset. cbn.
    destruct (ContentCache.get c1 old) as [v1|] eqn:Hold.
    2:{ exfalso. destruct (decide (old = new)) as [->|Hne]; [congruence|].
        rewrite Hother, cache_get_files in Hold by exact Hne. congruence. }
    destruct (proj2 (delete_get c1 old) v1 Hold) as (c2 & Hdel & Hrest & Hgone).
    destruct (Hgone (Hk1 Hk)) as [Hnone Hk2].
    exists c2. split; [exact Hdel|]. split; [exact Hnone|].
    split; [intros Hne; rewrite Hrest by exact Hne; exact Hnew|].
    split; [|exact Hk2].
    intros g Hg Hg'. rewrite Hrest by exact Hg. apply Hother. exact Hg'.
Qed.

Lemma cache_move_get_witness :
  ContentCache.get base_cached "layouts/base.html" = Some "X"
  /\ well_keyed base_cached
  /\ ContentCache.get base_deleted "layouts/base.html" = None
  /\ ContentCache.move ["site"] base_deleted "layouts/base.html" "layouts/main.html"
     = Ok base_deleted
  /\ exists c',
       ContentCache.move ["site"] base_cached "layouts/base.html" "layouts/base.html" = Ok c'
       /\ ContentCache.get c' "layouts/base.html" = None
       /\ ("layouts/base.html" <> "layouts/base.html" ->
           ContentCache.get c' "layouts/base.html" = Some "X")
       /\ (forall g, g <> "layouts/base.html" -> g <> "layouts/base.html" ->
                     ContentCache.get c' g = ContentCache.get base_cached g)
       /\ well_keyed c'.
Proof.
  assert (Hk : well_keyed base_cached).
  { unfold well_keyed. cbn. constructor; [intros []|constructor]. }
  split; [reflexivity|]. split; [exact Hk|]. split; [reflexivity|].
  split; [exact (proj1 (cache_move_get ["site"] base_deleted "layouts/base.html"
                          "layouts/main.html") eq_refl)|].
  exact (proj2 (cache_move_get ["site"] base_cached "layouts/base.html" "layouts/base.html")
               "X" eq_refl Hk).
Defined.

Lemma read_get (cwd : list string) (d : os.Disk) (c : ContentCache.t) (f : string) :
  (os.isfile cwd d (posixpath.join (ContentCache.root c) [f]) = false ->
   ContentCache.peek cwd d c f = Ok None /\ ContentCache.read cwd d c f = Ok (None, c))
  /\ (forall v, os.read cwd d (posixpath.join (ContentCache.root c) [f]) = Ok v ->
        ContentCache.peek cwd d c f = Ok (Some v)
        /\ exists c',
             ContentCache.read cwd d c f = Ok (Some v, c')
             /\ ContentCache.get c' f = Some v
             /\ (forall g, g <> f -> ContentCache.get c' g = ContentCache.get c g)).
Proof.
  split.
  - intros Hf. unfold ContentCache.read, ContentCache.peek. rewrite Hf. split; reflexivity.
  - intros v Hv.
    assert (Hpeek : ContentCache.peek cwd d c f = Ok (Some v)).
    { unfold ContentCache.peek. rewrite Hv.
      unfold os.read in Hv. unfold os.isfile.
      destruct (os.lookup d _) as [[content| |content]|]; try discriminate. reflexivity. }
    split; [exact Hpeek|].
    rewrite (read_fresh _ _ _ _ _ Hpeek). eexists. split; [reflexivity|].
    rewrite cache_get_files. cbn [cache_with ContentCache.files].
    split; [apply pydict_get_set_eq|].
    intros g Hg. rewrite !cache_get_files. apply pydict_get_set_ne. exact Hg.
Qed.

(** X4.  [ContentCache.peek] and [read] of a path with no regular
    file under the root return [None] and leave the cache as it was; of a
    path whose file can be read they return its text, and after [read] the
    cache holds that text under the path, every other path reading as
    before. *)
Theorem cache_read_get (cwd : list string) (d : os.Disk) (c : ContentCache.t) (f : string) :
  (os.isfile cwd d (posixpath.join (ContentCache.root c) [f]) = false ->
   ContentCache.peek cwd d c f = Ok None /\ ContentCache.read cwd d c f = Ok (None, c))
  /\ (forall v, os.read cwd d (posixpath.join (ContentCache.root c) [f]) = Ok v ->
        ContentCache.peek cwd d c f = Ok (Some v)
        /\ exists c',
             ContentCache.read cwd d c f = Ok (Some v, c')
             /\ ContentCache.get c' f = Some v
             /\ (forall g, g <> f -> ContentCache.get c' g = ContentCache.get c g)).
Proof. apply read_get. Qed.

Lemma cache_read_get_witness :
  os.isfile ["site"] blog_disk
            (posixpath.join (ContentCache.root (ContentCache.__init__ "/site")) ["content/none.md"])
  = false
  /\ ContentCache.read ["site"] blog_disk (ContentCache.__init__ "/site") "content/none.md"
     = Ok (None, ContentCache.__init__ "/site")
  /\ os.read ["site"] blog_disk
             (posixpath.join (ContentCache.root (ContentCache.__init__ "/site")) ["content/about.md"])
     = Ok about_old
  /\ exists c',
       ContentCache.read ["site"] blog_disk (ContentCache.__init__ "/site") "content/about.md"
       = Ok (Some about_old, c')
       /\ ContentCache.get c' "content/about.md" = Some about_old
       /\ (forall g, g <> "content/about.md" ->
                     ContentCache.get c' g = ContentCache.get (ContentCache.__init__ "/site") g).
Proof.
  assert (H1 : os.isfile ["site"] blog_disk
                 (posixpath.join (ContentCache.root (ContentCache.__init__ "/site"))
                                 ["content/none.md"]) = false) by (vm_compute; reflexivity).
  assert (H2 : os.read ["site"] blog_disk
                 (posixpath.join (ContentCache.root (ContentCache.__init__ "/site"))
                                 ["content/about.md"]) = Ok about_old)
    by (vm_compute; reflexivity).
  split; [exact H1|].
  split; [exact (proj2 (proj1 (cache_read_get ["site"] blog_disk (ContentCache.__init__ "/site")
                                  "content/none.md") H1))|].
  split; [exact H2|].
  exact (proj2 (proj2 (cache_read_get ["site"] blog_disk (ContentCache.__init__ "/site")
                         "content/about.md") about_old H2)).
Defined.

(** ** Sorting *)

Lemma insert_hdrel {A} (le : A -> A -> bool) x y l :
  le y x = true -> HdRel (fun a b => le a b = true) y l ->
  HdRel (fun a b => le a b = true) y (pysort.insert le x l).
Proof.
  intros Hyx Hl. destruct l as [|z l]; cbn; [constructor; exact Hyx|].
  destruct (le x z); constructor; [exact Hyx|].
  inversion Hl; assumption.
Qed.

Lemma insert_sorted {A} (le : A -> A -> bool) x l :
  (forall a b, le a b = false -> le b a = true) ->
  Sorted (fun a b => le a b = true) l ->
  Sorted (fun a b => le a b = true) (pysort.insert le x l).
Proof.
  intros Htotal Hl. induction Hl as [|y l Hl IH Hhd]; cbn.
  - repeat constructor.
  - destruct (le x y) eqn:Hxy.
    + constructor; [constructor; assumption|constructor; exact Hxy].
    + constructor; [exact IH|]. apply insert_hdrel; [apply Htotal; exact Hxy|exact Hhd].
Qed.

Lemma sort_sorted {A} (le : A -> A -> bool) l :
  (forall a b, le a b = false -> le b a = true) ->
  Sorted (fun a b => le a b = true) (pysort.sort le l).
Proof.
  intros Htotal. induction l as [|x l IH]; cbn; [constructor|].
  apply insert_sorted; assumption.
Qed.

Lemma leb_total_false a b : String.leb a b = false -> String.leb b a = true.
Proof.
  intros H. destruct (String.leb_total a b) as [H'|H']; [congruence|exact H'].
Qed.

Lemma sort_strings_sorted l :
  Sorted (fun a b => String.leb a b = true) (pysort.sort_strings l).
Proof. apply sort_sorted, leb_total_false. Qed.

Lemma sort_strings_permutation l : Permutation l (pysort.sort_strings l).
Proof. apply sort_permutation. Qed.

(** X5.  [ls_relative] of a path that is no directory is the empty
    list, and its result is always in ascending order. *)
Theorem ls_relative_sorted (cwd : list string) (d : os.Disk) (list_path : string) :
  (os.isdir cwd d list_path = false -> ls_relative cwd d list_path = [])
  /\ Sorted (fun a b => String.leb a b = true) (ls_relative cwd d list_path).
Proof.
  unfold ls_relative. split.
  - intros ->. reflexivity.
  - destruct (negb _); [constructor|apply sort_strings_sorted].
Qed.

Lemma ls_relative_sorted_witness :
  os.isdir ["site"] blog_disk "/site/drafts" = false
  /\ ls_relative ["site"] blog_disk "/site/drafts" = []
  /\ ls_relative ["site"] blog_disk "/site/content" = ["about.md"; "index.html"].
Proof.
  split; [vm_compute; reflexivity|].
  split; [|vm_compute; reflexivity].
  apply (ls_relative_sorted ["site"] blog_disk "/site/drafts"). vm_compute. reflexivity.
Defined.

(** ** [Site.tags] *)

Lemma tagnames_fold (l : list PageObject.t) (acc : gset string) x :
  x ∈ fold_left (fun (tagnames : gset string) page =>
                   match PageObject.tags page with
                   | Some ((_ :: _) as ts) => tagnames ∪ list_to_set ts
                   | _ => tagnames
                   end) l acc
  <-> x ∈ acc \/ exists page ts, In page l /\ PageObject.tags page = Some ts /\ In x ts.
Proof.
  revert acc. induction l as [|page l IH]; intros acc; cbn [fold_left].
  - split; [auto|]. intros [H|(p & ts & [] & _)]. exact H.
  - rewrite IH. split.
    + intros [H|(p & ts & Hin & Ht & Hx)].
      * destruct (PageObject.tags page) as [[|t ts]|] eqn:Htags; auto.
        apply elem_of_union in H as [H|H]; [auto|].
        apply elem_of_list_to_set, list_elem_of_In in H.
        right. exists page, (t :: ts). cbn. auto.
      * right. exists p, ts. cbn. auto.
    + intros [H|(p & ts & [<-|Hin] & Ht & Hx)].
      * left. destruct (PageObject.tags page) as [[|t ts]|]; auto.
        apply elem_of_union. auto.
      * left. rewrite Ht. destruct ts as [|t ts]; [destruct Hx|].
        apply elem_of_union. right. apply elem_of_list_to_set, list_elem_of_In. exact Hx.
      * right. exists p, ts. auto.
Qed.

(** X6.  [Site.tags] always returns and changes nothing; its result
    holds exactly the tags occurring in the tag list of some page of
    [pagedata], each once, in ascending order. *)
Theorem tags_sorted_set (w : World) :
  exists taglist,
    Site.tags w = (Ok taglist, w)
    /\ (forall x, In x taglist <->
                  exists page ts, In page (site_pagedata w)
                                  /\ PageObject.tags page = Some ts /\ In x ts)
    /\ List.NoDup taglist
    /\ Sorted (fun a b => String.leb a b = true) taglist.
Proof.
  unfold Site.tags. rewrite run_get_world. eexists. split; [reflexivity|].
  set (tagnames := fold_left _ (site_pagedata w) ∅).
  pose proof (sort_strings_permutation (elements tagnames)) as Hperm.
  split; [|split].
  - intros x. rewrite <- list_elem_of_In, <- Hperm, elem_of_elements.
    unfold tagnames. rewrite tagnames_fold. split.
    + intros [H|H]; [apply elem_of_empty in H; contradiction|exact H].
    + auto.
  - apply NoDup_ListNoDup. rewrite <- Hperm. apply NoDup_elements.
  - apply sort_strings_sorted.
Qed.

(** ** [ContentCache.warm] *)

Lemma read_isfile cwd d p v : os.read cwd d p = Ok v -> os.isfile cwd d p = true.
Proof.
  unfold os.read, os.isfile. destruct (os.lookup d _) as [[c| |c]|]; try discriminate.
  reflexivity.
Qed.

Lemma read_up_to_date cwd d c f r c' :
  ContentCache.read cwd d c f = Ok (r, c') ->
  ContentCache.root c' = ContentCache.root c
  /\ up_to_date cwd d (ContentCache.root c) c' f
  /\ (forall k, up_to_date cwd d (ContentCache.root c) c k ->
                up_to_date cwd d (ContentCache.root c) c' k)
  /\ (well_keyed c -> well_keyed c').
Proof.
  intros Hread.
  destruct (os.isfile cwd d (posixpath.join (ContentCache.root c) [f])) eqn:Hf.
  - assert (Hex : exists v0, os.read cwd d (posixpath.join (ContentCache.root c) [f]) = Ok v0).
    { unfold ContentCache.read, ContentCache.peek in Hread. rewrite Hf in Hread.
      destruct (os.read cwd d _) as [v0|e]; [eauto|discriminate]. }
    destruct Hex as [v0 Hv0].
    pose proof (read_fresh cwd d c f v0) as Hfresh.
    rewrite Hfresh in Hread
      by (apply (proj2 (read_get cwd d c f)); exact Hv0).
    injection Hread as <- <-.
    assert (Hget : ContentCache.get (cache_with cwd c f v0) f = Some v0)
      by (rewrite cache_get_files; apply pydict_get_set_eq).
    split; [reflexivity|]. split; [|split].
    + intros v Hv. rewrite Hv0 in Hv. injection Hv as <-. exact Hget.
    + intros k Hk v Hv. destruct (decide (k = f)) as [->|Hne].
      * rewrite Hv0 in Hv. injection Hv as <-. exact Hget.
      * rewrite cache_get_files. cbn [cache_with ContentCache.files].
        rewrite pydict_get_set_ne by exact Hne. rewrite <- cache_get_files. apply Hk, Hv.
    + apply pydict_set_nodup.
  - destruct (proj1 (read_get cwd d c f) Hf) as [_ Hnone].
    rewrite Hnone in Hread. injection Hread as <- <-.
    split; [reflexivity|]. split; [|split; auto].
    intros v Hv. apply read_isfile in Hv. congruence.
Qed.

Lemma warm_loop cwd d path l c c' :
  for_result l (fun file self2 =>
                  r ← ContentCache.read cwd d self2 (posixpath.join path [file]); Ok (snd r))
             c = Ok c' ->
  ContentCache.root c' = ContentCache.root c
  /\ (forall k, up_to_date cwd d (ContentCache.root c) c k ->
                up_to_date cwd d (ContentCache.root c) c' k)
  /\ (forall file, In file l ->
                   up_to_date cwd d (ContentCache.root c) c' (posixpath.join path [file]))
  /\ (well_keyed c -> well_keyed c').
Proof.
  revert c. induction l as [|file l IH]; intros c; cbn [for_result].
  - intros [= <-]. repeat split; auto. intros file [].
  - destruct (ContentCache.read cwd d c (posixpath.join path [file])) as [[r c1]|e] eqn:Hr;
      [|discriminate].
    cbn. intros Hrest.
    apply read_up_to_date in Hr as (Hroot1 & Hown & Hkeep1 & Hk1).
    apply IH in Hrest as (Hroot & Hkeep & Hall & Hk).
    rewrite Hroot1 in *.
    split; [exact Hroot|]. split; [auto|]. split; [|auto].
    intros file' [<-|Hin]; [apply Hkeep, Hown|apply Hall, Hin].
Qed.

Lemma warm_listed cwd d c c' :
  ContentCache.warm cwd d c = Ok c' ->
  ContentCache.root c' = ContentCache.root c
  /\ (well_keyed c -> well_keyed c')
  /\ forall path file v,
       In path ["content"; "layouts"] ->
       In file (ls_relative cwd d (posixpath.join (ContentCache.root c) [path])) ->
       os.read cwd d (posixpath.join (ContentCache.root c) [posixpath.join path [file]]) = Ok v ->
       ContentCache.get c' (posixpath.join path [file]) = Some v.
Proof.
  unfold ContentCache.warm. cbn [for_result].
  destruct (for_result _ _ c) as [c1|e] eqn:H1; [|discriminate]. cbn.
  destruct (for_result _ _ c1) as [c2|e] eqn:H2; [|discriminate]. cbn.
  intros [= <-].
  apply warm_loop in H1 as (Hroot1 & Hkeep1 & Hall1 & Hk1).
  apply warm_loop in H2 as (Hroot2 & Hkeep2 & Hall2 & Hk2).
  rewrite Hroot1 in *.
  split; [exact Hroot2|]. split; [auto|].
  intros path file v [<-|[<-|[]]] Hin Hv.
  - apply (Hkeep2 _ (Hall1 _ Hin)). exact Hv.
  - apply (Hall2 _ Hin). exact Hv.
Qed.

(** X7.  When [ContentCache.warm] returns, the root is unchanged, no
    path is cached twice if none was, and every file that [ls_relative]
    lists under [content] or [layouts] and that can be read is cached with
    its content, under [content/...] or [layouts/...]. *)
Theorem warm_caches_listed (cwd : list string) (d : os.Disk) (c c' : ContentCache.t) :
  ContentCache.warm cwd d c = Ok c' ->
  ContentCache.root c' = ContentCache.root c
  /\ (well_keyed c -> well_keyed c')
  /\ forall path file v,
       In path ["content"; "layouts"] ->
       In file (ls_relative cwd d (posixpath.join (ContentCache.root c) [path])) ->
       os.read cwd d (posixpath.join (ContentCache.root c) [posixpath.join path [file]]) = Ok v ->
       ContentCache.get c' (posixpath.join path [file]) = Some v.
Proof. apply warm_listed. Qed.

Lemma warm_caches_listed_witness :
  exists c',
    ContentCache.warm ["site"] blog_disk (ContentCache.__init__ "/site") = Ok c'
    /\ ContentCache.get c' (posixpath.join "layouts" ["markdown.html"]) = Some "{{ content }}".
Proof.
  assert (Hc' : ContentCache.warm ["site"] blog_disk (ContentCache.__init__ "/site")
                = Ok (site_cache (Toy.site blog_disk))) by (vm_compute; reflexivity).
  exists (site_cache (Toy.site blog_disk)). split; [exact Hc'|].
  apply (warm_caches_listed ["site"] blog_disk _ _ Hc'); [right; left; reflexivity| |].
  - vm_compute. left. reflexivity.
  - vm_compute. reflexivity.
Defined.

(** ** [Page.parse_metadata] and [Page.parse_string] *)

Lemma pydict_lookup d k :
  (if pydict.contains d k then pydict.get d k else None) = pydict.get d k.
Proof. unfold pydict.contains. destruct (pydict.get d k); reflexivity. Qed.

Ltac eval_eqb :=
  repeat match goal with
         | |- context [String.eqb ?a ?b] =>
             let v := eval vm_compute in (String.eqb a b) in
             match v with
             | true => change (String.eqb a b) with true
             | false => change (String.eqb a b) with false
             end
         end.

Lemma assign_key_meta values key self :
  In key ["date"; "title"; "slug"; "template"] ->
  Page.assign_key values key self
  = match pydict.get values key with
    | Some v => Page.setattr_meta self key (Some v)
    | None => self
    end.
Proof.
  intros Hkey. unfold Page.assign_key. rewrite pydict_lookup.
  destruct self as [p a f fo s e u d t te ti b c r].
  destruct Hkey as [<-|[<-|[<-|[<-|[]]]]]; eval_eqb; cbv iota;
    destruct (pydict.get values _) as [v|]; try reflexivity;
    unfold Page.getattr_meta, Page.setattr_meta; eval_eqb; cbv iota;
    cbn [PageObject.date PageObject.title PageObject.slug PageObject.template].
  - destruct d; reflexivity.
  - destruct ti; reflexivity.
  - destruct te; reflexivity.
Qed.

Lemma parse_metadata_items_unfold items self :
  Page.parse_metadata_items items self
  = let values := Page.values_of items in
    let p0 := Page.assign_key values "tags" self in
    let p1 := match pydict.get values "date" with
              | Some v => PageObject.set_date (Some v) p0 | None => p0 end in
    let p2 := match pydict.get values "title" with
              | Some v => PageObject.set_title (Some v) p1 | None => p1 end in
    let p3 := match pydict.get values "slug" with
              | Some v => PageObject.set_slug v p2 | None => p2 end in
    let p4 := match pydict.get values "template" with
              | Some v => PageObject.set_template (Some v) p3 | None => p3 end in
    PageObject.set_parsed true (PageObject.set_url (Page._get_url p4) p4).
Proof.
  unfold Page.parse_metadata_items, Page.metadata. cbn [fold_left].
  rewrite !assign_key_meta by (cbn; tauto).
  reflexivity.
Qed.

Lemma parse_metadata_items_fields items self :
  let values := Page.values_of items in
  let page := Page.parse_metadata_items items self in
  PageObject.parsed page = true
  /\ PageObject.slug page
     = match pydict.get values "slug" with Some s => s | None => PageObject.slug self end
  /\ PageObject.url page = Page._get_url page
  /\ PageObject.date page = or_else (pydict.get values "date") (PageObject.date self)
  /\ PageObject.title page = or_else (pydict.get values "title") (PageObject.title self)
  /\ PageObject.template page
     = or_else (pydict.get values "template") (PageObject.template self)
  /\ PageObject.filepath page = PageObject.filepath self
  /\ PageObject.folder page = PageObject.folder self
  /\ PageObject.ext page = PageObject.ext self
  /\ PageObject.body page = PageObject.body self.
Proof.
  intros values page. subst page. rewrite parse_metadata_items_unfold. fold values.
  cbv zeta. unfold Page.assign_key. eval_eqb. cbv iota.
  destruct (pydict.get values "date") as [vd|];
    destruct (pydict.get values "title") as [vt|];
    destruct (pydict.get values "slug") as [vs|];
    destruct (pydict.get values "template") as [vte|];
    (split; [reflexivity|]); (split; [reflexivity|]); (split; [reflexivity|]);
    (split; [reflexivity|]); (split; [reflexivity|]); (split; [reflexivity|]);
    (split; [reflexivity|]); (split; [reflexivity|]); (split; reflexivity).
Qed.

Lemma parse_metadata_parts (X : External) (text : string) (self : PageObject.t) :
  (forall e, config_items X ("[Metadata]" ++ Page.newline ++ text) = Raise e ->
             Page.parse_metadata X text self = Raise e)
  /\ (forall page, Page.parse_metadata X text self = Ok page ->
        exists items,
          config_items X ("[Metadata]" ++ Page.newline ++ text) = Ok items
          /\ PageObject.parsed page = true
          /\ PageObject.slug page
             = match pydict.get (Page.values_of items) "slug" with
               | Some s => s
               | None => PageObject.slug self
               end
          /\ PageObject.url page = Page._get_url page
          /\ PageObject.date page
             = or_else (pydict.get (Page.values_of items) "date") (PageObject.date self)
          /\ PageObject.title page
             = or_else (pydict.get (Page.values_of items) "title") (PageObject.title self)
          /\ PageObject.template page
             = or_else (pydict.get (Page.values_of items) "template") (PageObject.template self)
          /\ PageObject.filepath page = PageObject.filepath self
          /\ PageObject.folder page = PageObject.folder self
          /\ PageObject.ext page = PageObject.ext self
          /\ PageObject.body page = PageObject.body self).
Proof.
  unfold Page.parse_metadata. split.
  - intros e ->. reflexivity.
  - intros page. destruct (config_items X _) as [items|e]; [|discriminate].
    unfold mbind, result_bind. intros [= <-]. exists items.
    split; [reflexivity|]. apply parse_metadata_items_fields.
Qed.

(** X8.  [Page.parse_metadata] raises what the configuration parser
    raises; when it returns, the page is marked parsed, its slug is the
    one of the metadata or else the one it had, its URL is recomputed from
    the result, date, title and template are those of the metadata or else
    those the page had, and path, folder, extension and body are
    untouched. *)
Theorem parse_metadata_fields (X : External) (text : string) (self : PageObject.t) :
  (forall e, config_items X ("[Metadata]" ++ Page.newline ++ text) = Raise e ->
             Page.parse_metadata X text self = Raise e)
  /\ (forall page, Page.parse_metadata X text self = Ok page ->
        exists items,
          config_items X ("[Metadata]" ++ Page.newline ++ text) = Ok items
          /\ PageObject.parsed page = true
          /\ PageObject.slug page
             = match pydict.get (Page.values_of items) "slug" with
               | Some s => s
               | None => PageObject.slug self
               end
          /\ PageObject.url page = Page._get_url page
          /\ PageObject.date page
             = or_else (pydict.get (Page.values_of items) "date") (PageObject.date self)
          /\ PageObject.title page
             = or_else (pydict.get (Page.values_of items) "title") (PageObject.title self)
          /\ PageObject.template page
             = or_else (pydict.get (Page.values_of items) "template") (PageObject.template self)
          /\ PageObject.filepath page = PageObject.filepath self
          /\ PageObject.folder page = PageObject.folder self
          /\ PageObject.ext page = PageObject.ext self
          /\ PageObject.body page = PageObject.body self).
Proof. apply parse_metadata_parts. Qed.

Lemma parse_metadata_fields_witness :
  config_items Toy.external ("[Metadata]" ++ Page.newline ++ "no delimiter here")
  = Raise ParsingError
  /\ Page.parse_metadata Toy.external "no delimiter here" about_raw = Raise ParsingError
  /\ exists page,
       Page.parse_metadata Toy.external "slug: me" about_raw = Ok page
       /\ PageObject.slug page = "me"
       /\ PageObject.url page = "/me/"
       /\ PageObject.url page = Page._get_url page.
Proof.
  assert (H : config_items Toy.external ("[Metadata]" ++ Page.newline ++ "no delimiter here")
              = Raise ParsingError) by (vm_compute; reflexivity).
  split; [exact H|].
  split; [exact (proj1 (parse_metadata_fields Toy.external "no delimiter here" about_raw) _ H)|].
  eexists. split; [vm_compute; reflexivity|].
  split; [vm_compute; reflexivity|]. split; [vm_compute; reflexivity|].
  edestruct (proj2 (parse_metadata_fields Toy.external "slug: me" about_raw))
    as (items & _ & _ & _ & Hurl & _); [|exact Hurl].
  vm_compute. reflexivity.
Defined.

Lemma get_url_set_url u self : Page._get_url (PageObject.set_url u self) = Page._get_url self.
Proof. reflexivity. Qed.

(** X9.  A page [Page.parse_string] returns is marked parsed, so that
    [get_target] succeeds on it, and its URL agrees with its fields.  From
    a text without the delimiter the body is the stripped text, the slug
    the default one, and tags, title, date and template stay [None]; from a
    text with the delimiter the body is the stripped text after its first
    occurrence and the tags are a list. *)
Theorem parse_string_parsed (X : External) (cwd : list string) (root filepath : string)
        (text : option string) (page : PageObject.t) :
  Page.parse_string X cwd root filepath text = Ok page ->
  PageObject.parsed page = true
  /\ (exists target, Page.get_target page = Ok target)
  /\ PageObject.url page = Page._get_url page
  /\ exists s,
       text = Some s
       /\ (String.index 0 Page.metadelimiter s = None ->
           PageObject.body page = Some (pystr.strip s)
           /\ PageObject.tags page = None
           /\ PageObject.title page = None
           /\ PageObject.date page = None
           /\ PageObject.template page = None
           /\ PageObject.slug page = Page._get_default_slug (PageObject.filepath page))
       /\ (forall i, String.index 0 Page.metadelimiter s = Some i ->
           PageObject.body page
           = Some (pystr.strip
                     (String.substring (i + 4) (String.length s - (i + 4)) s))
           /\ exists tags, PageObject.tags page = Some tags).
Proof.
  unfold Page.parse_string. intros Hparse.
  destruct (Page.__init__ cwd root filepath) as [raw|e] eqn:Hinit; [|discriminate].
  unfold mbind at 1, result_bind at 1 in Hparse. cbv beta iota in Hparse.
  destruct text as [s|];
    unfold mbind at 1, result_bind at 1 in Hparse; cbv beta iota in Hparse;
    [|discriminate].
  assert (Htarget : forall p, PageObject.parsed p = true ->
                              exists target, Page.get_target p = Ok target).
  { intros p Hp. unfold Page.get_target. rewrite Hp. cbn [negb].
    destruct (pystr.mem _ _); eauto. }
  assert (Hraw : PageObject.url raw = Page._get_url raw
                 /\ PageObject.tags raw = None /\ PageObject.title raw = None
                 /\ PageObject.date raw = None /\ PageObject.template raw = None
                 /\ PageObject.slug raw = Page._get_default_slug (PageObject.filepath raw)).
  { unfold Page.__init__ in Hinit. destruct (posixpath.relpath _ _ _); [|discriminate].
    injection Hinit as <-. repeat split. }
  destruct Hraw as (Hu & Ht & Hti & Hd & Hte & Hs).
  unfold pystr.split1 in Hparse.
  destruct (String.index 0 Page.metadelimiter s) as [i|] eqn:Hidx.
  - destruct (Page.parse_metadata X _ raw) as [p1|e] eqn:Hmeta; [|discriminate].
    unfold mbind, result_bind in Hparse. injection Hparse as <-.
    destruct (proj2 (parse_metadata_parts X _ raw) p1 Hmeta)
      as (items & _ & Hparsed & _ & Hurl & _).
    assert (Htags : exists tags, PageObject.tags p1 = Some tags).
    { unfold Page.parse_metadata in Hmeta.
      destruct (config_items X _) as [its|e]; [|discriminate].
      unfold mbind, result_bind in Hmeta. injection Hmeta as <-.
      rewrite tags_parse_metadata_items. eauto. }
    split; [exact Hparsed|]. split; [apply Htarget; exact Hparsed|].
    split; [exact Hurl|]. exists s. split; [reflexivity|].
    split; [intros H; congruence|]. intros i' Hi'.
    assert (i' = i) as -> by congruence. split; [reflexivity|exact Htags].
  - injection Hparse as <-. split; [reflexivity|]. split; [apply Htarget; reflexivity|].
    split; [exact Hu|]. exists s. split; [reflexivity|].
    split; [|intros i' H; congruence]. intros _. repeat split; assumption.
Qed.

Lemma parse_string_parsed_witness :
  Page.parse_string Toy.external ["site"] "/site" "content/about.md" (Some about_new)
  = Ok about_new_page
  /\ PageObject.parsed about_new_page = true
  /\ (exists target, Page.get_target about_new_page = Ok target).
Proof.
  assert (H : Page.parse_string Toy.external ["site"] "/site" "content/about.md"
                                (Some about_new) = Ok about_new_page)
    by (vm_compute; reflexivity).
  split; [exact H|].
  destruct (parse_string_parsed Toy.external _ _ _ _ _ H) as (Hp & Ht & _).
  split; assumption.
Defined.

(** ** [Page.render] *)

(** X10.  [Page.render] changes at most the [content] and [rendered]
    attributes of the page.  For a page that is not Markdown, [content] is
    untouched, and the call raises [TemplateNotFound], leaving the page as
    it was, when no template is registered under the page's own path; for
    a Markdown page with a body, [content] becomes the Markdown rendering
    of the body.  [rendered] holds the output when the call returns, and is
    untouched when it raises. *)
Theorem render_frame (X : External) (w : World) (self : PageObject.t) :
  let page := snd (Page.render X w self) in
  PageObject.set_rendered (PageObject.rendered self)
    (PageObject.set_content (PageObject.content self) page) = self
  /\ (pystr.mem (PageObject.ext self) [".md"; ".markdown"] = false ->
      PageObject.content page = PageObject.content self
      /\ (ContentCache.templates (site_cache w) !! PageObject.filepath self = None ->
          Page.render X w self = (Raise TemplateNotFound, self)))
  /\ (forall b, pystr.mem (PageObject.ext self) [".md"; ".markdown"] = true ->
                PageObject.body self = Some b ->
                PageObject.content page = Some (markdown X b))
  /\ (forall out, fst (Page.render X w self) = Ok out ->
                  PageObject.rendered page = Some out)
  /\ (forall e, fst (Page.render X w self) = Raise e ->
                PageObject.rendered page = PageObject.rendered self).
Proof.
  cbn zeta. unfold Page.render.
  destruct (render_in_facts X w None self) as (Hframe & Hok & Hraise & _).
  cbn zeta in *.
  split; [exact Hframe|]. split; [|split; [|split; [exact Hok|exact Hraise]]].
  - intros Hext. split.
    + destruct (render_in_spec X w None self)
        as (template & c & self1 & _ & Hsame & _ & ->).
      rewrite (Hsame Hext). destruct template as [src|e]; cbn zeta; [|reflexivity].
      destruct (_ ≫= _); reflexivity.
    + intros Hnone. unfold Page.render_in, Page.get_template.
      rewrite Hext, Hnone. reflexivity.
  - intros b Hext Hbody.
    destruct (render_in_spec X w None self)
      as (template & c & self1 & Hself & _ & Hc & ->).
    rewrite (Hc b Hext Hbody) in Hself. subst self1.
    destruct template as [src|e]; cbn zeta; [|reflexivity].
    destruct (_ ≫= _); reflexivity.
Qed.

Lemma render_frame_witness :
  pystr.mem (PageObject.ext about_new_page) [".md"; ".markdown"] = true
  /\ PageObject.body about_new_page = Some "Bye"
  /\ PageObject.content (snd (Page.render Toy.external edited about_new_page))
     = Some (markdown Toy.external "Bye")
  /\ fst (Page.render Toy.external edited about_new_page) = Ok "<p>Bye</p>"
  /\ PageObject.rendered (snd (Page.render Toy.external edited about_new_page))
     = Some "<p>Bye</p>".
Proof.
  assert (H : fst (Page.render Toy.external edited about_new_page) = Ok "<p>Bye</p>")
    by (vm_compute; reflexivity).
  split; [reflexivity|]. split; [reflexivity|].
  destruct (render_frame Toy.external edited about_new_page) as (_ & _ & Hmd & Hok & _).
  split; [apply Hmd; reflexivity|]. split; [exact H|]. apply Hok. exact H.
Defined.

(** ** Names and extensions *)

Lemma app_empty_r s : s ++ "" = s.
Proof. induction s as [|a s IH]; [reflexivity|]. rewrite app_cons, IH. reflexivity. Qed.

Lemma string_app_assoc s t u : (s ++ t) ++ u = s ++ (t ++ u).
Proof. induction s as [|a s IH]; [reflexivity|]. rewrite !app_cons, IH. reflexivity. Qed.

Lemma split_last_roundtrip c p :
  fst (posixpath.split_last c p) ++ snd (posixpath.split_last c p) = p.
Proof.
  induction p as [|a p IH]; [reflexivity|]. cbn [posixpath.split_last].
  destruct (posixpath.split_last c p) as [h t]. cbn [fst snd] in IH.
  destruct h as [|b h].
  - rewrite app_empty in IH. subst t. destruct (pystr.eqb_ascii a c); reflexivity.
  - cbn [fst snd]. rewrite app_cons, IH. reflexivity.
Qed.

Lemma rsplit_dot_roundtrip s r e : posixpath.rsplit_dot s = Some (r, e) -> r ++ e = s.
Proof.
  revert r e. induction s as [|a s IH]; intros r e; cbn [posixpath.rsplit_dot]; [discriminate|].
  destruct (posixpath.rsplit_dot s) as [[r0 e0]|].
  - intros [= <- <-]. rewrite app_cons, (IH r0 e0) by reflexivity. reflexivity.
  - destruct (pystr.eqb_ascii a "."); [|discriminate]. intros [= <- <-]. reflexivity.
Qed.

Lemma splitext_roundtrip p :
  fst (posixpath.splitext p) ++ snd (posixpath.splitext p) = p.
Proof.
  unfold posixpath.splitext.
  pose proof (split_last_roundtrip posixpath.sep p) as Hp.
  destruct (posixpath.split_last posixpath.sep p) as [h t]. cbn [fst snd] in Hp.
  destruct (posixpath.rsplit_dot t) as [[r e]|] eqn:Hr; [|apply app_empty_r].
  destruct (posixpath.all_char "." r); [apply app_empty_r|].
  cbn [fst snd]. rewrite string_app_assoc, (rsplit_dot_roundtrip _ _ _ Hr). exact Hp.
Qed.

Lemma splitext_ext_in_folder f t :
  has_char posixpath.sep t = false ->
  snd (posixpath.splitext (f ++ String posixpath.sep t)) = snd (posixpath.splitext t).
Proof.
  intros Ht. unfold posixpath.splitext.
  rewrite split_last_app, split_last_absent by exact Ht.
  destruct (posixpath.rsplit_dot t) as [[r e]|]; [|reflexivity].
  destruct (posixpath.all_char "." r); reflexivity.
Qed.

Lemma rsplit_dot_absent s : has_char "." s = false -> posixpath.rsplit_dot s = None.
Proof.
  induction s as [|a s IH]; cbn [has_char posixpath.rsplit_dot]; [reflexivity|].
  intros H. apply orb_false_iff in H as [Ha Hs]. rewrite (IH Hs), Ha. reflexivity.
Qed.

Lemma rsplit_dot_app s e :
  has_char "." e = false ->
  posixpath.rsplit_dot (s ++ String "." e) = Some (s, String "." e).
Proof.
  intros He. induction s as [|a s IH].
  - rewrite app_empty. cbn [posixpath.rsplit_dot]. rewrite (rsplit_dot_absent e He).
    reflexivity.
  - rewrite app_cons. cbn [posixpath.rsplit_dot]. rewrite IH. reflexivity.
Qed.

Lemma join_snoc comps t :
  comps <> [] ->
  pystr.join "/" (comps ++ [t]) = pystr.join "/" comps ++ String posixpath.sep t.
Proof.
  intros Hne. induction comps as [|x l IH]; [congruence|].
  destruct l as [|y l]; [reflexivity|].
  change ((x :: y :: l) ++ [t])%list with (x :: (y :: l) ++ [t])%list.
  change ((y :: l) ++ [t])%list with (y :: (l ++ [t]))%list.
  rewrite join_cons. change (y :: (l ++ [t]))%list with ((y :: l) ++ [t])%list.
  rewrite IH by discriminate. rewrite join_cons, string_app_assoc. reflexivity.
Qed.

Lemma file_in_join comps name : file_in comps name = pystr.join "/" (comps ++ [name]).
Proof.
  destruct comps as [|c comps]; [reflexivity|].
  unfold file_in. rewrite join_snoc by discriminate. reflexivity.
Qed.

Lemma file_in_fields comps name :
  Forall component comps -> component name ->
  Page._get_folder (file_in comps name) = pystr.join "/" comps
  /\ posixpath.basename (file_in comps name) = name
  /\ Page._get_extension (file_in comps name) = snd (posixpath.splitext name)
  /\ (forall rest, posixpath.isabs rest = false ->
                   posixpath.join (pystr.join "/" comps) [rest] = file_in comps rest)
  /\ posixpath.normpath (file_in comps name) = file_in comps name.
Proof.
  intros Hall Hname. pose proof Hname as (Hn1 & Hn2 & Hn3 & Hn4).
  unfold Page._get_folder, Page._get_extension.
  assert (Hnorm : posixpath.normpath (file_in comps name) = file_in comps name).
  { rewrite file_in_join. apply normpath_folder.
    - destruct comps; discriminate.
    - apply Forall_app. split; [exact Hall|]. constructor; [exact Hname|constructor]. }
  destruct comps as [|c comps]; cbn [file_in].
  - unfold posixpath.dirname, posixpath.basename. rewrite split_last_absent by exact Hn4.
    repeat split; try exact Hnorm.
    intros rest Hrest. unfold posixpath.join. cbn [fold_left]. unfold posixpath.join2.
    rewrite Hrest. reflexivity.
  - assert (Hne : c :: comps <> []) by discriminate.
    rewrite dirname_in_folder, basename_in_folder, splitext_ext_in_folder by assumption.
    repeat split; try exact Hnorm.
    intros rest Hrest. unfold posixpath.join. cbn [fold_left]. unfold posixpath.join2.
    rewrite Hrest, (endswith_sep_join _ Hne Hall).
    destruct (String.eqb_spec (pystr.join "/" (c :: comps)) "") as [He|_];
      [apply join_nonempty in He; [contradiction|assumption..]|].
    reflexivity.
Qed.

Lemma isabs_component name : component name -> posixpath.isabs name = false.
Proof.
  intros (Hn1 & _ & _ & Hn4). destruct name as [|a s]; [congruence|].
  cbn [has_char] in Hn4. apply orb_false_iff in Hn4 as [Ha _].
  apply prefix_slash_false. exact Ha.
Qed.

(** X11.  A file whose extension is none of [.html], [.md],
    [.markdown] and whose name without the extension is not [index] keeps
    its name: slug and extension make up the file name, the URL is [/]
    followed by the path relative to [content], and the target is that
    path. *)
Theorem other_extension_keeps_name (cwd : list string) (root filepath : string)
        (comps : list string) (name : string) (page : PageObject.t) :
  Forall component comps -> component name ->
  page_like (snd (posixpath.splitext name)) = false ->
  fst (posixpath.splitext name) <> "index" ->
  Page.__init__ cwd root filepath = Ok page ->
  PageObject.filepath page = file_in comps name ->
  PageObject.slug page ++ PageObject.ext page = name
  /\ PageObject.url page = "/" ++ PageObject.filepath page
  /\ Page.get_target (PageObject.set_parsed true page) = Ok (PageObject.filepath page).
Proof.
  intros Hall Hname Hext Hslug Hinit Hpath.
  destruct (init_fields _ _ _ _ Hinit) as (Hfolder & Hs & He & Hurl).
  rewrite Hpath in Hfolder, Hs, He.
  destruct (file_in_fields comps name Hall Hname) as (Hf & Hb & Hx & Hjoin & Hnorm).
  rewrite Hf in Hfolder. rewrite Hx in He.
  unfold Page._get_default_slug in Hs. rewrite Hb in Hs.
  destruct (String.eqb_spec (fst (posixpath.splitext name)) "index"); [contradiction|].
  assert (Hname' : PageObject.slug page ++ PageObject.ext page = name)
    by (rewrite Hs, He; apply splitext_roundtrip).
  split; [exact Hname'|].
  assert (Hjoined : posixpath.join (PageObject.folder page)
                                   [PageObject.slug page ++ PageObject.ext page]
                    = PageObject.filepath page).
  { rewrite Hname', Hfolder, Hpath. apply Hjoin, isabs_component, Hname. }
  split.
  - rewrite Hurl. unfold Page._get_url.
    change (pystr.mem (PageObject.ext page) [".html"; ".md"; ".markdown"])
      with (page_like (PageObject.ext page)).
    rewrite He, Hext, <- He, Hjoined. reflexivity.
  - unfold Page.get_target.
    cbn [PageObject.set_parsed PageObject.parsed PageObject.ext PageObject.folder
         PageObject.slug negb].
    change (pystr.mem (PageObject.ext page) [".html"; ".md"; ".markdown"])
      with (page_like (PageObject.ext page)).
    rewrite He, Hext, <- He, Hjoined, Hpath, Hnorm. reflexivity.
Qed.

Lemma component_text name :
  name <> "" -> name <> "." -> name <> ".." -> has_char posixpath.sep name = false ->
  component name.
Proof. intros. repeat split; assumption. Qed.

Lemma other_extension_keeps_name_witness :
  Page.__init__ ["site"] "/site" "/site/content/feeds/atom.xml" = Ok atom_xml
  /\ PageObject.filepath atom_xml = file_in ["feeds"] "atom.xml"
  /\ PageObject.slug atom_xml ++ PageObject.ext atom_xml = "atom.xml"
  /\ PageObject.url atom_xml = "/" ++ PageObject.filepath atom_xml
  /\ Page.get_target (PageObject.set_parsed true atom_xml) = Ok (PageObject.filepath atom_xml).
Proof.
  assert (Hinit : Page.__init__ ["site"] "/site" "/site/content/feeds/atom.xml" = Ok atom_xml)
    by (vm_compute; reflexivity).
  split; [exact Hinit|]. split; [reflexivity|].
  apply (other_extension_keeps_name ["site"] "/site" "/site/content/feeds/atom.xml"
                                    ["feeds"] "atom.xml" atom_xml).
  - constructor; [|constructor]. apply component_text; (discriminate || reflexivity).
  - apply component_text; (discriminate || reflexivity).
  - reflexivity.
  - vm_compute. discriminate.
  - exact Hinit.
  - reflexivity.
Defined.

(** X12.  A file [index.e] with another extension than those of
    pages loses its name: the empty slug is used outside the page
    extensions too, so URL and target are [.e] in the folder of the
    file. *)
Theorem index_other_extension_loses_name (cwd : list string) (root filepath : string)
        (comps : list string) (e : string) (page : PageObject.t) :
  Forall component comps ->
  e <> "" -> has_char "." e = false -> has_char posixpath.sep e = false ->
  page_like (String "." e) = false ->
  Page.__init__ cwd root filepath = Ok page ->
  PageObject.filepath page = file_in comps ("index" ++ String "." e) ->
  PageObject.slug page = ""
  /\ PageObject.ext page = String "." e
  /\ PageObject.url page = "/" ++ file_in comps (String "." e)
  /\ Page.get_target (PageObject.set_parsed true page) = Ok (file_in comps (String "." e)).
Proof.
  intros Hall He Hdot Hsep Hlike Hinit Hpath.
  assert (Hsplit : posixpath.splitext ("index" ++ String "." e) = ("index", String "." e)).
  { unfold posixpath.splitext. rewrite split_last_absent.
    - rewrite (rsplit_dot_app "index" e Hdot). reflexivity.
    - cbn. exact Hsep. }
  assert (Hindex : component ("index" ++ String "." e)).
  { apply component_text; try discriminate. cbn. exact Hsep. }
  assert (Hext : component (String "." e)).
  { apply component_text; try discriminate.
    - intros [= ->]. contradiction.
    - intros [= ->]. discriminate.
    - cbn. exact Hsep. }
  destruct (init_fields _ _ _ _ Hinit) as (Hfolder & Hs & Hx & Hurl).
  rewrite Hpath in Hfolder, Hs, Hx.
  destruct (file_in_fields comps _ Hall Hindex) as (Hf & Hb & Hx' & Hjoin & _).
  destruct (file_in_fields comps _ Hall Hext) as (_ & _ & _ & _ & Hnorm).
  rewrite Hf in Hfolder. rewrite Hx', Hsplit in Hx. cbn [snd] in Hx.
  unfold Page._get_default_slug in Hs. rewrite Hb, Hsplit in Hs. cbn in Hs.
  split; [exact Hs|]. split; [exact Hx|].
  assert (Hjoined : posixpath.join (PageObject.folder page)
                                   [PageObject.slug page ++ PageObject.ext page]
                    = file_in comps (String "." e)).
  { rewrite Hs, Hx, Hfolder, app_empty. apply Hjoin, isabs_component, Hext. }
  rewrite Hx in Hjoined.
  split.
  - rewrite Hurl. unfold Page._get_url.
    change (pystr.mem (PageObject.ext page) [".html"; ".md"; ".markdown"])
      with (page_like (PageObject.ext page)).
    rewrite Hx, Hlike, Hjoined. reflexivity.
  - unfold Page.get_target.
    cbn [PageObject.set_parsed PageObject.parsed PageObject.ext PageObject.folder
         PageObject.slug negb].
    change (pystr.mem (PageObject.ext page) [".html"; ".md"; ".markdown"])
      with (page_like (PageObject.ext page)).
    rewrite Hx, Hlike, Hjoined, Hnorm. reflexivity.
Qed.

Lemma index_other_extension_loses_name_witness :
  Page.__init__ ["site"] "/site" "/site/content/feeds/index.xml" = Ok index_xml
  /\ PageObject.filepath index_xml = file_in ["feeds"] ("index" ++ String "." "xml")
  /\ PageObject.slug index_xml = ""
  /\ PageObject.ext index_xml = ".xml"
  /\ PageObject.url index_xml = "/" ++ file_in ["feeds"] ".xml"
  /\ Page.get_target (PageObject.set_parsed true index_xml) = Ok (file_in ["feeds"] ".xml").
Proof.
  assert (Hinit : Page.__init__ ["site"] "/site" "/site/content/feeds/index.xml" = Ok index_xml)
    by (vm_compute; reflexivity).
  split; [exact Hinit|]. split; [reflexivity|].
  apply (index_other_extension_loses_name ["site"] "/site" "/site/content/feeds/index.xml"
                                          ["feeds"] "xml" index_xml).
  - constructor; [|constructor]. apply component_text; (discriminate || reflexivity).
  - discriminate.
  - reflexivity.
  - reflexivity.
  - reflexivity.
  - exact Hinit.
  - reflexivity.
Defined.

(** ** [Site.pages]: filters *)

Lemma stdpp_filter_bool {A} (f : A -> bool) (l : list A) :
  filter (fun x => f x = true) l = List.filter f l.
Proof.
  induction l as [|x l IH]; [reflexivity|]. cbn [List.filter].
  destruct (f x) eqn:Hx.
  - rewrite filter_cons_True by exact Hx. rewrite IH. reflexivity.
  - rewrite filter_cons_False by congruence. exact IH.
Qed.

Lemma filter_result_ok tag l l' :
  filter_result (has_tag tag) l = Ok l' ->
  l' = List.filter (fun page => match PageObject.tags page with
                                | Some ts => pystr.mem tag ts
                                | None => false
                                end) l
  /\ Forall (fun page => PageObject.tags page <> None) l.
Proof.
  revert l'. induction l as [|x l IH]; intros l'; cbn [filter_result List.filter].
  - intros [= <-]. split; [reflexivity|constructor].
  - unfold mbind, result_bind.
    change (has_tag tag x) with (match PageObject.tags x with
                                 | Some ts => Ok (pystr.mem tag ts)
                                 | None => Raise TypeError
                                 end).
    destruct (PageObject.tags x) as [ts|] eqn:Hx; cbv beta iota; [|discriminate].
    destruct (filter_result (has_tag tag) l) as [ys|e]; cbv beta iota; [|discriminate].
    intros [= <-]. destruct (IH ys eq_refl) as [-> Hall].
    split; [reflexivity|]. constructor; [congruence|exact Hall].
Qed.

Lemma filter_result_raise tag l :
  Exists (fun page => PageObject.tags page = None) l ->
  filter_result (has_tag tag) l = Raise TypeError.
Proof.
  induction l as [|x l IH]; intros Hex; [inversion Hex|]. cbn [filter_result].
  unfold mbind, result_bind.
  change (has_tag tag x) with (match PageObject.tags x with
                               | Some ts => Ok (pystr.mem tag ts)
                               | None => Raise TypeError
                               end).
  destruct (PageObject.tags x) as [ts|] eqn:Hx; cbv beta iota; [|reflexivity].
  rewrite IH; [reflexivity|]. inversion Hex; [congruence|assumption].
Qed.

Lemma pages_no_order path tag limit w :
  Site.pages path tag limit None w
  = let by_path := selected path None (site_pagedata w) in
    match tag with
    | Some t =>
        match filter_result (has_tag t) by_path with
        | Ok l => (Ok (limited limit (Fresh l) l), w)
        | Raise e => (Raise e, w)
        end
    | None =>
        (Ok (limited limit (match path with Some _ => Fresh by_path | None => Pagedata end)
                     by_path), w)
    end.
Proof.
  unfold Site.pages, selected, limited.
  destruct path as [p|]; rewrite run_get_world, run_ret;
    cbn [deref]; rewrite ?stdpp_filter_bool.
  - destruct tag as [t|].
    + rewrite run_bind, run_bind. fold (has_tag t).
      destruct (filter_result (has_tag t) _) as [l|e]; [|reflexivity].
      cbn. destruct limit as [n|]; [destruct (0 <? n)%Z|]; reflexivity.
    + rewrite run_ret, run_ret, run_get_world.
      destruct limit as [n|]; [destruct (0 <? n)%Z|]; reflexivity.
  - destruct tag as [t|].
    + rewrite run_bind, run_bind. fold (has_tag t).
      destruct (filter_result (has_tag t) _) as [l|e]; [|reflexivity].
      cbn. destruct limit as [n|]; [destruct (0 <? n)%Z|]; reflexivity.
    + rewrite run_ret, run_ret, run_get_world.
      destruct limit as [n|]; [destruct (0 <? n)%Z|]; reflexivity.
Qed.

Lemma mem_In x l : pystr.mem x l = true <-> In x l.
Proof.
  unfold pystr.mem. rewrite existsb_exists. split.
  - intros (y & Hy & Heq). apply String.eqb_eq in Heq. subst. exact Hy.
  - intros H. exists x. split; [exact H|apply String.eqb_refl].
Qed.

Lemma selected_spec path tag l :
  sublist (selected path tag l) l
  /\ Forall (fun page =>
               (forall p, path = Some p ->
                          pystr.startswith (PageObject.filepath page) p = true)
               /\ (forall t, tag = Some t ->
                             exists ts, PageObject.tags page = Some ts /\ In t ts))
            (selected path tag l).
Proof.
  unfold selected. split.
  - destruct tag as [t|], path as [p|]; rewrite <- ?stdpp_filter_bool;
      repeat (etransitivity; [apply sublist_filter|]); reflexivity.
  - apply List.Forall_forall. intros page Hin. split.
    + intros p ->. destruct tag as [t|]; [apply filter_In in Hin as [Hin _]|];
        apply filter_In in Hin as [_ Hp]; exact Hp.
    + intros t ->. apply filter_In in Hin as [_ Ht].
      destruct (PageObject.tags page) as [ts|]; [|discriminate].
      exists ts. split; [reflexivity|apply mem_In; exact Ht].
Qed.

Lemma limit_of_spec limit l :
  sublist (limit_of limit l) l
  /\ (forall n, limit = Some n -> (0 < n)%Z -> length (limit_of limit l) <= Z.to_nat n).
Proof.
  unfold limit_of. split.
  - destruct limit as [n|]; [destruct (0 <? n)%Z|]; try reflexivity. apply sublist_take.
  - intros n -> Hn. apply Z.ltb_lt in Hn. rewrite Hn. rewrite length_take. lia.
Qed.

Lemma pages_tag_raises path t limit order w e :
  filter_result (has_tag t) (selected path None (site_pagedata w)) = Raise e ->
  Site.pages path (Some t) limit order w = (Raise e, w).
Proof.
  intros Hraise. unfold Site.pages, selected in *.
  destruct path as [p|]; rewrite run_get_world, run_ret; cbn [deref];
    rewrite ?stdpp_filter_bool; rewrite run_bind, run_bind; fold (has_tag t);
    rewrite Hraise; reflexivity.
Qed.

(** X13.  [Site.pages] without an order changes nothing; its result
    is what the path filter and then the tag filter keep of [pagedata], in
    the order of [pagedata], cut to the first [limit] pages for a positive
    limit: every page of it starts with the path and carries the tag.
    With a tag, and whatever the order, the call raises [TypeError] and
    changes nothing when a page kept by the path filter has no tag list,
    as a page without metadata has. *)
Theorem pages_filters (w : World) (path tag : option string) (limit : option Z) :
  (forall r w',
      Site.pages path tag limit None w = (Ok r, w') ->
      w' = w
      /\ deref w r = limit_of limit (selected path tag (site_pagedata w))
      /\ sublist (deref w r) (site_pagedata w)
      /\ Forall (fun page =>
                   (forall p, path = Some p ->
                              pystr.startswith (PageObject.filepath page) p = true)
                   /\ (forall t, tag = Some t ->
                                 exists ts, PageObject.tags page = Some ts /\ In t ts))
                (deref w r)
      /\ (forall n, limit = Some n -> (0 < n)%Z -> length (deref w r) <= Z.to_nat n))
  /\ (forall t order,
         tag = Some t ->
         Exists (fun page => PageObject.tags page = None)
                (selected path None (site_pagedata w)) ->
         Site.pages path tag limit order w = (Raise TypeError, w)).
Proof.
  split.
  - intros r w'. rewrite pages_no_order. cbv zeta.
    assert (Hsel : forall l, l = selected path tag (site_pagedata w) ->
               forall r0, deref w r0 = l ->
               deref w (limited limit r0 l) = limit_of limit l).
    { intros l _ r0 Hr0. unfold limited, limit_of.
      destruct limit as [n|]; [destruct (0 <? n)%Z|]; auto. }
    assert (Hall : forall l, l = limit_of limit (selected path tag (site_pagedata w)) ->
               sublist l (site_pagedata w)
               /\ Forall (fun page =>
                   (forall p, path = Some p ->
                              pystr.startswith (PageObject.filepath page) p = true)
                   /\ (forall t, tag = Some t ->
                                 exists ts, PageObject.tags page = Some ts /\ In t ts)) l
               /\ (forall n, limit = Some n -> (0 < n)%Z -> length l <= Z.to_nat n)).
    { intros l ->. destruct (selected_spec path tag (site_pagedata w)) as [Hsub Hfa].
      destruct (limit_of_spec limit (selected path tag (site_pagedata w))) as [Hsub' Hlen].
      split; [etransitivity; eassumption|]. split; [|exact Hlen].
      apply List.Forall_forall. intros page Hin.
      rewrite List.Forall_forall in Hfa. apply Hfa.
      apply list_elem_of_In. eapply elem_of_sublist; [|exact Hsub'].
      apply list_elem_of_In. exact Hin. }
    destruct tag as [t|].
    + destruct (filter_result (has_tag t) _) as [l|e] eqn:Hf; [|discriminate].
      apply filter_result_ok in Hf as [Hl _].
      intros [= <- <-]. split; [reflexivity|].
      assert (Hd : deref w (limited limit (Fresh l) l)
                   = limit_of limit (selected path (Some t) (site_pagedata w))).
      { rewrite (Hsel l) by (try reflexivity; exact Hl). rewrite Hl. reflexivity. }
      split; [exact Hd|]. apply Hall. exact Hd.
    + intros [= <- <-]. split; [reflexivity|].
      assert (Hd : deref w (limited limit match path with
                                          | Some _ => Fresh (selected path None (site_pagedata w))
                                          | None => Pagedata
                                          end (selected path None (site_pagedata w)))
                   = limit_of limit (selected path None (site_pagedata w))).
      { apply Hsel; [reflexivity|]. destruct path; reflexivity. }
      split; [exact Hd|]. apply Hall. exact Hd.
  - intros t order -> Hex. apply pages_tag_raises, filter_result_raise, Hex.
Qed.

Lemma pages_filters_witness :
  let r := Fresh (selected (Some "about") (Some "a") (site_pagedata built)) in
  Site.pages (Some "about") (Some "a") (Some 1%Z) None built = (Ok r, built)
  /\ map PageObject.filepath (deref built r) = ["about.md"]
  /\ sublist (deref built r) (site_pagedata built)
  /\ length (deref built r) <= Z.to_nat 1
  /\ Exists (fun page => PageObject.tags page = None)
            (selected None None (site_pagedata built))
  /\ Site.pages None (Some "a") None (Some "title") built = (Raise TypeError, built).
Proof.
  intros r.
  assert (H : Site.pages (Some "about") (Some "a") (Some 1%Z) None built = (Ok r, built))
    by (vm_compute; reflexivity).
  assert (Hex : Exists (fun page => PageObject.tags page = None)
                       (selected None None (site_pagedata built)))
    by (apply Exists_exists; exists (nth 1 (site_pagedata built) about_raw);
        split; [vm_compute; right; left; reflexivity|vm_compute; reflexivity]).
  destruct (proj1 (pages_filters built (Some "about") (Some "a") (Some 1%Z)) r built H)
    as (_ & _ & Hsub & _ & Hlen).
  split; [exact H|]. split; [vm_compute; reflexivity|]. split; [exact Hsub|].
  split; [apply (Hlen 1%Z); [reflexivity|lia]|]. split; [exact Hex|].
  exact (proj2 (pages_filters built None (Some "a") None) "a" (Some "title") eq_refl Hex).
Defined.

(** ** [Site.pages]: order *)

Lemma ltb_asym a b : String.ltb a b = true -> String.ltb b a = false.
Proof.
  unfold String.ltb. rewrite (String.compare_antisym a b).
  destruct (String.compare b a); cbn; congruence.
Qed.

Lemma list_lt_asym a b : pyorder.list_lt a b = true -> pyorder.list_lt b a = false.
Proof.
  revert b. induction a as [|x a IH]; intros [|y b]; cbn; try congruence.
  rewrite (String.eqb_sym y x). destruct (String.eqb x y); [apply IH|apply ltb_asym].
Qed.

Lemma le_total a b : pyorder.le a b = false -> pyorder.le b a = true.
Proof.
  unfold pyorder.le, pyorder.lt.
  destruct a as [|x|x|x|], b as [|y|y|y|]; try discriminate; try reflexivity.
  - destruct x, y; cbn; congruence.
  - intros H. apply negb_false_iff in H. rewrite (ltb_asym _ _ H). reflexivity.
  - intros H. apply negb_false_iff in H. rewrite (list_lt_asym _ _ H). reflexivity.
Qed.

Lemma sort_by_sorted {A} rev_ (keyed : list (pyval * A)) sorted :
  pyorder.sort_by rev_ keyed = Ok sorted ->
  exists keyed',
    Permutation keyed keyed' /\ sorted = map snd keyed'
    /\ Sorted (fun a b : pyval * A =>
                 pyorder.le (fst (if rev_ then b else a)) (fst (if rev_ then a else b)) = true)
              keyed'.
Proof.
  unfold pyorder.sort_by.
  destruct keyed as [|[k0 x0] [|kx keyed]].
  - intros [= <-]. exists []. repeat constructor.
  - intros [= <-]. exists [(k0, x0)]. repeat constructor.
  - destruct (forallb _ _); [|discriminate]. intros [= <-].
    set (l := (k0, x0) :: kx :: keyed).
    set (le := fun x y : pyval * A => pyorder.le (fst x) (fst y)).
    assert (Htotal : forall a b, le a b = false -> le b a = true)
      by (intros a b; apply le_total).
    destruct rev_.
    + exists (rev (pysort.sort le (rev l))). split; [|split; [reflexivity|]].
      * transitivity (rev l); [apply Permutation_rev|].
        transitivity (pysort.sort le (rev l)); [apply sort_permutation|apply Permutation_rev].
      * rewrite rev_alt. apply (Sorted_reverse (fun a b => le a b = true)).
        apply sort_sorted. exact Htotal.
    + exists (pysort.sort le l). split; [apply sort_permutation|].
      split; [reflexivity|]. apply sort_sorted. exact Htotal.
Qed.

Lemma keyed_by_fst name l keyed :
  keyed_by name l = Ok keyed ->
  Forall (fun kx => Page.getattr (snd kx) name = Ok (fst kx)) keyed.
Proof.
  unfold keyed_by. revert keyed. induction l as [|x l IH]; intros keyed; cbn [map_result].
  - intros [= <-]. constructor.
  - unfold mbind, result_bind.
    destruct (Page.getattr x name) as [k|e] eqn:Hk; [|discriminate].
    destruct (map_result _ l) as [ks|e]; [|discriminate].
    intros [= <-]. constructor; [exact Hk|apply IH; reflexivity].
Qed.

Lemma Sorted_map_Forall {A B} (P : A -> A -> Prop) (Q : A -> Prop) (R : B -> B -> Prop)
      (f : A -> B) l :
  (forall a b, Q a -> Q b -> P a b -> R (f a) (f b)) ->
  Forall Q l -> Sorted P l -> Sorted R (map f l).
Proof.
  intros HR HQ Hs. induction Hs as [|x l Hs IH Hhd]; cbn; [constructor|].
  inversion HQ as [|? ? Hx Hl]; subst. constructor; [apply IH; exact Hl|].
  destruct Hhd as [|y l Hxy]; cbn; constructor.
  inversion Hl; subst. apply HR; assumption.
Qed.

Lemma Sorted_take {A} (R : A -> A -> Prop) n l : Sorted R l -> Sorted R (take n l).
Proof.
  intros Hs. revert n. induction Hs as [|x l Hs IH Hhd]; intros [|n]; cbn; try constructor.
  - apply IH.
  - destruct Hhd as [|y l Hxy]; destruct n; cbn; constructor. exact Hxy.
Qed.

Lemma keyed_sorted_in_order rev_ name l keyed sorted :
  keyed_by name l = Ok keyed ->
  pyorder.sort_by rev_ keyed = Ok sorted ->
  Permutation l sorted /\ Sorted (in_order rev_ name) sorted.
Proof.
  intros Hkeyed Hsorted. split.
  - rewrite <- (keyed_by_snd _ _ _ Hkeyed). apply sort_by_permutation with rev_. exact Hsorted.
  - destruct (sort_by_sorted _ _ _ Hsorted) as (keyed' & Hperm & -> & Hs).
    apply Sorted_map_Forall with (3 := Hs)
      (Q := fun kx => Page.getattr (snd kx) name = Ok (fst kx)).
    + intros [ka a] [kb b] Ha Hb Hle. cbn [fst snd] in *. exists ka, kb.
      split; [exact Ha|]. split; [exact Hb|]. destruct rev_; exact Hle.
    + eapply Permutation_Forall; [exact Hperm|]. apply keyed_by_fst with l. exact Hkeyed.
Qed.

Lemma pages_with_order path tag limit order w :
  Site.pages path tag limit (Some order) w
  = match match tag with
          | Some t => filter_result (has_tag t) (selected path None (site_pagedata w))
          | None => Ok (selected path None (site_pagedata w))
          end with
    | Raise e => (Raise e, w)
    | Ok l =>
        match parse_order order with
        | Raise e => (Raise e, w)
        | Ok (rev_, name) =>
            match keyed_by name l with
            | Raise e => (Raise e, w)
            | Ok keyed =>
                match pyorder.sort_by rev_ keyed with
                | Raise e =>
                    (Raise e,
                     match path, tag with
                     | None, None =>
                         set_site_pagedata
                           (pyorder.reorder (sort_aborted w rev_ (map fst keyed))
                                            (site_pagedata w)) w
                     | _, _ => w
                     end)
                | Ok sorted =>
                    match path, tag with
                    | None, None =>
                        (Ok (limited limit Pagedata sorted), set_site_pagedata sorted w)
                    | _, _ => (Ok (limited limit (Fresh sorted) sorted), w)
                    end
                end
            end
        end
    end.
Proof.
  destruct path as [p|], tag as [t|]; [| | |apply pages_unfiltered];
    unfold Site.pages, selected, parse_order, keyed_by, limited, has_tag,
      pyorder.sort_in_place;
    unfold mbind, M_bind, mret, M_ret, get_world, lift, modify; cbn [deref];
    rewrite ?stdpp_filter_bool;
    try (destruct (filter_result _ _) as [l|e]; [|reflexivity]);
    (destruct order as [|a order']; [reflexivity|]);
    destruct (pystr.eqb_ascii a "-");
    (destruct (map_result _ _) as [keyed|e]; [|reflexivity]);
    (destruct (pyorder.sort_by _ keyed) as [sorted|e]; [|reflexivity]);
    (destruct limit as [n|]; [destruct (0 <? n)%Z|]); reflexivity.
Qed.

(** X14.  A call of [Site.pages] with an order that returns gives the
    pages in the order of the named attribute, descending for a leading
    [-]: the first [limit] of a rearrangement of the pages the filters
    keep; [pagedata] is replaced by that rearrangement when there is no
    filter, and nothing changes otherwise. *)
Theorem pages_sorted (w : World) (path tag : option string) (limit : option Z)
        (order : string) (r : listref) (w' : World) :
  Site.pages path tag limit (Some order) w = (Ok r, w') ->
  exists rev_ name sorted,
    parse_order order = Ok (rev_, name)
    /\ Permutation (selected path tag (site_pagedata w)) sorted
    /\ deref w' r = limit_of limit sorted
    /\ Sorted (in_order rev_ name) (deref w' r)
    /\ w' = match path, tag with
            | None, None => set_site_pagedata sorted w
            | _, _ => w
            end.
Proof.
  rewrite pages_with_order.
  destruct (match tag with Some t => _ | None => _ end) as [l|e] eqn:Hl; [|discriminate].
  assert (Hsel : l = selected path tag (site_pagedata w)).
  { destruct tag as [t|]; [|congruence]. apply filter_result_ok in Hl as [-> _]. reflexivity. }
  destruct (parse_order order) as [[rev_ name]|e]; [|discriminate].
  destruct (keyed_by name l) as [keyed|e] eqn:Hkeyed; [|discriminate].
  destruct (pyorder.sort_by rev_ keyed) as [sorted|e] eqn:Hsorted; [|discriminate].
  destruct (keyed_sorted_in_order _ _ _ _ _ Hkeyed Hsorted) as [Hperm Hs].
  assert (Hlim : forall r0 w0, deref w0 r0 = sorted ->
                   deref w0 (limited limit r0 sorted) = limit_of limit sorted).
  { intros r0 w0 Hr0. unfold limited, limit_of.
    destruct limit as [n|]; [destruct (0 <? n)%Z|]; auto. }
  assert (Hso : Sorted (in_order rev_ name) (limit_of limit sorted)).
  { unfold limit_of. destruct limit as [n|]; [destruct (0 <? n)%Z|]; auto.
    apply Sorted_take. exact Hs. }
  intros H. exists rev_, name, sorted. rewrite <- Hsel.
  split; [reflexivity|]. split; [exact Hperm|].
  destruct path as [p|], tag as [t|]; injection H as <- <-;
    rewrite Hlim by reflexivity; auto.
Qed.

Lemma pages_sorted_witness :
  Site.pages None None None (Some "-title") two_pages
  = (Ok Pagedata, set_site_pagedata [titled "B"; titled "A"] two_pages)
  /\ exists rev_ name sorted,
       parse_order "-title" = Ok (rev_, name)
       /\ Permutation (selected None None (site_pagedata two_pages)) sorted
       /\ deref (set_site_pagedata [titled "B"; titled "A"] two_pages) Pagedata
          = limit_of None sorted
       /\ Sorted (in_order rev_ name)
                 (deref (set_site_pagedata [titled "B"; titled "A"] two_pages) Pagedata)
       /\ set_site_pagedata [titled "B"; titled "A"] two_pages
          = set_site_pagedata sorted two_pages.
Proof.
  assert (H : Site.pages None None None (Some "-title") two_pages
              = (Ok Pagedata, set_site_pagedata [titled "B"; titled "A"] two_pages))
    by (vm_compute; reflexivity).
  split; [exact H|].
  exact (pages_sorted two_pages None None None "-title" _ _ H).
Defined.

Lemma getattr_raise_any x y name e :
  Page.getattr x name = Raise e -> Page.getattr y name = Raise e.
Proof.
  unfold Page.getattr.
  repeat (destruct (String.eqb name _); [discriminate|]).
  destruct (pystr.mem name _); [discriminate|]. auto.
Qed.

Lemma keyed_by_raise name l page e :
  In page l -> Page.getattr page name = Raise e -> keyed_by name l = Raise e.
Proof.
  intros Hin Hpage. destruct l as [|x l]; [destruct Hin|].
  unfold keyed_by. cbn [map_result]. unfold mbind, result_bind.
  rewrite (getattr_raise_any page x name e Hpage). reflexivity.
Qed.

Lemma keyed_by_ok name l page k :
  Page.getattr page name = Ok k -> exists keyed, keyed_by name l = Ok keyed.
Proof.
  intros Hpage. unfold keyed_by. induction l as [|x l [keyed IH]]; cbn [map_result].
  - eexists. reflexivity.
  - unfold mbind, result_bind in *. destruct (Page.getattr x name) as [kx|e] eqn:Hx.
    + rewrite IH. eexists. reflexivity.
    + rewrite (getattr_raise_any x page name e Hx) in Hpage. discriminate.
Qed.

Lemma comparable_none k : pyorder.comparable k VNone = false.
Proof. destruct k; reflexivity. Qed.

Lemma sort_by_none {A} rev_ (keyed : list (pyval * A)) :
  2 <= length keyed -> In VNone (map fst keyed) -> pyorder.sort_by rev_ keyed = Raise TypeError.
Proof.
  intros Hlen Hin. unfold pyorder.sort_by.
  destruct keyed as [|[k0 x0] [|kx keyed]]; cbn [length] in Hlen; try lia.
  set (l := (k0, x0) :: kx :: keyed) in *.
  destruct (forallb _ l) eqn:Hall; [|reflexivity].
  rewrite forallb_forall in Hall. apply in_map_iff in Hin as ([k x] & Hk & Hin).
  cbn in Hk. subst k. specialize (Hall _ Hin). cbn [fst] in Hall.
  rewrite comparable_none in Hall. discriminate.
Qed.

(** X15.  [Site.pages] with the empty order raises [IndexError].
    With any other order it returns the empty list when the path filter
    keeps nothing, whatever the order names; it raises [AttributeError]
    when a page is kept and [getattr] raises it for the name of the order
    on that page; and it raises [TypeError] when the attribute is [None]
    on a kept page and two pages or more are kept.  The state is unchanged
    in each of these cases but the last without a path filter: there the
    sort that raises is the one of [pagedata] itself, which is left with
    its pages in the arrangement the interrupted sort made of them. *)
Theorem pages_order_errors (w : World) (path : option string) (limit : option Z) :
  Site.pages path None limit (Some "") w = (Raise IndexError, w)
  /\ (forall order rev_ name,
         parse_order order = Ok (rev_, name) ->
         (selected path None (site_pagedata w) = [] ->
          exists r, Site.pages path None limit (Some order) w = (Ok r, w)
                    /\ deref w r = [])
         /\ (forall page,
                In page (selected path None (site_pagedata w)) ->
                Page.getattr page name = Raise AttributeError ->
                Site.pages path None limit (Some order) w = (Raise AttributeError, w))
         /\ (forall page,
                In page (selected path None (site_pagedata w)) ->
                Page.getattr page name = Ok VNone ->
                2 <= length (selected path None (site_pagedata w)) ->
                fst (Site.pages path None limit (Some order) w) = Raise TypeError
                /\ match path with
                   | Some _ => snd (Site.pages path None limit (Some order) w) = w
                   | None =>
                       exists keys,
                         map (fun page => Page.getattr page name) (site_pagedata w)
                         = map Ok keys
                         /\ snd (Site.pages path None limit (Some order) w)
                            = set_site_pagedata
                                (pyorder.reorder (sort_aborted w rev_ keys) (site_pagedata w)) w
                         /\ Permutation (site_pagedata w)
                                        (site_pagedata
                                           (snd (Site.pages path None limit (Some order) w)))
                   end)).
Proof.
  split; [rewrite pages_with_order; reflexivity|].
  intros order rev_ name Horder. split; [|split].
  - intros Hempty. rewrite pages_with_order, Horder, Hempty. cbn.
    destruct path as [p|].
    + eexists. split; [reflexivity|].
      unfold limited. destruct limit as [n|]; [destruct (0 <? n)%Z|]; cbn [deref];
        rewrite ?take_nil; reflexivity.
    + unfold selected in Hempty. exists (limited limit Pagedata []).
      rewrite <- Hempty at 2. rewrite set_site_pagedata_same. split; [reflexivity|].
      unfold limited. destruct limit as [n|]; [destruct (0 <? n)%Z|]; cbn [deref];
        rewrite ?take_nil; auto.
  - intros page Hin Hraise. rewrite pages_with_order, Horder.
    rewrite (keyed_by_raise _ _ _ _ Hin Hraise). reflexivity.
  - intros page Hin Hnone Hlen. rewrite pages_with_order, Horder.
    destruct (keyed_by_ok name (selected path None (site_pagedata w)) page _ Hnone)
      as [keyed Hkeyed].
    rewrite Hkeyed. rewrite sort_by_none.
    + cbn [fst snd]. split; [reflexivity|].
      destruct path as [p|]; [reflexivity|].
      exists (map fst keyed). cbn [selected] in Hkeyed.
      split; [|split; [reflexivity|apply reorder_permutation]].
      pose proof (keyed_by_fst _ _ _ Hkeyed) as Hall.
      rewrite <- (keyed_by_snd _ _ _ Hkeyed), !List.map_map.
      apply map_ext_Forall. exact Hall.
    + rewrite <- (length_map snd), (keyed_by_snd _ _ _ Hkeyed). exact Hlen.
    + rewrite <- (keyed_by_snd _ _ _ Hkeyed) in Hin.
      apply in_map_iff in Hin as ([k x] & Hx & Hin). cbn in Hx. subst x.
      pose proof (keyed_by_fst _ _ _ Hkeyed) as Hall.
      rewrite List.Forall_forall in Hall. specialize (Hall _ Hin). cbn in Hall.
      rewrite Hnone in Hall. injection Hall as <-.
      apply in_map_iff. exists (VNone, page). split; [reflexivity|exact Hin].
Qed.

Lemma pages_order_errors_witness :
  Site.pages None None None (Some "") two_pages = (Raise IndexError, two_pages)
  /\ (exists r, Site.pages None None None (Some "nosuch") (Toy.start ∅)
                = (Ok r, Toy.start ∅)
                /\ deref (Toy.start ∅) r = [])
  /\ Site.pages None None None (Some "-nosuch") two_pages = (Raise AttributeError, two_pages)
  /\ (fst (Site.pages None None None (Some "title") four_pages) = Raise TypeError
      /\ exists keys,
           map (fun page => Page.getattr page "title") (site_pagedata four_pages) = map Ok keys
           /\ snd (Site.pages None None None (Some "title") four_pages)
              = set_site_pagedata
                  (pyorder.reorder (sort_aborted four_pages false keys)
                                   (site_pagedata four_pages)) four_pages
           /\ Permutation (site_pagedata four_pages)
                          (site_pagedata
                             (snd (Site.pages None None None (Some "title") four_pages))))
  /\ site_pagedata (snd (Site.pages None None None (Some "title") four_pages))
     = [titled "A"; titled "B"; titled "C"; about_raw]
  /\ (fst (Site.pages (Some "about") None None (Some "title") four_pages) = Raise TypeError
      /\ snd (Site.pages (Some "about") None None (Some "title") four_pages) = four_pages).
Proof.
  split; [exact (proj1 (pages_order_errors two_pages None None))|].
  split; [exact (proj1 (proj2 (pages_order_errors (Toy.start ∅) None None)
                          "nosuch" false "nosuch" eq_refl) eq_refl)|].
  split.
  { apply (proj1 (proj2 (proj2 (pages_order_errors two_pages None None)
                           "-nosuch" true "nosuch" eq_refl)) (titled "B"));
      [left; reflexivity|reflexivity]. }
  split.
  { apply (proj2 (proj2 (proj2 (pages_order_errors four_pages None None)
                           "title" false "title" eq_refl)) about_raw);
      [right; right; right; left; reflexivity|reflexivity|cbn; lia]. }
  split; [vm_compute; reflexivity|].
  apply (proj2 (proj2 (proj2 (pages_order_errors four_pages (Some "about") None)
                         "title" false "title" eq_refl)) about_raw);
    [right; right; right; left; reflexivity|reflexivity|cbn; lia].
Defined.

(** ** Written output *)

Lemma write_read cwd d p c d' :
  os.write cwd d p c = Ok d' -> os.read_bytes cwd d' p = Ok c.
Proof.
  unfold os.write, os.read_bytes, os.lookup.
  destruct (String.eqb_spec (os.resolve cwd p) "/") as [Hroot|Hroot].
  - destruct (if String.eqb (os.parent _) "/" then _ else _) as [[?| |?]|]; discriminate.
  - destruct (if String.eqb (os.parent _) "/" then _ else _) as [[?| |?]|]; try discriminate.
    destruct (d !! os.resolve cwd p) as [[?| |?]|]; try discriminate;
      intros [= <-]; unfold os.Disk in *;
      rewrite (lookup_insert_eq (M := gmap string)); reflexivity.
Qed.

(** X16.  When [Page.render_to_disk] returns, the file [filepath] of
    the page under [output] (the source path, not the target of
    [get_target]) holds what [render] returned; when [render] raises,
    [render_to_disk] raises the same and the disk is as it was. *)
Theorem render_to_disk_output (X : External) (page : PageObject.t) (w : World) :
  let target := posixpath.join (site_root w) ["output"; PageObject.filepath page] in
  (forall w',
      Page.render_to_disk X page w = (Ok tt, w') ->
      exists out,
        fst (Page.render X w page) = Ok out
        /\ os.read_bytes (cwd w') (disk w') target = Ok out)
  /\ (forall e,
         fst (Page.render X w page) = Raise e ->
         fst (Page.render_to_disk X page w) = Raise e
         /\ disk (snd (Page.render_to_disk X page w)) = disk w).
Proof.
  intros target. rewrite render_to_disk_run. cbn zeta. fold target. unfold Page.render.
  split.
  - intros w'. destruct (fst (fst _)) as [out|e]; [|discriminate].
    destruct (if os.isdir _ _ _ then _ else _) as [d1|e]; [|discriminate].
    destruct (os.write _ d1 _ _) as [d2|e] eqn:Hwrite; [|discriminate].
    intros [= <-]. exists out. cbn [cwd disk set_disk].
    split; [reflexivity|]. eapply write_read; exact Hwrite.
  - intros e ->. split; reflexivity.
Qed.

Lemma render_to_disk_output_witness :
  Page.render_to_disk Toy.external about_new_page (Toy.site blog_disk)
  = (Ok tt, snd (Page.render_to_disk Toy.external about_new_page (Toy.site blog_disk)))
  /\ (exists out,
         fst (Page.render Toy.external (Toy.site blog_disk) about_new_page) = Ok out
         /\ os.read_bytes ["site"]
                          (disk (snd (Page.render_to_disk Toy.external about_new_page
                                                          (Toy.site blog_disk))))
                          "/site/output/about.md" = Ok out)
  /\ fst (Page.render Toy.external (Toy.site blog_disk) about_raw) = Raise AttributeError
  /\ fst (Page.render_to_disk Toy.external about_raw (Toy.site blog_disk))
     = Raise AttributeError
  /\ disk (snd (Page.render_to_disk Toy.external about_raw (Toy.site blog_disk)))
     = disk (Toy.site blog_disk).
Proof.
  assert (H : Page.render_to_disk Toy.external about_new_page (Toy.site blog_disk)
              = (Ok tt, snd (Page.render_to_disk Toy.external about_new_page
                                                 (Toy.site blog_disk))))
    by (vm_compute; reflexivity).
  assert (He : fst (Page.render Toy.external (Toy.site blog_disk) about_raw)
               = Raise AttributeError) by (vm_compute; reflexivity).
  split; [exact H|].
  split; [exact (proj1 (render_to_disk_output Toy.external about_new_page
                                              (Toy.site blog_disk)) _ H)|].
  split; [exact He|].
  exact (proj2 (render_to_disk_output Toy.external about_raw (Toy.site blog_disk)) _ He).
Defined.

(** ** [Site.build]: one page *)

Lemma build_step_ok X i w page target w' :
  site_pagedata w !! i = Some page ->
  Page.get_target page = Ok target ->
  Site.build_step X i w = (Ok tt, w') ->
  exists out,
    fst (fst (Page.render_in X w (Some i) page)) = Ok out
    /\ os.read_bytes (cwd w') (disk w') (posixpath.join (site_root w) ["output"; target])
       = Ok out
    /\ site_pagedata w' = snd (Page.render_in X w (Some i) page)
    /\ site_cache w' = site_cache w.
Proof.
  intros Hi Htarget. rewrite (build_step_run X i w page target Hi Htarget). cbn zeta.
  destruct (if os.exists_ _ _ _ then _ else _) as [d1|e]; [|discriminate].
  destruct (os.write _ d1 _ "") as [d2|e]; [|discriminate].
  destruct (fst (fst _)) as [out|e]; [|discriminate].
  destruct (os.write _ d2 _ out) as [d3|e] eqn:Hwrite; [|discriminate].
  intros [= <-]. exists out. cbn.
  split; [reflexivity|]. split; [eapply write_read; exact Hwrite|]. split; reflexivity.
Qed.



(** ** [Handler.on_created] *)

Lemma isabs_cons p : posixpath.isabs p = true -> exists s, p = String "/" s.
Proof.
  unfold posixpath.isabs, pystr.startswith. destruct p as [|a p]; cbn -[ascii_dec];
    [discriminate|].
  destruct (ascii_dec "/"%char a) as [<-|]; [eauto|discriminate].
Qed.

Lemma join_isabs a p : posixpath.isabs p = true -> posixpath.join a [p] = p.
Proof. intros Hp. unfold posixpath.join. cbn. unfold posixpath.join2. rewrite Hp. reflexivity. Qed.

Lemma template_key_isabs cwd p : posixpath.isabs p = true -> template_key cwd p = None.
Proof.
  intros Hp. destruct (isabs_cons p Hp) as [s ->]. reflexivity.
Qed.

Lemma set_site_cache_same w : set_site_cache (site_cache w) w = w.
Proof. destruct w. reflexivity. Qed.

Lemma init_ok cwd root filepath :
  filepath <> "" -> exists page, Page.__init__ cwd root filepath = Ok page.
Proof.
  intros Hne. unfold Page.__init__.
  destruct (relpath_some cwd filepath (posixpath.join root ["content"]) Hne) as [k ->].
  eauto.
Qed.

Lemma render_not_markdown X w page :
  pystr.mem (PageObject.ext page) [".md"; ".markdown"] = false ->
  ContentCache.templates (site_cache w) !! PageObject.filepath page = None ->
  fst (Page.render X w page) = Raise TemplateNotFound.
Proof.
  intros Hext Hnone. unfold Page.render, Page.render_in, Page.get_template.
  rewrite Hext, Hnone. reflexivity.
Qed.

(** X18.  [Handler.on_created] on an absolute path, as the observer
    passes it.  Without a regular file there it raises [AttributeError]
    and changes nothing.  With one that can be read, its text is cached
    under the absolute path, no template is registered and every other path
    reads as before; a page that is not Markdown then fails to render with
    [TemplateNotFound] unless a template was already registered under its
    relative path, and nothing is written. *)
Theorem on_created_absolute (X : External) (w : World) (src : string) :
  posixpath.isabs src = true ->
  (os.isfile (cwd w) (disk w) src = false ->
   Handler.on_created X src w = (Raise AttributeError, w))
  /\ (forall c,
         os.read (cwd w) (disk w) src = Ok c ->
         let w' := snd (Handler.on_created X src w) in
         ContentCache.get (site_cache w') src = Some c
         /\ ContentCache.templates (site_cache w') = ContentCache.templates (site_cache w)
         /\ (forall k, k <> src ->
                       ContentCache.get (site_cache w') k = ContentCache.get (site_cache w) k)
         /\ (forall page,
                Page.parse_string X (cwd w) (site_root w) src (Some c) = Ok page ->
                pystr.mem (PageObject.ext page) [".md"; ".markdown"] = false ->
                ContentCache.templates (site_cache w) !! PageObject.filepath page = None ->
                fst (Handler.on_created X src w) = Raise TemplateNotFound
                /\ disk w' = disk w)).
Proof.
  intros Habs. unfold Handler.on_created. rewrite run_bind, run_on_cache. split.
  - intros Hfile. unfold ContentCache.read, ContentCache.peek.
    rewrite (join_isabs _ _ Habs), Hfile. cbn [mbind result_bind fst snd].
    rewrite set_site_cache_same, run_get_world. unfold Page.parse_string.
    destruct (init_ok (cwd w) (site_root w) src) as [page ->].
    { destruct (isabs_cons src Habs) as [s ->]. discriminate. }
    reflexivity.
  - intros c Hread.
    assert (Hpeek : ContentCache.peek (cwd w) (disk w) (site_cache w) src = Ok (Some c)).
    { unfold ContentCache.peek. rewrite (join_isabs _ _ Habs), Hread.
      rewrite (read_isfile _ _ _ _ Hread). reflexivity. }
    rewrite (read_fresh _ _ _ _ _ Hpeek). cbn [fst snd].
    set (w1 := set_site_cache _ w).
    assert (Hkeep : forall m : M unit, keeps site_cache m ->
              site_cache (snd (m w1)) = site_cache w1) by (intros m Hm; apply Hm).
    assert (Hcache : site_cache (snd ((get_world ≫= fun w0 =>
                lift (Page.parse_string X (cwd w0) (site_root w0) src (Some c))
                ≫= fun page => Page.render_to_disk X page) w1)) = site_cache w1).
    { apply Hkeep. unfold Page.render_to_disk. keeps_auto. }
    cbv zeta. rewrite Hcache. unfold w1 at 1 2 3. cbn [site_cache set_site_cache].
    rewrite !cache_get_files. cbn [cache_with ContentCache.files ContentCache.templates].
    rewrite (template_key_isabs _ _ Habs).
    split; [apply pydict_get_set_eq|]. split; [reflexivity|].
    split; [intros k Hk; rewrite !cache_get_files; apply pydict_get_set_ne; exact Hk|].
    intros page Hpage Hext Hnone. rewrite run_get_world.
    change (cwd w1) with (cwd w). change (site_root w1) with (site_root w).
    rewrite Hpage, run_lift_ok.
    assert (Hr : fst (Page.render X w1 page) = Raise TemplateNotFound).
    { apply render_not_markdown; [exact Hext|]. unfold w1.
      cbn [site_cache set_site_cache cache_with ContentCache.templates].
      rewrite (template_key_isabs _ _ Habs). exact Hnone. }
    rewrite render_to_disk_run. cbn zeta. unfold Page.render in Hr. rewrite Hr.
    split; reflexivity.
Qed.

Lemma on_created_absolute_witness :
  posixpath.isabs "/site/content/new.html" = true
  /\ Handler.on_created Toy.external "/site/content/gone.html" created
     = (Raise AttributeError, created)
  /\ ContentCache.get
       (site_cache (snd (Handler.on_created Toy.external "/site/content/new.html" created)))
       "/site/content/new.html" = Some "hi"
  /\ fst (Handler.on_created Toy.external "/site/content/new.html" created)
     = Raise TemplateNotFound
  /\ disk (snd (Handler.on_created Toy.external "/site/content/new.html" created))
     = disk created.
Proof.
  split; [reflexivity|].
  split.
  - apply (on_created_absolute Toy.external created "/site/content/gone.html");
      vm_compute; reflexivity.
  - pose proof (proj2 (on_created_absolute Toy.external created "/site/content/new.html"
                         ltac:(reflexivity)) "hi" ltac:(vm_compute; reflexivity))
      as (Hget & _ & _ & Hpage).
    split; [exact Hget|].
    apply (Hpage new_html); vm_compute; reflexivity.
Defined.

(** ** [Site.build]: every page *)

Lemma get_target_parsed page target :
  Page.get_target page = Ok target -> PageObject.parsed page = true.
Proof.
  unfold Page.get_target. destruct (PageObject.parsed page); [reflexivity|discriminate].
Qed.

(** The page an iteration that returns has rendered is parsed and
    rendered, and [pagedata] holds it for the page, with the pages it
    held. *)
Lemma build_step_finished X i w w' page :
  site_pagedata w !! i = Some page ->
  Site.build_step X i w = (Ok tt, w') ->
  exists page',
    finished page'
    /\ Permutation (<[i := page']> (site_pagedata w)) (site_pagedata w')
    /\ (quiet X -> site_pagedata w' = <[i := page']> (site_pagedata w)).
Proof.
  intros Hi Hstep.
  destruct (Page.get_target page) as [target|e] eqn:Htarget.
  - destruct (build_step_ok X i w page target w' Hi Htarget Hstep)
      as (out & Hout & _ & Hpd & _).
    destruct (render_in_facts X w (Some i) page) as (_ & Hok & _ & Hperm & Hquiet).
    cbn zeta in *. cbn [with_page] in *.
    exists (snd (fst (Page.render_in X w (Some i) page))). rewrite Hpd.
    split; [|split; assumption]. split.
    + rewrite render_in_parsed. eapply get_target_parsed; exact Htarget.
    + exists out. apply Hok. exact Hout.
  - unfold Site.build_step in Hstep.
    rewrite run_get_world, Hi, Htarget, run_lift_raise in Hstep. discriminate.
Qed.

Lemma Forall_finished_insert i page (l : list PageObject.t) :
  Forall finished l -> finished page -> Forall finished (<[i := page]> l).
Proof. intros Hl Hp. apply Forall_insert; assumption. Qed.

(** When no template sorts, the loop renders the pages one after the
    other. *)
Lemma build_loop_quiet X n : quiet X -> forall a w w',
  a + n <= length (site_pagedata w) ->
  for_each (seq a n) (Site.build_step X) w = (Ok tt, w') ->
  length (site_pagedata w') = length (site_pagedata w)
  /\ (forall j page, a <= j < a + n -> site_pagedata w' !! j = Some page -> finished page)
  /\ (forall j, j < a -> site_pagedata w' !! j = site_pagedata w !! j).
Proof.
  intros Hq. induction n as [|n IH]; intros a w w' Hlen; cbn [seq for_each].
  - intros [= <-]. split; [reflexivity|]. split; [intros; lia|reflexivity].
  - rewrite run_bind.
    destruct (Site.build_step X a w) as [[[]|e] w1] eqn:Hstep; [|discriminate].
    destruct (lookup_lt_is_Some_2 (site_pagedata w) a ltac:(lia)) as [page Hpage].
    destruct (build_step_finished X a w w1 page Hpage Hstep) as (page' & Hfin & _ & Hpd).
    specialize (Hpd Hq).
    intros Hrest.
    assert (Hlen1 : length (site_pagedata w1) = length (site_pagedata w))
      by (rewrite Hpd; apply length_insert).
    destruct (IH (S a) w1 w' ltac:(lia) Hrest) as (Hl & Hin & Hout).
    split; [congruence|]. split.
    + intros j p Hj Hp. destruct (decide (j = a)) as [->|Hne].
      * rewrite Hout in Hp by lia. rewrite Hpd, list_lookup_insert_eq in Hp by lia.
        injection Hp as <-. exact Hfin.
      * apply (Hin j p); [lia|exact Hp].
    + intros j Hj. rewrite Hout by lia. rewrite Hpd.
      apply list_lookup_insert_ne. lia.
Qed.

(** Pages that are parsed and rendered stay so through the loop, in
    whatever order the templates leave them. *)
Lemma build_loop_finished X l : forall w w',
  Forall finished (site_pagedata w) ->
  for_each l (Site.build_step X) w = (Ok tt, w') ->
  Forall finished (site_pagedata w') /\ length (site_pagedata w') = length (site_pagedata w).
Proof.
  induction l as [|i l IH]; intros w w' Hall; cbn [for_each].
  - intros [= <-]. split; [exact Hall|reflexivity].
  - rewrite run_bind.
    destruct (Site.build_step X i w) as [[[]|e] w1] eqn:Hstep; [|discriminate].
    intros Hrest.
    assert (H1 : Forall finished (site_pagedata w1)
                 /\ length (site_pagedata w1) = length (site_pagedata w)).
    { destruct (site_pagedata w !! i) as [page|] eqn:Hi.
      - destruct (build_step_finished X i w w1 page Hi Hstep) as (page' & Hfin & Hperm & _).
        split.
        + eapply Permutation_Forall; [exact Hperm|].
          apply Forall_finished_insert; assumption.
        + rewrite <- Hperm. apply length_insert.
      - unfold Site.build_step in Hstep. rewrite run_get_world, Hi in Hstep.
        injection Hstep as <-. split; [exact Hall|reflexivity]. }
    destruct H1 as [Hall1 Hlen1].
    destruct (IH w1 w' Hall1 Hrest) as [Hall' Hlen'].
    split; [exact Hall'|congruence].
Qed.

(** X19.  After a [Site.build] that returns, every page of [pagedata]
    is parsed and carries its rendered text, [pagedata] has not shrunk,
    the cache is unchanged and [Page.render_to_disk] has not been
    invoked.  This holds on a site whose pages are parsed and rendered
    already, as they are in every state that the program reaches, where
    [pagedata] starts empty and [get_pages] alone adds to it, and on any
    site when no template sorts the pages. *)
Theorem build_renders_all (X : External) (w w' : World) :
  quiet X \/ Forall finished (site_pagedata w) ->
  Site.build X w = (Ok tt, w') ->
  Forall finished (site_pagedata w')
  /\ (length (site_pagedata w) <= length (site_pagedata w'))%nat
  /\ site_cache w' = site_cache w
  /\ render_to_disk_calls w' = render_to_disk_calls w.
Proof.
  intros Hcase Hbuild.
  assert (Hcache : site_cache w' = site_cache w).
  { assert (H : keeps site_cache (Site.build X)).
    { unfold Site.build, Site.get_pages, Site.get_pages_step, Site.assign_pagedata,
        Site.build_step, Site.copy_static, Site.copy_static_step. keeps_auto. }
    specialize (H w). rewrite Hbuild in H. exact H. }
  assert (Hcalls : render_to_disk_calls w' = render_to_disk_calls w).
  { assert (H : keeps render_to_disk_calls (Site.build X)).
    { unfold Site.build, Site.get_pages, Site.get_pages_step, Site.assign_pagedata,
        Site.build_step, Site.copy_static, Site.copy_static_step. keeps_auto. }
    specialize (H w). rewrite Hbuild in H. exact H. }
  revert Hbuild. unfold Site.build. rewrite run_bind.
  destruct (Site.get_pages X w) as [[r|e] w1] eqn:Hget; [|discriminate].
  apply get_pages_appends in Hget as (-> & new & Hw1 & Hperm & Hquiet & Hnew & _).
  unfold Site.assign_pagedata. rewrite run_ret, run_get_world, run_bind.
  destruct (for_each _ _ w1) as [[[]|e] w2] eqn:Hloop; [|discriminate].
  intros Hstatic.
  assert (Hpd : site_pagedata w' = site_pagedata w2).
  { assert (H : keeps site_pagedata Site.copy_static).
    { unfold Site.copy_static, Site.copy_static_step. keeps_auto. }
    specialize (H w2). rewrite Hstatic in H. exact H. }
  assert (Hlen1 : length (site_pagedata w) <= length (site_pagedata w1))
    by (rewrite <- Hperm, length_app; lia).
  split; [|split; [|split; [exact Hcache|exact Hcalls]]].
  - rewrite Hpd. destruct Hcase as [Hq|Hall].
    + destruct (build_loop_quiet X (length (site_pagedata w1)) Hq 0 w1 w2
                  ltac:(cbn; lia) Hloop) as (Hlen & Hin & _).
      apply Forall_lookup. intros j page Hj.
      apply (Hin j page); [|exact Hj].
      apply lookup_lt_Some in Hj. rewrite Hlen in Hj. lia.
    + assert (Hall1 : Forall finished (site_pagedata w1)).
      { eapply Permutation_Forall; [exact Hperm|]. apply Forall_app. split; assumption. }
      destruct (build_loop_finished X _ w1 w2 Hall1 Hloop) as [Hall2 _]. exact Hall2.
  - rewrite Hpd. destruct Hcase as [Hq|Hall].
    + destruct (build_loop_quiet X (length (site_pagedata w1)) Hq 0 w1 w2
                  ltac:(cbn; lia) Hloop) as (Hlen & _). lia.
    + assert (Hall1 : Forall finished (site_pagedata w1)).
      { eapply Permutation_Forall; [exact Hperm|]. apply Forall_app. split; assumption. }
      destruct (build_loop_finished X _ w1 w2 Hall1 Hloop) as [_ Hlen]. lia.
Qed.

(** The build of the site whose layout sorts the pages by title *)
Lemma build_renders_all_witness :
  Forall finished (site_pagedata (Toy.site sorting_disk))
  /\ fst (Site.build Toy.external (Toy.site sorting_disk)) = Ok tt
  /\ Forall finished (site_pagedata (snd (Site.build Toy.external (Toy.site sorting_disk))))
  /\ (length (site_pagedata (Toy.site sorting_disk))
      <= length (site_pagedata (snd (Site.build Toy.external (Toy.site sorting_disk)))))%nat
  /\ site_cache (snd (Site.build Toy.external (Toy.site sorting_disk)))
     = site_cache (Toy.site sorting_disk)
  /\ render_to_disk_calls (snd (Site.build Toy.external (Toy.site sorting_disk)))
     = render_to_disk_calls (Toy.site sorting_disk).
Proof.
  assert (Hall : Forall finished (site_pagedata (Toy.site sorting_disk)))
    by (vm_compute; constructor).
  assert (H : Site.build Toy.external (Toy.site sorting_disk)
              = (Ok tt, snd (Site.build Toy.external (Toy.site sorting_disk))))
    by (vm_compute; reflexivity).
  split; [exact Hall|]. split; [rewrite H; reflexivity|].
  exact (build_renders_all Toy.external _ _ (or_intror Hall) H).
Defined.

(** On a site holding pages that have not been rendered, a template
    that sorts them can leave one of them unrendered by a build that
    returns: the first iteration, on the draft titled [B], moves it
    behind the draft titled [A], and the second meets it again. *)
Example build_skips_page :
  fst (Site.build Toy.external drafts) = Ok tt
  /\ map PageObject.title (site_pagedata drafts) = [Some "B"; Some "A"]
  /\ map PageObject.title (site_pagedata (snd (Site.build Toy.external drafts)))
     = [Some "A"; Some "B"]
  /\ map PageObject.rendered (site_pagedata (snd (Site.build Toy.external drafts)))
     = [None; Some "2"].
Proof. repeat split; vm_compute; reflexivity. Qed.

(** ** [Site.__init__] *)

Lemma well_keyed_init root : well_keyed (ContentCache.__init__ root).
Proof. constructor. Qed.

(** X20.  [Site(root)] ends as [ContentCache.warm] does on the empty
    cache.  When [warm] returns, so does [Site(root)]: the root of the site
    is the absolute path of [root] while the cache keeps [root] as given,
    the disk is untouched, [pagedata] is empty, the cache holds no path
    twice, every template of the cache comes from a cached file that [set]
    projects to it, and every file listed under [content] or [layouts]
    that can be read is cached with its content.  When [warm] raises, as
    it does on a file that cannot be read or decoded, [Site(root)] raises
    the same. *)
Theorem site_init_state (root : string) (w : World) :
  match ContentCache.warm (cwd w) (disk w) (ContentCache.__init__ root) with
  | Ok c' =>
      Site.__init__ root w
      = (Ok tt, {| cwd := cwd w; disk := disk w;
                   site_root := posixpath.abspath (cwd w) root;
                   site_cache := c'; site_pagedata := [];
                   render_to_disk_calls := render_to_disk_calls w;
                   sort_aborted := sort_aborted w |})
      /\ ContentCache.root c' = root
      /\ well_keyed c'
      /\ projection (cwd w) c'
      /\ forall path file v,
           In path ["content"; "layouts"] ->
           In file (ls_relative (cwd w) (disk w) (posixpath.join root [path])) ->
           os.read (cwd w) (disk w) (posixpath.join root [posixpath.join path [file]]) = Ok v ->
           ContentCache.get c' (posixpath.join path [file]) = Some v
  | Raise e =>
      fst (Site.__init__ root w) = Raise e
      /\ disk (snd (Site.__init__ root w)) = disk w
  end.
Proof.
  destruct (ContentCache.warm (cwd w) (disk w) (ContentCache.__init__ root)) as [c'|e]
    eqn:Hwarm.
  - split.
    + unfold Site.__init__. rewrite run_get_world, !run_modify, run_bind, run_on_cache.
      cbn [cwd disk site_cache set_site_cache set_site_root]. rewrite Hwarm. reflexivity.
    + destruct (warm_listed _ _ _ _ Hwarm) as (Hroot & Hkeyed & Hall).
      split; [exact Hroot|]. split; [apply Hkeyed, well_keyed_init|].
      split; [eapply warm_projection; [apply projection_init|exact Hwarm]|exact Hall].
  - unfold Site.__init__. rewrite run_get_world, !run_modify, run_bind, run_on_cache.
    cbn [cwd disk site_cache set_site_cache set_site_root]. rewrite Hwarm.
    split; reflexivity.
Qed.

(** A file under [content] that is not UTF-8: [Site(root)] raises
    [UnicodeDecodeError]. *)
Example site_init_undecodable :
  let d := <["/site/content/bad.md" := os.File (String (ascii_of_nat 255) "")]> blog_disk in
  fst (Site.__init__ "/site" (Toy.start d)) = Raise UnicodeDecodeError.
Proof. vm_compute. reflexivity. Qed.

(** ** [Site.clean_output] and [Site.copy_static] *)

(** X21.  [Site.clean_output] raises [OSError] and changes nothing
    when [output] is no directory; otherwise it returns and changes the
    disk alone, removing [output] with everything below and nothing
    else. *)
Theorem clean_output_removes (w : World) :
  let out := posixpath.join (site_root w) ["output"] in
  (os.isdir (cwd w) (disk w) out = false -> Site.clean_output w = (Raise OSError, w))
  /\ (os.isdir (cwd w) (disk w) out = true ->
      exists d',
        Site.clean_output w = (Ok tt, set_disk d' w)
        /\ forall k, d' !! k = if os.under (os.resolve (cwd w) out) k then None
                               else disk w !! k).
Proof.
  intros out. unfold Site.clean_output. rewrite run_get_world, run_on_disk. fold out.
  unfold os.rmtree, os.isdir.
  destruct (os.lookup (disk w) (os.resolve (cwd w) out)) as [[c| |c]|]; split; try discriminate;
    try (intros _; reflexivity).
  intros _. eexists. split; [reflexivity|].
  intros k. destruct (os.under _ k) eqn:Hk.
  - apply map_lookup_filter_None_2. right. intros x _ Hf. cbn [fst] in Hf. congruence.
  - destruct (disk w !! k) as [x|] eqn:Hx.
    + apply map_lookup_filter_Some_2; [exact Hx|exact Hk].
    + apply map_lookup_filter_None_2. left. exact Hx.
Qed.

Lemma clean_output_removes_witness :
  Site.clean_output (Toy.start ∅) = (Raise OSError, Toy.start ∅)
  /\ exists d',
       Site.clean_output built = (Ok tt, set_disk d' built)
       /\ d' !! "/site/output/about/index.html" = None
       /\ d' !! "/site/content/about.md" = Some (os.File about_old).
Proof.
  split; [apply (proj1 (clean_output_removes (Toy.start ∅))); vm_compute; reflexivity|].
  destruct (proj2 (clean_output_removes built) ltac:(vm_compute; reflexivity))
    as (d' & Hclean & Hd').
  exists d'. split; [exact Hclean|].
  split; rewrite Hd'; vm_compute; reflexivity.
Defined.

(** X22.  On a site without a [static] directory [Site.copy_static]
    returns and changes nothing. *)
Theorem copy_static_without_static (w : World) :
  os.isdir (cwd w) (disk w)
           (posixpath.abspath (cwd w) (posixpath.join (site_root w) ["static"])) = false ->
  Site.copy_static w = (Ok tt, w).
Proof.
  intros Hdir. unfold Site.copy_static. rewrite run_get_world.
  unfold os.walk_files. rewrite Hdir. reflexivity.
Qed.

Lemma copy_static_without_static_witness :
  os.isdir (cwd (Toy.start ∅)) (disk (Toy.start ∅))
           (posixpath.abspath (cwd (Toy.start ∅))
                              (posixpath.join (site_root (Toy.start ∅)) ["static"])) = false
  /\ Site.copy_static (Toy.start ∅) = (Ok tt, Toy.start ∅).
Proof.
  assert (H : os.isdir (cwd (Toy.start ∅)) (disk (Toy.start ∅))
                (posixpath.abspath (cwd (Toy.start ∅))
                   (posixpath.join (site_root (Toy.start ∅)) ["static"])) = false)
    by (vm_compute; reflexivity).
  split; [exact H|exact (copy_static_without_static _ H)].
Defined.

(** ** [Site.get_pages] and [Site.build]: the order of the pages *)

(** X23.  When no template sorts the pages, a call of [get_pages] or
    [build] that returns has added to [pagedata], after the pages it
    held, one page per path of the cache that starts with [content] and is
    a regular file on disk, in the order of the cache, and [build] has
    left the pages it rendered again at their places. *)
Theorem pagedata_in_cache_order (X : External) (w : World) :
  quiet X ->
  (forall r w', Site.get_pages X w = (Ok r, w') ->
                sources w' = (sources w ++ map (source_of w) (content_files w))%list)
  /\ (forall w', Site.build X w = (Ok tt, w') ->
                 sources w' = (sources w ++ map (source_of w) (content_files w))%list).
Proof.
  intros Hq. split.
  - intros r w' Hget.
    apply get_pages_appends in Hget as (_ & new & _ & _ & Hquiet & _ & Hnew).
    unfold sources. rewrite (Hquiet Hq), map_app, Hnew. reflexivity.
  - intros w' Hbuild. apply build_sources in Hbuild as (new & _ & Hquiet & Hnew).
    rewrite (Hquiet Hq), Hnew. reflexivity.
Qed.

Lemma pagedata_in_cache_order_witness :
  quiet plain
  /\ fst (Site.build plain (Toy.site blog_disk)) = Ok tt
  /\ sources (snd (Site.build plain (Toy.site blog_disk)))
     = (sources (Toy.site blog_disk)
        ++ map (source_of (Toy.site blog_disk)) (content_files (Toy.site blog_disk)))%list
  /\ sources (snd (Site.build plain (Toy.site blog_disk)))
     = ["/site/content/about.md"; "/site/content/index.html"].
Proof.
  assert (Hq : quiet plain) by (intros ? ? ? ?; reflexivity).
  assert (H : Site.build plain (Toy.site blog_disk)
              = (Ok tt, snd (Site.build plain (Toy.site blog_disk))))
    by (vm_compute; reflexivity).
  split; [exact Hq|]. split; [rewrite H; reflexivity|].
  split; [|vm_compute; reflexivity].
  exact (proj2 (pagedata_in_cache_order plain (Toy.site blog_disk) Hq) _ H).
Defined.
